(** * Leverage strategy backtester: the simulation engine and its metrics

    A shallow embedding of [backtest_engine.py] (class [Backtester]: the
    constructor, [check_buy_limits], [run], the CAGR of [get_summary] and
    [get_step_metrics_df]) and of the table checks of
    [analysis_logic.run_simulation], followed by the properties of the day
    loop.

    Modelling conventions.
    - In the model of the whole run Python floats are idealised as exact
      rationals ([Q]); the one place where the source raises to a real
      exponent (the CAGR of [get_summary]) is stated over the reals.  A
      comparison that holds with equality in [Q] can go the other way after
      rounding, so what depends on the exact value of a price or of the cash
      (which lots an exit sells and at what price, what a purchase costs) is
      not stated on this model: the exit phase, the sale and the purchase of
      an entry and the initial purchase are embedded a second time on
      binary64 floats ([Binary64]), and the properties of exit prices and of
      the cash are proved there.
    - A [pd.Timestamp] is a number of seconds ([Z]); [.date()] and
      [Timedelta.days] are floor divisions by the length of a day.
    - A column name [f'Close_{t}'] is the pair [(FClose, t)]; ticker symbols
      are assumed to contain no underscore, so that [col.split("_")[1]] gives
      the ticker back.  The cells of the table are numbers: the provider
      forward-fills the table and drops its leading gaps.  The one column
      that has undefined cells, the moving average during its warm-up, is
      kept apart as a list of optional values.
    - [self.holdings] and [self.step_stats] are insertion-ordered
      dictionaries, modelled as association lists.
    - [ma_period] is a natural number: a negative window, on which
      [rolling] raises [ValueError], is not an input of the model.
    - Exceptions of the source are values of [Exn].  A division by zero
      stops the computation with [ZeroDivisionError]; with numpy operands
      Python would instead continue with a non-finite float, which has no
      rational counterpart either.  The divisions of [run] that no test
      guards are the two by the base price in the entry paths and those by
      the entry price of a lot, which is positive ([lots_priced] below).
    - The free-text ["Reason"] of a trade-log row is not modelled. *)

From Stdlib Require Import ZArith QArith Qabs List String Bool Lia Lqa.
From Stdlib Require Import Permutation Sorted.
From Stdlib Require Reals Qreals Lra Floats.
Import ListNotations.

Local Open Scope Q_scope.

(** ** Numbers, dates and outcomes *)

Definition Qleb (x y : Q) : bool := Qle_bool x y.
Definition Qltb (x y : Q) : bool := negb (Qle_bool y x).
Definition Qeqb (x y : Q) : bool := Qeq_bool x y.

Definition Timestamp := Z.

Definition day_seconds : Z := 86400%Z.

(** [ts.date()] *)
Definition date_of (ts : Timestamp) : Z := (ts / day_seconds)%Z.

(** [(a - b).days] *)
Definition days_between (a b : Timestamp) : Z := ((a - b) / day_seconds)%Z.

(** [ts - pd.Timedelta(days=n)] *)
Definition minus_days (ts : Timestamp) (n : Z) : Timestamp :=
  (ts - n * day_seconds)%Z.

Inductive Exn := IndexError | KeyError | ZeroDivisionError.

Inductive Outcome (A : Type) : Type :=
| Raised (e : Exn)
| Done (a : A).

Arguments Raised {A} e.
Arguments Done {A} a.

Definition bind {A B : Type} (m : Outcome A) (k : A -> Outcome B) : Outcome B :=
  match m with
  | Raised e => Raised e
  | Done a => k a
  end.

Notation "'let*' x ':=' m 'in' k" := (bind m (fun x => k))
  (at level 10, x name, m at level 100, k at level 200).

(** ** The price table *)

Inductive Field := FOpen | FHigh | FLow | FClose | FPeak.

Definition field_eqb (a b : Field) : bool :=
  match a, b with
  | FOpen, FOpen | FHigh, FHigh | FLow, FLow | FClose, FClose | FPeak, FPeak => true
  | _, _ => false
  end.

Definition Col := (Field * string)%type.

Definition col_eqb (a b : Col) : bool :=
  field_eqb (fst a) (fst b) && String.eqb (snd a) (snd b).

Definition Row := Col -> Q.

Record DataFrame := {
  df_columns : list Col;
  df_rows : list (Timestamp * Row)
}.

(** [col in self.df.columns] *)
Definition has_col (df : DataFrame) (c : Col) : bool :=
  existsb (col_eqb c) (df_columns df).

(** [row.get(col, default)] *)
Definition row_get (df : DataFrame) (row : Row) (c : Col) (default : Q) : Q :=
  if has_col df c then row c else default.

(** The per-day [prices] dictionary holds one entry per [Close_] column. *)
Definition in_prices (df : DataFrame) (t : string) : bool := has_col df (FClose, t).

(** [prices.get(t, 0)] *)
Definition prices_get (df : DataFrame) (row : Row) (t : string) : Q :=
  row_get df row (FClose, t) 0.

(** A row written as a list of cells; the cells that are not listed are 0. *)
Fixpoint row_of (cells : list (Col * Q)) : Row :=
  fun c =>
    match cells with
    | [] => 0
    | (c', v) :: rest => if col_eqb c c' then v else row_of rest c
    end.

(** ** Configuration, steps, lots *)

Record Step := {
  drop_pct : Q;
  shift_pct : Q;
  ticker : string;
  profit_pct : Q
}.

Inductive EntryType := DROP | FORCE.

Record Lot := {
  lot_ticker : string;
  lot_shares : Q;
  lot_price : Q;
  lot_step_idx : nat;
  lot_cost : Q;
  lot_buy_date : Timestamp;
  lot_entry_type : EntryType
}.

(** [sorted(steps, key=lambda x: abs(x['drop_pct']))]: a stable sort. *)
Fixpoint insert_step (s : Step) (l : list Step) : list Step :=
  match l with
  | [] => [s]
  | y :: rest =>
      if Qleb (Qabs (drop_pct s)) (Qabs (drop_pct y)) then s :: l
      else y :: insert_step s rest
  end.

Definition sort_steps (l : list Step) : list Step := fold_right insert_step [] l.

Record Config := {
  initial_capital : Q;
  base_ticker : string;
  add_tickers : list string;
  steps_input : list Step;
  start_date : option Timestamp;
  end_date : option Timestamp;
  sell_mode : string;
  cash_buffer_pct : Q;
  use_ma_filter : bool;
  ma_period : nat;
  ma_mode : string;
  max_buys_day : Z;
  max_buys_week : Z;
  force_buy_days : Z
}.

(** [self.steps] *)
Definition steps (cfg : Config) : list Step := sort_steps (steps_input cfg).

(** ** Trade log and daily records *)

Inductive Action :=
| BuyInit | SellDefensive | BuyResume | SellProfit (et : EntryType)
| ForceIdle | SkipLimit | Switch | Holding.

Record Trade := {
  t_date : Timestamp;
  t_action : Action;
  t_ticker : string;
  t_into : option string;
  t_shares : Q;
  t_price : Q;
  t_value : Q;
  t_step_idx : option nat;
  t_drop_pct : option Q;
  t_profit_amt : option Q;
  t_profit_pct : option Q;
  t_buy_date : option Timestamp;
  t_days_held : option Z
}.

Definition plain_trade (d : Timestamp) (a : Action) (t : string) (s p v : Q) : Trade :=
  {| t_date := d; t_action := a; t_ticker := t; t_into := None;
     t_shares := s; t_price := p; t_value := v;
     t_step_idx := None; t_drop_pct := None; t_profit_amt := None;
     t_profit_pct := None; t_buy_date := None; t_days_held := None |}.

Record TickerStat := {
  ts_ticker : string;
  ts_price : Q;
  ts_hold : Q;
  ts_val : Q;
  ts_pct : Q
}.

Record DailyStat := {
  d_date : Timestamp;
  d_open : Q;
  d_high : Q;
  d_low : Q;
  d_price : Q;
  d_peak : Q;
  d_drawdown : Q;
  d_portfolio_value : Q;
  d_buy_hold_value : Q;
  d_cash : Q;
  d_ma_line : option (option Q);
  d_tickers : list TickerStat
}.

Record Bucket := {
  b_count : Z;
  b_profits : list Q;
  b_amts : list Q
}.

Record StepStat := {
  ss_drop : Bucket;
  ss_force : Bucket
}.

Definition empty_bucket : Bucket := {| b_count := 0; b_profits := []; b_amts := [] |}.

(** The default factory of [self.step_stats]. *)
Definition empty_stat : StepStat := {| ss_drop := empty_bucket; ss_force := empty_bucket |}.

Definition with_bucket (et : EntryType) (f : Bucket -> Bucket) (s : StepStat) : StepStat :=
  match et with
  | DROP => {| ss_drop := f (ss_drop s); ss_force := ss_force s |}
  | FORCE => {| ss_drop := ss_drop s; ss_force := f (ss_force s) |}
  end.

Definition incr_count (b : Bucket) : Bucket :=
  {| b_count := b_count b + 1; b_profits := b_profits b; b_amts := b_amts b |}.

Definition add_profit (profit amt : Q) (b : Bucket) : Bucket :=
  {| b_count := b_count b; b_profits := b_profits b ++ [profit];
     b_amts := b_amts b ++ [amt] |}.

(** ** Dictionaries *)

Section Dict.
Context {K V : Type} (eqb : K -> K -> bool).

(** [d.get(k, default)] *)
Fixpoint dict_get (d : list (K * V)) (k : K) (default : V) : V :=
  match d with
  | [] => default
  | (k', v) :: rest => if eqb k k' then v else dict_get rest k default
  end.

(** [d[k] = v]: an existing key keeps its place, a new key goes last. *)
Fixpoint dict_set (d : list (K * V)) (k : K) (v : V) : list (K * V) :=
  match d with
  | [] => [(k, v)]
  | (k', v') :: rest =>
      if eqb k k' then (k', v) :: rest else (k', v') :: dict_set rest k v
  end.

End Dict.

Definition Holdings := list (string * Q).

Definition hget (h : Holdings) (t : string) : Q := dict_get String.eqb h t 0.
Definition hset (h : Holdings) (t : string) (v : Q) : Holdings := dict_set String.eqb h t v.

Definition StepStats := list (nat * StepStat).

(** [self.step_stats[i]]: a missing entry is created by the default factory. *)
Definition stat_get (s : StepStats) (i : nat) : StepStat := dict_get Nat.eqb s i empty_stat.

Definition stat_update (s : StepStats) (i : nat) (f : StepStat -> StepStat) : StepStats :=
  dict_set Nat.eqb s i (f (stat_get s i)).

(** [flags[i] = b]; the index is always below [len(self.steps)]. *)
Fixpoint set_flag (flags : list bool) (i : nat) (b : bool) : list bool :=
  match flags, i with
  | [], _ => []
  | _ :: rest, O => b :: rest
  | f :: rest, S j => f :: set_flag rest j b
  end.

Definition flag_at (flags : list bool) (i : nat) : bool := nth i flags false.

(** ** The mutable state of a run

    The attributes of [Backtester] that [run] mutates, together with the
    three locals of [run] that live across days. *)

Record St := {
  cash : Q;
  holdings : Holdings;
  lots : list Lot;
  step_active_flags : list bool;
  trade_log : list Trade;
  daily_stats : list DailyStat;
  buy_history : list Timestamp;
  last_buy_date : Timestamp;
  step_stats : StepStats;
  rebalance_count : Z;
  total_rebalanced : Q;
  bh_shares : Q;
  active_defensive : bool;
  is_ma_paused : bool;
  peak_price : Q
}.

Definition set_cash (v : Q) (s : St) : St :=
  {| cash := v; holdings := holdings s; lots := lots s;
     step_active_flags := step_active_flags s; trade_log := trade_log s;
     daily_stats := daily_stats s; buy_history := buy_history s;
     last_buy_date := last_buy_date s; step_stats := step_stats s;
     rebalance_count := rebalance_count s; total_rebalanced := total_rebalanced s;
     bh_shares := bh_shares s; active_defensive := active_defensive s;
     is_ma_paused := is_ma_paused s; peak_price := peak_price s |}.

Definition set_holdings (v : Holdings) (s : St) : St :=
  {| cash := cash s; holdings := v; lots := lots s;
     step_active_flags := step_active_flags s; trade_log := trade_log s;
     daily_stats := daily_stats s; buy_history := buy_history s;
     last_buy_date := last_buy_date s; step_stats := step_stats s;
     rebalance_count := rebalance_count s; total_rebalanced := total_rebalanced s;
     bh_shares := bh_shares s; active_defensive := active_defensive s;
     is_ma_paused := is_ma_paused s; peak_price := peak_price s |}.

Definition set_lots (v : list Lot) (s : St) : St :=
  {| cash := cash s; holdings := holdings s; lots := v;
     step_active_flags := step_active_flags s; trade_log := trade_log s;
     daily_stats := daily_stats s; buy_history := buy_history s;
     last_buy_date := last_buy_date s; step_stats := step_stats s;
     rebalance_count := rebalance_count s; total_rebalanced := total_rebalanced s;
     bh_shares := bh_shares s; active_defensive := active_defensive s;
     is_ma_paused := is_ma_paused s; peak_price := peak_price s |}.

Definition set_flags (v : list bool) (s : St) : St :=
  {| cash := cash s; holdings := holdings s; lots := lots s;
     step_active_flags := v; trade_log := trade_log s;
     daily_stats := daily_stats s; buy_history := buy_history s;
     last_buy_date := last_buy_date s; step_stats := step_stats s;
     rebalance_count := rebalance_count s; total_rebalanced := total_rebalanced s;
     bh_shares := bh_shares s; active_defensive := active_defensive s;
     is_ma_paused := is_ma_paused s; peak_price := peak_price s |}.

(** [self.trade_log.append(t)] *)
Definition log_trade (t : Trade) (s : St) : St :=
  {| cash := cash s; holdings := holdings s; lots := lots s;
     step_active_flags := step_active_flags s; trade_log := trade_log s ++ [t];
     daily_stats := daily_stats s; buy_history := buy_history s;
     last_buy_date := last_buy_date s; step_stats := step_stats s;
     rebalance_count := rebalance_count s; total_rebalanced := total_rebalanced s;
     bh_shares := bh_shares s; active_defensive := active_defensive s;
     is_ma_paused := is_ma_paused s; peak_price := peak_price s |}.

(** [self.daily_stats.append(d)] *)
Definition record_day (d : DailyStat) (s : St) : St :=
  {| cash := cash s; holdings := holdings s; lots := lots s;
     step_active_flags := step_active_flags s; trade_log := trade_log s;
     daily_stats := daily_stats s ++ [d]; buy_history := buy_history s;
     last_buy_date := last_buy_date s; step_stats := step_stats s;
     rebalance_count := rebalance_count s; total_rebalanced := total_rebalanced s;
     bh_shares := bh_shares s; active_defensive := active_defensive s;
     is_ma_paused := is_ma_paused s; peak_price := peak_price s |}.

(** [self.buy_history.append(d)] *)
Definition record_buy (d : Timestamp) (s : St) : St :=
  {| cash := cash s; holdings := holdings s; lots := lots s;
     step_active_flags := step_active_flags s; trade_log := trade_log s;
     daily_stats := daily_stats s; buy_history := buy_history s ++ [d];
     last_buy_date := last_buy_date s; step_stats := step_stats s;
     rebalance_count := rebalance_count s; total_rebalanced := total_rebalanced s;
     bh_shares := bh_shares s; active_defensive := active_defensive s;
     is_ma_paused := is_ma_paused s; peak_price := peak_price s |}.

Definition set_last_buy_date (d : Timestamp) (s : St) : St :=
  {| cash := cash s; holdings := holdings s; lots := lots s;
     step_active_flags := step_active_flags s; trade_log := trade_log s;
     daily_stats := daily_stats s; buy_history := buy_history s;
     last_buy_date := d; step_stats := step_stats s;
     rebalance_count := rebalance_count s; total_rebalanced := total_rebalanced s;
     bh_shares := bh_shares s; active_defensive := active_defensive s;
     is_ma_paused := is_ma_paused s; peak_price := peak_price s |}.

Definition set_step_stats (v : StepStats) (s : St) : St :=
  {| cash := cash s; holdings := holdings s; lots := lots s;
     step_active_flags := step_active_flags s; trade_log := trade_log s;
     daily_stats := daily_stats s; buy_history := buy_history s;
     last_buy_date := last_buy_date s; step_stats := v;
     rebalance_count := rebalance_count s; total_rebalanced := total_rebalanced s;
     bh_shares := bh_shares s; active_defensive := active_defensive s;
     is_ma_paused := is_ma_paused s; peak_price := peak_price s |}.

Definition count_rebalance (amt : Q) (s : St) : St :=
  {| cash := cash s; holdings := holdings s; lots := lots s;
     step_active_flags := step_active_flags s; trade_log := trade_log s;
     daily_stats := daily_stats s; buy_history := buy_history s;
     last_buy_date := last_buy_date s; step_stats := step_stats s;
     rebalance_count := rebalance_count s + 1;
     total_rebalanced := total_rebalanced s + amt;
     bh_shares := bh_shares s; active_defensive := active_defensive s;
     is_ma_paused := is_ma_paused s; peak_price := peak_price s |}.

Definition set_regime (defensive paused : bool) (s : St) : St :=
  {| cash := cash s; holdings := holdings s; lots := lots s;
     step_active_flags := step_active_flags s; trade_log := trade_log s;
     daily_stats := daily_stats s; buy_history := buy_history s;
     last_buy_date := last_buy_date s; step_stats := step_stats s;
     rebalance_count := rebalance_count s; total_rebalanced := total_rebalanced s;
     bh_shares := bh_shares s; active_defensive := defensive;
     is_ma_paused := paused; peak_price := peak_price s |}.

Definition set_peak_price (v : Q) (s : St) : St :=
  {| cash := cash s; holdings := holdings s; lots := lots s;
     step_active_flags := step_active_flags s; trade_log := trade_log s;
     daily_stats := daily_stats s; buy_history := buy_history s;
     last_buy_date := last_buy_date s; step_stats := step_stats s;
     rebalance_count := rebalance_count s; total_rebalanced := total_rebalanced s;
     bh_shares := bh_shares s; active_defensive := active_defensive s;
     is_ma_paused := is_ma_paused s; peak_price := v |}.

(** ** [Backtester.check_buy_limits] *)

Definition count_if {A : Type} (f : A -> bool) (l : list A) : Z :=
  Z.of_nat (List.length (filter f l)).

Definition same_day (current_date d : Timestamp) : bool :=
  (date_of d =? date_of current_date)%Z.

Definition in_week (current_date d : Timestamp) : bool :=
  ((date_of (minus_days current_date 6) <=? date_of d)
   && (date_of d <=? date_of current_date))%Z.

Definition check_buy_limits (cfg : Config) (history : list Timestamp)
    (current_date : Timestamp) : bool :=
  if ((max_buys_day cfg =? 0) && (max_buys_week cfg =? 0))%Z then true
  else if ((0 <? max_buys_day cfg)
           && (max_buys_day cfg <=? count_if (same_day current_date) history))%Z
  then false
  else if ((0 <? max_buys_week cfg)
           && (max_buys_week cfg <=? count_if (in_week current_date) history))%Z
  then false
  else true.

(** ** The day loop of [Backtester.run] *)

Section Day.

Variable cfg : Config.
Variable df : DataFrame.
Variable date : Timestamp.
Variable row : Row.

Let base := base_ticker cfg.
Let price_of (t : string) : Q := prices_get df row t.

(** The moving-average regime switch: liquidation of every holding. *)
Fixpoint liquidate (h : Holdings) (c : Q) : Q * Holdings * list Trade :=
  match h with
  | [] => (c, [], [])
  | (t, s) :: rest =>
      if Qltb 0 s then
        let p := price_of t in
        let val := s * p in
        let '(c', h', lg) := liquidate rest (c + val) in
        (c', (t, 0) :: h', plain_trade date SellDefensive t s p val :: lg)
      else
        let '(c', h', lg) := liquidate rest c in
        (c', (t, s) :: h', lg)
  end.

Definition all_inactive : list bool := map (fun _ => false) (steps cfg).

Definition go_defensive (st : St) : St :=
  let '(c, h, lg) := liquidate (holdings st) (cash st) in
  let st := set_regime true (is_ma_paused st) st in
  let st := set_cash c (set_holdings h st) in
  let st := fold_left (fun s t => log_trade t s) lg st in
  set_flags all_inactive (set_lots [] st).

Definition resume_market (st : St) : St :=
  let st := set_regime false (is_ma_paused st) st in
  let p_buy := price_of base in
  if Qltb 0 p_buy then
    let investable := cash st * (1 - cash_buffer_pct cfg / 100) in
    let s_buy := investable / p_buy in
    let c_buy := s_buy * p_buy in
    let st := set_cash (cash st - c_buy) st in
    let st := set_holdings (hset (holdings st) base (hget (holdings st) base + s_buy)) st in
    log_trade (plain_trade date BuyResume base s_buy p_buy c_buy) st
  else st.

(** [ma_val] is [None] while the rolling mean is undefined (NaN), and when
    the filter is off, where the source takes 0: both fail [ma_val > 0]. *)
Definition ma_regime (ma_val : option Q) (st : St) : St :=
  match ma_val with
  | Some m =>
      if use_ma_filter cfg && Qltb 0 m then
        let base_price := price_of base in
        if Qltb base_price m then
          if String.eqb (ma_mode cfg) "defensive" then
            if negb (active_defensive st) then go_defensive st else st
          else if String.eqb (ma_mode cfg) "pause" then
            if negb (is_ma_paused st) then set_regime (active_defensive st) true st else st
          else st
        else if Qltb m base_price then
          if String.eqb (ma_mode cfg) "defensive" then
            if active_defensive st then resume_market st else st
          else if String.eqb (ma_mode cfg) "pause" then
            if is_ma_paused st then set_regime (active_defensive st) false st else st
          else st
        else st
      else st
  | None => st
  end.

(** The record of a day spent out of the market. *)
Definition defensive_record (ma_val : option Q) (st : St) : DailyStat :=
  let base_price := price_of base in
  {| d_date := date;
     d_open := row_get df row (FOpen, base) 0;
     d_high := row_get df row (FHigh, base) base_price;
     d_low := row_get df row (FLow, base) 0;
     d_price := base_price;
     d_peak := peak_price st;
     d_drawdown := 0;
     d_portfolio_value := cash st;
     d_buy_hold_value := bh_shares st * base_price;
     d_cash := cash st;
     d_ma_line := Some ma_val;
     d_tickers := [] |}.

(** [port_value]: cash plus every holding that has a close price. *)
Definition portfolio_value (st : St) : Q :=
  fold_left (fun acc ts => if in_prices df (fst ts) then acc + snd ts * price_of (fst ts) else acc)
            (holdings st) (cash st).

(** [curr_equity] of the rebalancing after an exit. *)
Definition current_equity (st : St) : Q :=
  fold_left (fun acc ts => acc + snd ts * price_of (fst ts)) (holdings st) (cash st).

(** The profit target of a lot and the price at which it is sold today, if
    it is. *)
Definition target_pct_of (lot : Lot) : Q :=
  profit_pct (nth (lot_step_idx lot) (steps cfg)
                  {| drop_pct := 0; shift_pct := 0; ticker := ""; profit_pct := 0 |}).

Definition profit_target (lot : Lot) : Q :=
  lot_price lot * (1 + target_pct_of lot / 100).

Definition exit_price (mode : string) (open_p high_p curr_p : Q) (lot : Lot) : option Q :=
  if String.eqb mode "limit" then
    if Qleb (profit_target lot) open_p then Some open_p
    else if Qleb (profit_target lot) high_p then Some (profit_target lot)
    else None
  else
    let profit_at_close := (curr_p - lot_price lot) / lot_price lot * 100 in
    if Qleb (target_pct_of lot) profit_at_close then Some curr_p else None.

(** The exit decision for one lot of the loop over [self.lots]. *)
Definition lot_exit (lot : Lot) : option Q :=
  let curr_p := price_of (lot_ticker lot) in
  if Qeqb curr_p 0 then None
  else
    let high_p := row_get df row (FHigh, lot_ticker lot) curr_p in
    let open_p := row_get df row (FOpen, lot_ticker lot) curr_p in
    exit_price (sell_mode cfg) open_p high_p curr_p lot.

(** The cash left after an exit goes back into the base instrument. *)
Definition deploy_cash (st : St) : St :=
  let p_base := price_of base in
  if Qltb 0 (cash_buffer_pct cfg) then
    let curr_equity := current_equity st in
    let target_cash := curr_equity * (cash_buffer_pct cfg / 100) in
    let excess_cash := cash st - target_cash in
    if Qltb (target_cash * 0.1) excess_cash then
      if Qltb 0 p_base then
        let shares_add := excess_cash / p_base in
        let st := set_cash (cash st - excess_cash) st in
        let st := set_holdings (hset (holdings st) base (hget (holdings st) base + shares_add)) st in
        count_rebalance excess_cash st
      else st
    else st
  else
    if Qltb 0 p_base && Qltb 0 (cash st) then
      let shares_base := cash st / p_base in
      let cost := shares_base * p_base in
      let st := set_holdings (hset (holdings st) base (hget (holdings st) base + shares_base)) st in
      set_cash (cash st - cost) st
    else st.

(** The proceeds of a sold lot: [self.cash += rev] and the holding goes
    down by the lot's shares. *)
Definition credit_exit (exec_price : Q) (lot : Lot) (st : St) : St :=
  let rev := lot_shares lot * exec_price in
  let st := set_cash (cash st + rev) st in
  set_holdings (hset (holdings st) (lot_ticker lot)
                     (hget (holdings st) (lot_ticker lot) - lot_shares lot)) st.

(** The body of [if executed:] for one lot. *)
Definition sell_lot (exec_price : Q) (lot : Lot) (st : St) : St :=
  let profit := (exec_price - lot_price lot) / lot_price lot * 100 in
  let rev := lot_shares lot * exec_price in
  let cost_basis := lot_shares lot * lot_price lot in
  let profit_amt := rev - cost_basis in
  let st := credit_exit exec_price lot st in
  let st := set_step_stats
              (stat_update (step_stats st) (lot_step_idx lot)
                 (with_bucket (lot_entry_type lot) (add_profit profit profit_amt))) st in
  let st := deploy_cash st in
  let st := log_trade
    {| t_date := date; t_action := SellProfit (lot_entry_type lot);
       t_ticker := lot_ticker lot; t_into := None;
       t_shares := lot_shares lot; t_price := exec_price; t_value := rev;
       t_step_idx := Some (lot_step_idx lot);
       t_drop_pct := option_map drop_pct (nth_error (steps cfg) (lot_step_idx lot));
       t_profit_amt := Some profit_amt; t_profit_pct := Some profit;
       t_buy_date := Some (lot_buy_date lot);
       t_days_held := Some (days_between date (lot_buy_date lot)) |} st in
  set_flags (set_flag (step_active_flags st) (lot_step_idx lot) false) st.

(** The loop over [enumerate(self.lots)]: the lots sold today change the
    state; [self.lots] itself is only rebuilt after the loop, from the lots
    that were not sold (the source collects their indices in
    [lots_to_remove] and deletes them afterwards). *)
Fixpoint exit_loop (ls : list Lot) (st : St) : St * list Lot :=
  match ls with
  | [] => (st, [])
  | lot :: rest =>
      match lot_exit lot with
      | Some exec_price => exit_loop rest (sell_lot exec_price lot st)
      | None => let '(st', kept) := exit_loop rest st in (st', lot :: kept)
      end
  end.

Definition check_exits (st : St) : St :=
  let '(st', kept) := exit_loop (lots st) st in set_lots kept st'.

(** The first index whose flag is off. *)
Fixpoint first_inactive (flags : list bool) (i : nat) : option nat :=
  match flags with
  | [] => None
  | f :: rest => if negb f then Some i else first_inactive rest (S i)
  end.

(** Selling [shift_val] of the base instrument into cash. *)
Definition sell_base (shift_val base_price : Q) (st : St) : St :=
  let shares_to_sell := shift_val / base_price in
  let st := set_holdings (hset (holdings st) base (hget (holdings st) base - shares_to_sell)) st in
  set_cash (cash st + shift_val) st.

(** Buying the target instrument with the proceeds and opening the lot. *)
Definition open_lot (et : EntryType) (idx : nat) (buy_ticker : string)
    (shift_val buy_price : Q) (st : St) : St :=
  let shares_to_buy := shift_val / buy_price in
  let cost := shares_to_buy * buy_price in
  let st := set_holdings (hset (holdings st) buy_ticker (hget (holdings st) buy_ticker + shares_to_buy)) st in
  let st := set_cash (cash st - cost) st in
  let st := set_lots (lots st ++
    [{| lot_ticker := buy_ticker; lot_shares := shares_to_buy; lot_price := buy_price;
        lot_step_idx := idx; lot_cost := cost; lot_buy_date := date;
        lot_entry_type := et |}]) st in
  set_flags (set_flag (step_active_flags st) idx true) st.

Definition entry_trade (a : Action) (idx : nat) (buy_ticker : string)
    (shift_val buy_price drop : Q) : Trade :=
  {| t_date := date; t_action := a; t_ticker := base; t_into := Some buy_ticker;
     t_shares := shift_val / buy_price; t_price := buy_price; t_value := shift_val;
     t_step_idx := Some idx; t_drop_pct := Some drop;
     t_profit_amt := None; t_profit_pct := None; t_buy_date := None;
     t_days_held := None |}.

Definition bump_count (et : EntryType) (idx : nat) (st : St) : St :=
  set_step_stats (stat_update (step_stats st) idx (with_bucket et incr_count)) st.

(** The forced entry after [force_buy_days] idle days; the boolean is
    [forced_buy_executed]. *)
Definition forced_entry (port_value : Q) (st : St) : Outcome (St * bool) :=
  if (0 <? force_buy_days cfg)%Z then
    let days_idle := days_between date (last_buy_date st) in
    if (force_buy_days cfg <=? days_idle)%Z then
      match first_inactive (step_active_flags st) 0 with
      | Some idx =>
          match nth_error (steps cfg) idx with
          | None => Raised IndexError
          | Some step =>
              let shift_val := port_value * (shift_pct step / 100) in
              let base_price := price_of base in
              let base_val_held := hget (holdings st) base * base_price in
              if Qleb (shift_val * 0.9) base_val_held then
                if Qeqb base_price 0 then Raised ZeroDivisionError
                else
                  let st := sell_base shift_val base_price st in
                  let buy_ticker := ticker step in
                  let buy_price := price_of buy_ticker in
                  if Qltb 0 buy_price then
                    let st := open_lot FORCE idx buy_ticker shift_val buy_price st in
                    let st := set_last_buy_date date st in
                    let st := record_buy date st in
                    let st := log_trade (entry_trade ForceIdle idx buy_ticker shift_val buy_price 0) st in
                    let st := bump_count FORCE idx st in
                    Done (st, true)
                  else Done (st, false)
              else Done (st, false)
          end
      | None => Done (st, false)
      end
    else Done (st, false)
  else Done (st, false).

Definition skip_trade (i : nat) (step : Step) : Trade :=
  {| t_date := date; t_action := SkipLimit; t_ticker := ticker step; t_into := None;
     t_shares := 0; t_price := 0; t_value := 0;
     t_step_idx := Some i; t_drop_pct := Some (drop_pct step);
     t_profit_amt := None; t_profit_pct := None; t_buy_date := None;
     t_days_held := None |}.

(** One iteration of the loop over [enumerate(self.steps)]. *)
Definition drop_entry (port_value drawdown_pct : Q) (i : nat) (step : Step) (st : St)
    : Outcome St :=
  if Qleb (Qabs (drop_pct step)) drawdown_pct && negb (flag_at (step_active_flags st) i) then
    let shift_val := port_value * (shift_pct step / 100) in
    let base_price := price_of base in
    let base_val_held := hget (holdings st) base * base_price in
    if Qltb base_val_held (shift_val * 0.9) then Done st
    else if negb (check_buy_limits cfg (buy_history st) date) then
      Done (log_trade (skip_trade i step) st)
    else
      let st := bump_count DROP i st in
      if Qeqb base_price 0 then Raised ZeroDivisionError
      else
        let st := sell_base shift_val base_price st in
        let buy_ticker := ticker step in
        let buy_price := price_of buy_ticker in
        let st :=
          if Qltb 0 buy_price then
            let st := open_lot DROP i buy_ticker shift_val buy_price st in
            log_trade (entry_trade Switch i buy_ticker shift_val buy_price (drop_pct step)) st
          else st in
        let st := record_buy date st in
        Done (set_last_buy_date date st)
  else Done st.

Fixpoint drop_entries (port_value drawdown_pct : Q) (i : nat) (l : list Step) (st : St)
    : Outcome St :=
  match l with
  | [] => Done st
  | step :: rest =>
      let* st' := drop_entry port_value drawdown_pct i step st in
      drop_entries port_value drawdown_pct (S i) rest st'
  end.

(** Step 4 of the day: entries, unless the trend filter pauses them. *)
Definition check_entries (port_value drawdown_pct : Q) (st : St) : Outcome St :=
  if negb (is_ma_paused st) then
    let* r := forced_entry port_value st in
    if negb (snd r) then drop_entries port_value drawdown_pct 0 (steps cfg) (fst r)
    else Done (fst r)
  else Done st.

Definition ticker_stat (port_value : Q) (st : St) (t : string) : TickerStat :=
  let shares := hget (holdings st) t in
  let p := price_of t in
  let val := shares * p in
  {| ts_ticker := t; ts_price := p; ts_hold := shares; ts_val := val;
     ts_pct := if Qltb 0 port_value then val / port_value * 100 else 0 |}.

Definition daily_record (pk drawdown_pct port_value : Q) (st : St) : DailyStat :=
  let base_price := price_of base in
  {| d_date := date;
     d_open := row_get df row (FOpen, base) 0;
     d_high := row_get df row (FHigh, base) base_price;
     d_low := row_get df row (FLow, base) 0;
     d_price := base_price;
     d_peak := pk;
     d_drawdown := drawdown_pct;
     d_portfolio_value := port_value;
     d_buy_hold_value := if Qltb 0 (bh_shares st) then bh_shares st * base_price else 0;
     d_cash := cash st;
     d_ma_line := None;
     d_tickers := map (ticker_stat port_value st) (base :: add_tickers cfg) |}.

(** One iteration of [for date, row in self.df.iterrows()]. *)
Definition day_step (ma_val : option Q) (st : St) : Outcome St :=
  let base_price := price_of base in
  let st := ma_regime ma_val st in
  if active_defensive st then Done (record_day (defensive_record ma_val st) st)
  else
    let pk := row_get df row (FPeak, base) base_price in
    let pk := if Qleb pk 0 then base_price else pk in
    let st := set_peak_price pk st in
    let drawdown_pct := if Qltb 0 pk then (pk - base_price) / pk * 100 else 0 in
    let port_value := portfolio_value st in
    let st := check_exits st in
    let* st := check_entries port_value drawdown_pct st in
    Done (record_day (daily_record pk drawdown_pct port_value st) st).

End Day.

(** ** [Backtester.run] *)

Fixpoint qsum (l : list Q) : Q :=
  match l with
  | [] => 0
  | x :: rest => x + qsum rest
  end.

(** [series.rolling(window=w).mean()]: undefined until [w] values are
    available. *)
Definition rolling_mean (w : nat) (xs : list Q) : list (option Q) :=
  map (fun k =>
         if ((w <=? S k) && (1 <=? w))%nat
         then Some (qsum (firstn w (skipn (S k - w) xs)) / inject_Z (Z.of_nat w))
         else None)
      (seq 0 (List.length xs)).

Fixpoint day_loop (cfg : Config) (df : DataFrame)
    (days : list (Timestamp * Row * option Q)) (st : St) : Outcome St :=
  match days with
  | [] => Done st
  | (date, row, ma_val) :: rest =>
      let* st' := day_step cfg df date row ma_val st in
      day_loop cfg df rest st'
  end.

(** The state built by [__init__]. *)
Definition initial_state (cfg : Config) (first_date : Timestamp) : St :=
  {| cash := initial_capital cfg * (cash_buffer_pct cfg / 100);
     holdings := fold_left (fun h t => hset h t 0) (base_ticker cfg :: add_tickers cfg) [];
     lots := [];
     step_active_flags := map (fun _ => false) (steps_input cfg);
     trade_log := [];
     daily_stats := [];
     buy_history := [];
     last_buy_date := match start_date cfg with Some d => d | None => first_date end;
     step_stats := [];
     rebalance_count := 0;
     total_rebalanced := 0;
     bh_shares := 0;
     active_defensive := false;
     is_ma_paused := false;
     peak_price := 1 |}.

(** Day 0: the initial purchase of the base instrument. *)
Definition initial_buy (cfg : Config) (df : DataFrame) (first_date : Timestamp)
    (row0 : Row) (st : St) : St :=
  let base := base_ticker cfg in
  let p0 := if has_col df (FClose, base) then row0 (FClose, base) else 0 in
  if Qltb 0 p0 then
    let investable := initial_capital cfg - cash st in
    let shares := investable / p0 in
    let cost := shares * p0 in
    let st := set_holdings (hset (holdings st) base shares) st in
    let st := log_trade (plain_trade first_date BuyInit base shares p0 cost) st in
    let st := set_peak_price (row_get df row0 (FHigh, base) p0) st in
    {| cash := cash st; holdings := holdings st; lots := lots st;
       step_active_flags := step_active_flags st; trade_log := trade_log st;
       daily_stats := daily_stats st; buy_history := buy_history st;
       last_buy_date := last_buy_date st; step_stats := step_stats st;
       rebalance_count := rebalance_count st; total_rebalanced := total_rebalanced st;
       bh_shares := initial_capital cfg / p0;
       active_defensive := active_defensive st;
       is_ma_paused := is_ma_paused st; peak_price := peak_price st |}
  else st.

(** The [HOLDING] rows written after the loop for the lots still open. *)
Definition holding_trade (cfg : Config) (df : DataFrame) (last_date : Timestamp)
    (last_row : Row) (lot : Lot) : list Trade :=
  let curr_p := prices_get df last_row (lot_ticker lot) in
  if Qltb 0 curr_p then
    let val := lot_shares lot * curr_p in
    [{| t_date := last_date; t_action := Holding; t_ticker := lot_ticker lot;
        t_into := None; t_shares := lot_shares lot; t_price := curr_p; t_value := val;
        t_step_idx := Some (lot_step_idx lot);
        t_drop_pct := option_map drop_pct (nth_error (steps cfg) (lot_step_idx lot));
        t_profit_amt := Some (val - lot_cost lot);
        t_profit_pct := Some ((curr_p - lot_price lot) / lot_price lot * 100);
        t_buy_date := Some (lot_buy_date lot);
        t_days_held := Some (days_between last_date (lot_buy_date lot)) |}]
  else [].

Definition log_holdings (cfg : Config) (df : DataFrame) (st : St) : St :=
  match df_rows df with
  | [] => st
  | r :: rest =>
      let '(last_date, last_row) := last rest r in
      fold_left (fun s t => log_trade t s)
                (flat_map (holding_trade cfg df last_date last_row) (lots st)) st
  end.

(** The moving-average column, one value per row. *)
Definition ma_column (cfg : Config) (df : DataFrame) : list (option Q) :=
  if use_ma_filter cfg then
    rolling_mean (ma_period cfg)
                 (map (fun r => snd r (FClose, base_ticker cfg)) (df_rows df))
  else map (fun _ => None) (df_rows df).

(** [Backtester(...).run()]: the final state carries the daily records
    (the returned table) and the trade log. *)
Definition run (cfg : Config) (df : DataFrame) : Outcome St :=
  match df_rows df with
  | [] => Raised IndexError
  | (first_date, row0) :: _ =>
      let st := initial_buy cfg df first_date row0 (initial_state cfg first_date) in
      if use_ma_filter cfg && negb (has_col df (FClose, base_ticker cfg))
      then Raised KeyError
      else
        let* st' := day_loop cfg df (combine (df_rows df) (ma_column cfg df)) st in
        Done (log_holdings cfg df st')
  end.

(** ** [analysis_logic.run_simulation], from the fetched table on

    The wrapper reports an error and returns [(None, None, None, None)],
    here [None], for an empty table, a missing base High column or an empty
    window; otherwise it adds the [Peak_] column (252-session rolling maximum
    of the base High), cuts the table at the start date and runs the
    engine. *)

Fixpoint qmax_list (l : list Q) (acc : Q) : Q :=
  match l with
  | [] => acc
  | x :: rest => qmax_list rest (if Qleb acc x then x else acc)
  end.

(** [series.rolling(window=w, min_periods=1).max()] *)
Definition rolling_max (w : nat) (xs : list Q) : list Q :=
  map (fun k =>
         match firstn (Nat.min w (S k)) (skipn (S k - w) xs) with
         | [] => 0
         | x :: rest => qmax_list rest x
         end)
      (seq 0 (List.length xs)).

(** [df[c] = values] *)
Definition with_column (df : DataFrame) (c : Col) (values : list Q) : DataFrame :=
  {| df_columns := if has_col df c then df_columns df else df_columns df ++ [c];
     df_rows := map (fun rv => (fst (fst rv),
                                fun c' => if col_eqb c' c then snd rv else snd (fst rv) c'))
                    (combine (df_rows df) values) |}.

(** [df[df.index >= pd.Timestamp(start_date)]] *)
Definition slice_from (df : DataFrame) (start : option Timestamp) : DataFrame :=
  {| df_columns := df_columns df;
     df_rows := match start with
                | Some s => filter (fun r => (s <=? fst r)%Z) (df_rows df)
                | None => df_rows df
                end |}.

Definition prepare_table (cfg : Config) (fetched : DataFrame) : option DataFrame :=
  match df_rows fetched with
  | [] => None
  | _ :: _ =>
      let high_col := (FHigh, base_ticker cfg) in
      if has_col fetched high_col then
        let peaks := rolling_max 252 (map (fun r => snd r high_col) (df_rows fetched)) in
        let df_sliced := slice_from (with_column fetched (FPeak, base_ticker cfg) peaks)
                                    (start_date cfg) in
        match df_rows df_sliced with
        | [] => None
        | _ :: _ => Some df_sliced
        end
      else None
  end.

Definition run_simulation (cfg : Config) (fetched : DataFrame) : option (Outcome St) :=
  option_map (run cfg) (prepare_table cfg fetched).

(** ** [Backtester.get_summary]: the CAGR

    The summary reports the string [f"{cagr_pct:.2f}%"]; the model keeps the
    number [cagr_pct]. *)

Module Summary.
Import Reals Qreals.
Local Open Scope R_scope.

(** [self.start_date] and [self.end_date] as [__init__] stores them. *)
Definition start_ts (cfg : Config) (df : DataFrame) : Outcome Timestamp :=
  match start_date cfg, df_rows df with
  | Some d, _ => Done d
  | None, r :: _ => Done (fst r)
  | None, [] => Raised IndexError
  end.

Definition end_ts (cfg : Config) (df : DataFrame) : Outcome Timestamp :=
  match end_date cfg, df_rows df with
  | Some d, _ => Done d
  | None, r :: rest => Done (fst (last rest r))
  | None, [] => Raised IndexError
  end.

(** [days = (end_ts - start_ts).days + 1] *)
Definition period_days (s e : Timestamp) : Z := (days_between e s + 1)%Z.

(** [x ** y] on floats, for a positive exponent.  A negative base has no
    real result (Python answers with a complex number, numpy with NaN). *)
Definition float_pow (x : Q) (y : R) : option R :=
  if Qltb 0 x then Some (Rpower (Q2R x) y)
  else if Qeqb x 0 then Some 0
  else None.

Definition cagr_pct_of (final_val initial : Q) (days : Z) : option R :=
  let years := IZR days / 365.25 in
  if Rlt_dec 0 years
  then option_map (fun g => (g - 1) * 100) (float_pow (final_val / initial) (1 / years))
  else Some 0.

Definition get_summary_cagr_pct (cfg : Config) (df : DataFrame) (st : St)
    : Outcome (option R) :=
  match rev (daily_stats st) with
  | [] => Raised IndexError
  | d :: _ =>
      let final_val := d_portfolio_value d in
      if Qeqb (initial_capital cfg) 0 then Raised ZeroDivisionError
      else
        let* s := start_ts cfg df in
        let* e := end_ts cfg df in
        Done (cagr_pct_of final_val (initial_capital cfg) (period_days s e))
  end.

End Summary.

(** ** [Backtester.get_step_metrics_df]

    One row per step; the model keeps the numbers behind the formatted
    cells. *)










(** * The exit phase and the switch on binary64

    Which lots an exit sells, and what a purchase costs, depends on
    rounding: the profit target of a lot bought at 50 with a target of 10%
    is computed as 55.000000000000007, and 1000/29*29 is not 1000.  This
    module embeds the code that moves cash a second time, on the program's
    own numbers, binary64 floats with the IEEE operations of the kernel:
    the loop over the open lots (step 3 of the day), the switch of an
    entry, the initial purchase and the liquidation and re-entry of the
    moving-average filter.  The table is the list of its columns and a row
    of float cells; a division by zero gives an infinity or a NaN, as
    numpy's does. *)

Module Binary64.
Import PrimFloat.
#[local] Set Warnings "-inexact-float".
Local Open Scope float_scope.

Definition Row := Col -> float.

(** [row.get(col, default)] *)
Definition row_get (columns : list Col) (row : Row) (c : Col) (default : float) : float :=
  if existsb (col_eqb c) columns then row c else default.

(** [prices.get(t, 0)] *)
Definition prices_get (columns : list Col) (row : Row) (t : string) : float :=
  row_get columns row (FClose, t) 0.

Fixpoint row_of (cells : list (Col * float)) : Row :=
  fun c =>
    match cells with
    | [] => 0
    | (c', v) :: rest => if col_eqb c c' then v else row_of rest c
    end.

Record Step := {
  drop_pct : float;
  shift_pct : float;
  ticker : string;
  profit_pct : float
}.

Record Lot := {
  lot_ticker : string;
  lot_shares : float;
  lot_price : float;
  lot_step_idx : nat;
  lot_cost : float;
  lot_buy_date : Timestamp;
  lot_entry_type : EntryType
}.

Record Config := {
  initial_capital : float;
  base_ticker : string;
  steps : list Step;
  sell_mode : string;
  cash_buffer_pct : float
}.

Record Trade := {
  t_date : Timestamp;
  t_action : Action;
  t_ticker : string;
  t_into : option string;
  t_shares : float;
  t_price : float;
  t_value : float;
  t_step_idx : option nat;
  t_drop_pct : option float;
  t_profit_amt : option float;
  t_profit_pct : option float;
  t_buy_date : option Timestamp;
  t_days_held : option Z
}.

Record Bucket := {
  b_count : Z;
  b_profits : list float;
  b_amts : list float
}.

Record StepStat := {
  ss_drop : Bucket;
  ss_force : Bucket
}.

Definition empty_bucket : Bucket := {| b_count := 0%Z; b_profits := []; b_amts := [] |}.
Definition empty_stat : StepStat := {| ss_drop := empty_bucket; ss_force := empty_bucket |}.

Definition add_profit (et : EntryType) (profit amt : float) (s : StepStat) : StepStat :=
  let add b := {| b_count := b_count b; b_profits := b_profits b ++ [profit];
                  b_amts := b_amts b ++ [amt] |} in
  match et with
  | DROP => {| ss_drop := add (ss_drop s); ss_force := ss_force s |}
  | FORCE => {| ss_drop := ss_drop s; ss_force := add (ss_force s) |}
  end.

Definition Holdings := list (string * float).

Definition hget (h : Holdings) (t : string) : float := dict_get String.eqb h t 0.
Definition hset (h : Holdings) (t : string) (v : float) : Holdings := dict_set String.eqb h t v.

(** The attributes that the trades touch; the buy history, the regime
    flags and the daily records are not part of this state. *)
Record St := {
  cash : float;
  holdings : Holdings;
  lots : list Lot;
  step_active_flags : list bool;
  trade_log : list Trade;
  step_stats : list (nat * StepStat);
  rebalance_count : Z;
  total_rebalanced : float
}.

Section Day.

Variable cfg : Config.
Variable columns : list Col.
Variable date : Timestamp.
Variable row : Row.

Let base := base_ticker cfg.
Let price_of (t : string) : float := prices_get columns row t.

Definition target_pct_of (lot : Lot) : float :=
  profit_pct (nth (lot_step_idx lot) (steps cfg)
                  {| drop_pct := 0; shift_pct := 0; ticker := ""; profit_pct := 0 |}).

(** [lot['price'] * (1 + target_pct / 100.0)] *)
Definition profit_target (lot : Lot) : float :=
  lot_price lot * (1 + target_pct_of lot / 100).

(** [(curr_p - lot['price']) / lot['price'] * 100] *)
Definition profit_at (p : float) (lot : Lot) : float :=
  (p - lot_price lot) / lot_price lot * 100.

Definition exit_price (mode : string) (open_p high_p curr_p : float) (lot : Lot)
    : option float :=
  if String.eqb mode "limit" then
    if profit_target lot <=? open_p then Some open_p
    else if profit_target lot <=? high_p then Some (profit_target lot)
    else None
  else
    if target_pct_of lot <=? profit_at curr_p lot then Some curr_p else None.

Definition lot_exit (lot : Lot) : option float :=
  let curr_p := price_of (lot_ticker lot) in
  if curr_p =? 0 then None
  else
    let high_p := row_get columns row (FHigh, lot_ticker lot) curr_p in
    let open_p := row_get columns row (FOpen, lot_ticker lot) curr_p in
    exit_price (sell_mode cfg) open_p high_p curr_p lot.

(** [curr_equity] of the rebalancing *)
Definition current_equity (st : St) : float :=
  fold_left (fun acc ts => acc + snd ts * price_of (fst ts)) (holdings st) (cash st).

(** [self.cash += rev] and [self.holdings[lot['ticker']] -= lot['shares']] *)
Definition credit_exit (exec_price : float) (lot : Lot) (st : St) : St :=
  {| cash := cash st + lot_shares lot * exec_price;
     holdings := hset (holdings st) (lot_ticker lot)
                      (hget (holdings st) (lot_ticker lot) - lot_shares lot);
     lots := lots st; step_active_flags := step_active_flags st;
     trade_log := trade_log st; step_stats := step_stats st;
     rebalance_count := rebalance_count st; total_rebalanced := total_rebalanced st |}.

(** The two appends to [self.step_stats[step_idx][entry_type]]. *)
Definition record_profit (exec_price : float) (lot : Lot) (st : St) : St :=
  let profit := profit_at exec_price lot in
  let profit_amt := lot_shares lot * exec_price - lot_shares lot * lot_price lot in
  {| cash := cash st; holdings := holdings st; lots := lots st;
     step_active_flags := step_active_flags st; trade_log := trade_log st;
     step_stats :=
       dict_set Nat.eqb (step_stats st) (lot_step_idx lot)
         (add_profit (lot_entry_type lot) profit profit_amt
            (dict_get Nat.eqb (step_stats st) (lot_step_idx lot) empty_stat));
     rebalance_count := rebalance_count st; total_rebalanced := total_rebalanced st |}.

(** The cash left after an exit goes back into the base instrument. *)
Definition deploy_cash (st : St) : St :=
  let p_base := price_of base in
  if 0 <? cash_buffer_pct cfg then
    let curr_equity := current_equity st in
    let target_cash := curr_equity * (cash_buffer_pct cfg / 100) in
    let excess_cash := cash st - target_cash in
    if target_cash * 0.1 <? excess_cash then
      if 0 <? p_base then
        let shares_add := excess_cash / p_base in
        {| cash := cash st - excess_cash;
           holdings := hset (holdings st) base (hget (holdings st) base + shares_add);
           lots := lots st; step_active_flags := step_active_flags st;
           trade_log := trade_log st; step_stats := step_stats st;
           rebalance_count := rebalance_count st + 1;
           total_rebalanced := total_rebalanced st + excess_cash |}
      else st
    else st
  else
    if (0 <? p_base) && (0 <? cash st) then
      let shares_base := cash st / p_base in
      let cost := shares_base * p_base in
      {| cash := cash st - cost;
         holdings := hset (holdings st) base (hget (holdings st) base + shares_base);
         lots := lots st; step_active_flags := step_active_flags st;
         trade_log := trade_log st; step_stats := step_stats st;
         rebalance_count := rebalance_count st; total_rebalanced := total_rebalanced st |}
    else st.

(** The [SELL (Profit)] row of a lot sold at [exec_price]. *)
Definition exit_trade (exec_price : float) (lot : Lot) : Trade :=
  {| t_date := date; t_action := SellProfit (lot_entry_type lot);
     t_ticker := lot_ticker lot; t_into := None;
     t_shares := lot_shares lot; t_price := exec_price;
     t_value := lot_shares lot * exec_price;
     t_step_idx := Some (lot_step_idx lot);
     t_drop_pct := option_map drop_pct (nth_error (steps cfg) (lot_step_idx lot));
     t_profit_amt := Some (lot_shares lot * exec_price - lot_shares lot * lot_price lot);
     t_profit_pct := Some (profit_at exec_price lot);
     t_buy_date := Some (lot_buy_date lot);
     t_days_held := Some (days_between date (lot_buy_date lot)) |}.

(** The row is appended and the flag of the step is cleared. *)
Definition close_sale (exec_price : float) (lot : Lot) (st : St) : St :=
  {| cash := cash st; holdings := holdings st; lots := lots st;
     step_active_flags := set_flag (step_active_flags st) (lot_step_idx lot) false;
     trade_log := trade_log st ++ [exit_trade exec_price lot];
     step_stats := step_stats st;
     rebalance_count := rebalance_count st; total_rebalanced := total_rebalanced st |}.

(** The body of [if executed:] for one lot. *)
Definition sell_lot (exec_price : float) (lot : Lot) (st : St) : St :=
  close_sale exec_price lot
    (deploy_cash (record_profit exec_price lot (credit_exit exec_price lot st))).

(** The loop over [enumerate(self.lots)]; the lots that were not sold are
    what [self.lots] is rebuilt from afterwards. *)
Fixpoint exit_loop (ls : list Lot) (st : St) : St * list Lot :=
  match ls with
  | [] => (st, [])
  | lot :: rest =>
      match lot_exit lot with
      | Some exec_price => exit_loop rest (sell_lot exec_price lot st)
      | None => let '(st', kept) := exit_loop rest st in (st', lot :: kept)
      end
  end.

Definition check_exits (st : St) : St :=
  let '(st', kept) := exit_loop (lots st) st in
  {| cash := cash st'; holdings := holdings st'; lots := kept;
     step_active_flags := step_active_flags st'; trade_log := trade_log st';
     step_stats := step_stats st';
     rebalance_count := rebalance_count st'; total_rebalanced := total_rebalanced st' |}.

(** The sale of an entry: [shares_to_sell = shift_val / base_price], the
    base holding goes down by it and the cash up by [shift_val]. *)
Definition sell_base (shift_val base_price : float) (st : St) : St :=
  {| cash := cash st + shift_val;
     holdings := hset (holdings st) base (hget (holdings st) base - shift_val / base_price);
     lots := lots st; step_active_flags := step_active_flags st;
     trade_log := trade_log st; step_stats := step_stats st;
     rebalance_count := rebalance_count st; total_rebalanced := total_rebalanced st |}.

(** The purchase of an entry, the body of [if buy_price > 0]:
    [shares_to_buy = shift_val / buy_price] and
    [cost = shares_to_buy * buy_price] is what the cash goes down by. *)
Definition open_lot (et : EntryType) (idx : nat) (buy_ticker : string)
    (shift_val buy_price : float) (st : St) : St :=
  let shares_to_buy := shift_val / buy_price in
  let cost := shares_to_buy * buy_price in
  {| cash := cash st - cost;
     holdings := hset (holdings st) buy_ticker (hget (holdings st) buy_ticker + shares_to_buy);
     lots := lots st ++
       [{| lot_ticker := buy_ticker; lot_shares := shares_to_buy; lot_price := buy_price;
           lot_step_idx := idx; lot_cost := cost; lot_buy_date := date;
           lot_entry_type := et |}];
     step_active_flags := set_flag (step_active_flags st) idx true;
     trade_log := trade_log st; step_stats := step_stats st;
     rebalance_count := rebalance_count st; total_rebalanced := total_rebalanced st |}.

Definition log_trade (t : Trade) (st : St) : St :=
  {| cash := cash st; holdings := holdings st; lots := lots st;
     step_active_flags := step_active_flags st; trade_log := trade_log st ++ [t];
     step_stats := step_stats st;
     rebalance_count := rebalance_count st; total_rebalanced := total_rebalanced st |}.

Definition plain_trade (a : Action) (t : string) (s p v : float) : Trade :=
  {| t_date := date; t_action := a; t_ticker := t; t_into := None;
     t_shares := s; t_price := p; t_value := v;
     t_step_idx := None; t_drop_pct := None; t_profit_amt := None;
     t_profit_pct := None; t_buy_date := None; t_days_held := None |}.

(** The row of an entry: its ["Value"] is [shift_val]. *)
Definition entry_trade (a : Action) (idx : nat) (buy_ticker : string)
    (shift_val buy_price drop : float) : Trade :=
  {| t_date := date; t_action := a; t_ticker := base; t_into := Some buy_ticker;
     t_shares := shift_val / buy_price; t_price := buy_price; t_value := shift_val;
     t_step_idx := Some idx; t_drop_pct := Some drop;
     t_profit_amt := None; t_profit_pct := None; t_buy_date := None;
     t_days_held := None |}.

(** [self.step_stats[idx][entry_type]['count'] += 1] *)
Definition bump_count (et : EntryType) (idx : nat) (st : St) : St :=
  let incr b := {| b_count := b_count b + 1; b_profits := b_profits b;
                   b_amts := b_amts b |} in
  let s := dict_get Nat.eqb (step_stats st) idx empty_stat in
  let s' := match et with
            | DROP => {| ss_drop := incr (ss_drop s); ss_force := ss_force s |}
            | FORCE => {| ss_drop := ss_drop s; ss_force := incr (ss_force s) |}
            end in
  {| cash := cash st; holdings := holdings st; lots := lots st;
     step_active_flags := step_active_flags st; trade_log := trade_log st;
     step_stats := dict_set Nat.eqb (step_stats st) idx s';
     rebalance_count := rebalance_count st; total_rebalanced := total_rebalanced st |}.

(** What the drop loop does for step [i] once the drawdown, the cover check
    and the throttle have let it through (the buy history is not part of
    this state). *)
Definition drop_switch (port_value : float) (i : nat) (step : Step) (st : St) : St :=
  let shift_val := port_value * (shift_pct step / 100) in
  let st := bump_count DROP i st in
  let st := sell_base shift_val (price_of base) st in
  let buy_price := price_of (ticker step) in
  if 0 <? buy_price then
    log_trade (entry_trade Switch i (ticker step) shift_val buy_price (drop_pct step))
              (open_lot DROP i (ticker step) shift_val buy_price st)
  else st.

(** What the forced entry does for the step it picked once the cover check
    has passed. *)
Definition forced_switch (port_value : float) (idx : nat) (step : Step) (st : St) : St :=
  let shift_val := port_value * (shift_pct step / 100) in
  let st := sell_base shift_val (price_of base) st in
  let buy_price := price_of (ticker step) in
  if 0 <? buy_price then
    bump_count FORCE idx
      (log_trade (entry_trade ForceIdle idx (ticker step) shift_val buy_price 0)
                 (open_lot FORCE idx (ticker step) shift_val buy_price st))
  else st.

(** The loop of [# Liquidate Everything]: the cash, the holdings and the
    rows it leaves. *)
Fixpoint liquidate (h : Holdings) (c : float) : float * Holdings * list Trade :=
  match h with
  | [] => (c, [], [])
  | (t, s) :: rest =>
      if 0 <? s then
        let p := price_of t in
        let val := s * p in
        let '(c', h', lg) := liquidate rest (c + val) in
        (c', (t, 0) :: h', plain_trade SellDefensive t s p val :: lg)
      else
        let '(c', h', lg) := liquidate rest c in
        (c', (t, s) :: h', lg)
  end.

Definition go_defensive (st : St) : St :=
  let '(c, h, lg) := liquidate (holdings st) (cash st) in
  {| cash := c; holdings := h; lots := [];
     step_active_flags := map (fun _ => false) (steps cfg);
     trade_log := trade_log st ++ lg; step_stats := step_stats st;
     rebalance_count := rebalance_count st; total_rebalanced := total_rebalanced st |}.

(** The purchase of [# Re-Initialize (Buy Initial Position)]. *)
Definition resume_market (st : St) : St :=
  let p_buy := price_of base in
  if 0 <? p_buy then
    let investable := cash st * (1 - cash_buffer_pct cfg / 100) in
    let s_buy := investable / p_buy in
    let c_buy := s_buy * p_buy in
    log_trade (plain_trade BuyResume base s_buy p_buy c_buy)
      {| cash := cash st - c_buy;
         holdings := hset (holdings st) base (hget (holdings st) base + s_buy);
         lots := lots st; step_active_flags := step_active_flags st;
         trade_log := trade_log st; step_stats := step_stats st;
         rebalance_count := rebalance_count st; total_rebalanced := total_rebalanced st |}
  else st.

End Day.

(** [self.cash] as [__init__] leaves it, with nothing held yet. *)
Definition initial_state (cfg : Config) (add_tickers : list string) : St :=
  {| cash := initial_capital cfg * (cash_buffer_pct cfg / 100);
     holdings := fold_left (fun h t => hset h t 0) (base_ticker cfg :: add_tickers) [];
     lots := []; step_active_flags := map (fun _ => false) (steps cfg);
     trade_log := []; step_stats := [];
     rebalance_count := 0%Z; total_rebalanced := 0 |}.

(** Day 0: the initial purchase of the base instrument, as far as the
    cash, the holdings and the trade log go. *)
Definition initial_buy (cfg : Config) (columns : list Col) (first_date : Timestamp)
    (row0 : Row) (st : St) : St :=
  let base := base_ticker cfg in
  let p0 := if existsb (col_eqb (FClose, base)) columns then row0 (FClose, base) else 0 in
  if 0 <? p0 then
    let investable := initial_capital cfg - cash st in
    let shares := investable / p0 in
    let cost := shares * p0 in
    {| cash := cash st;
       holdings := hset (holdings st) base shares;
       lots := lots st; step_active_flags := step_active_flags st;
       trade_log := trade_log st ++
         [{| t_date := first_date; t_action := BuyInit; t_ticker := base; t_into := None;
             t_shares := shares; t_price := p0; t_value := cost;
             t_step_idx := None; t_drop_pct := None; t_profit_amt := None;
             t_profit_pct := None; t_buy_date := None; t_days_held := None |}];
       step_stats := step_stats st;
       rebalance_count := rebalance_count st; total_rebalanced := total_rebalanced st |}
  else st.

(** The lots that today's exit loop sells. *)
Definition sold_today (cfg : Config) (columns : list Col) (row : Row) (l : Lot) : bool :=
  match lot_exit cfg columns row l with Some _ => true | None => false end.

(** A lot bought at 50 under a step with a profit target of 10%, and the
    state that holds it. *)
Definition boundary_cfg (mode : string) : Config :=
  {| initial_capital := 10000; base_ticker := "QQQ";
     steps := [ {| drop_pct := -5; shift_pct := 50; ticker := "SSO"; profit_pct := 10 |} ];
     sell_mode := mode; cash_buffer_pct := 0 |}.

Definition boundary_lot : Lot :=
  {| lot_ticker := "SSO"; lot_shares := 100; lot_price := 50; lot_step_idx := 0;
     lot_cost := 5000; lot_buy_date := 0%Z; lot_entry_type := DROP |}.

Definition boundary_st : St :=
  {| cash := 0; holdings := [("QQQ"%string, 50); ("SSO"%string, 100)];
     lots := [boundary_lot]; step_active_flags := [true]; trade_log := [];
     step_stats := []; rebalance_count := 0%Z; total_rebalanced := 0 |}.

Definition boundary_columns : list Col :=
  [(FOpen, "QQQ"%string); (FHigh, "QQQ"%string); (FLow, "QQQ"%string); (FClose, "QQQ"%string);
   (FOpen, "SSO"%string); (FHigh, "SSO"%string); (FLow, "SSO"%string); (FClose, "SSO"%string)].

(** A day on which the target instrument opens at [o], peaks at [h] and
    closes at [c], the base staying at 100. *)
Definition boundary_row (o h c : float) : Row :=
  row_of [((FOpen, "QQQ"%string), 100); ((FHigh, "QQQ"%string), 100);
          ((FLow, "QQQ"%string), 100); ((FClose, "QQQ"%string), 100);
          ((FOpen, "SSO"%string), o); ((FHigh, "SSO"%string), h);
          ((FLow, "SSO"%string), o); ((FClose, "SSO"%string), c)].

(** A run with a capital of 10000 and no cash buffer whose one step moves
    10% of the portfolio: the base closes at 33 on day 0, and at 31, 6% lower,
    on the day of the switch, when the target closes at 7. *)
Definition switch_step : Step :=
  {| drop_pct := -5; shift_pct := 10; ticker := "SSO"; profit_pct := 10 |}.

Definition switch_cfg : Config :=
  {| initial_capital := 10000; base_ticker := "QQQ"; steps := [switch_step];
     sell_mode := "limit"; cash_buffer_pct := 0 |}.

Definition switch_row (q s : float) : Row :=
  row_of [((FOpen, "QQQ"%string), q); ((FHigh, "QQQ"%string), q);
          ((FLow, "QQQ"%string), q); ((FClose, "QQQ"%string), q);
          ((FOpen, "SSO"%string), s); ((FHigh, "SSO"%string), s);
          ((FLow, "SSO"%string), s); ((FClose, "SSO"%string), s)].

(** The state after day 0. *)
Definition switch_st : St :=
  initial_buy switch_cfg boundary_columns 0%Z (switch_row 33 8)
    (initial_state switch_cfg ["SSO"%string]).

(** [port_value] and [shift_val = port_value * (step['shift_pct'] / 100.0)]
    on the day of the switch, and the state the drop loop leaves. *)
Definition switch_port_value : float :=
  current_equity boundary_columns (switch_row 31 7) switch_st.

Definition switch_val : float := switch_port_value * (shift_pct switch_step / 100).

Definition switch_after : St :=
  drop_switch switch_cfg boundary_columns 86400%Z (switch_row 31 7)
    switch_port_value 0 switch_step switch_st.

End Binary64.


(** * Vocabulary of the properties *)

(** A step is a candidate entry when it reaches the throttle check: its
    drawdown trigger is met, its flag is off and the base holding covers 90%
    of the shift amount. *)
Definition candidate (cfg : Config) (df : DataFrame) (row : Row)
    (port_value drawdown_pct : Q) (i : nat) (step : Step) (st : St) : bool :=
  Qleb (Qabs (drop_pct step)) drawdown_pct
  && negb (flag_at (step_active_flags st) i)
  && Qleb (port_value * (shift_pct step / 100) * 0.9)
          (hget (holdings st) (base_ticker cfg) * prices_get df row (base_ticker cfg)).

(** The state a candidate step leaves behind when the throttle lets it
    through and the base price is not zero. *)
Definition fired (cfg : Config) (df : DataFrame) (date : Timestamp) (row : Row)
    (port_value : Q) (i : nat) (step : Step) (st : St) : St :=
  let shift_val := port_value * (shift_pct step / 100) in
  let buy_price := prices_get df row (ticker step) in
  let st := sell_base cfg shift_val (prices_get df row (base_ticker cfg))
                      (bump_count DROP i st) in
  let st :=
    if Qltb 0 buy_price then
      log_trade (entry_trade cfg date Switch i (ticker step) shift_val buy_price (drop_pct step))
                (open_lot date DROP i (ticker step) shift_val buy_price st)
    else st in
  set_last_buy_date date (record_buy date st).

Definition is_force (t : Trade) : bool :=
  match t_action t with ForceIdle => true | _ => false end.

Definition is_switch (t : Trade) : bool :=
  match t_action t with Switch => true | _ => false end.

(** The [DROP] buy count of a step. *)
Definition drop_count (st : St) (i : nat) : Z := b_count (ss_drop (stat_get (step_stats st) i)).

(** The open lots owned by a step. *)
Definition lots_of (i : nat) (ls : list Lot) : list Lot :=
  filter (fun l => Nat.eqb (lot_step_idx l) i) ls.

(** The worth of a state under a price function. *)
Fixpoint hsum (P : string -> Q) (h : Holdings) : Q :=
  match h with
  | [] => 0
  | (t, s) :: rest => s * P t + hsum P rest
  end.


(** ** Concrete tables and configurations used below *)

Definition ohlc (t : string) (o h l c : Q) : list (Col * Q) :=
  [((FOpen, t), o); ((FHigh, t), h); ((FLow, t), l); ((FClose, t), c)].

Definition ohlc_columns (t : string) : list Col :=
  [(FOpen, t); (FHigh, t); (FLow, t); (FClose, t)].

Definition plain_config (capital : Q) (adds : list string) (sts : list Step) : Config :=
  {| initial_capital := capital; base_ticker := "QQQ"; add_tickers := adds;
     steps_input := sts;
     start_date := Some 0%Z; end_date := Some 86400%Z; sell_mode := "limit";
     cash_buffer_pct := 0; use_ma_filter := false; ma_period := 200%nat;
     ma_mode := "defensive";
     max_buys_day := 0; max_buys_week := 0; force_buy_days := 0 |}.

(** Two steps whose shifts add up to 105% of the portfolio. *)
Definition oversell_cfg : Config :=
  plain_config 10000 ["SSO"%string]
    [ {| drop_pct := -5; shift_pct := 50; ticker := "SSO"; profit_pct := 5 |};
      {| drop_pct := -6; shift_pct := 55; ticker := "SSO"; profit_pct := 5 |} ].

(** Base at 100 then 90 under a peak of 100; the target at 10 then 8. *)
Definition oversell_df : DataFrame :=
  {| df_columns := ohlc_columns "QQQ" ++ [(FPeak, "QQQ"%string)] ++ ohlc_columns "SSO";
     df_rows :=
       [ (0%Z, row_of (ohlc "QQQ" 100 100 100 100 ++ [((FPeak, "QQQ"%string), 100)]
                       ++ ohlc "SSO" 10 10 10 10));
         (86400%Z, row_of (ohlc "QQQ" 90 90 90 90 ++ [((FPeak, "QQQ"%string), 100)]
                           ++ ohlc "SSO" 8 8 8 8)) ] |}.


(** The state of the oversell run after the initial purchase, and its second
    day. *)
Definition oversell_st0 : St :=
  initial_buy oversell_cfg oversell_df 0%Z
    (snd (nth 0 (df_rows oversell_df) (0%Z, row_of [])))
    (initial_state oversell_cfg 0%Z).

Definition oversell_row1 : Row := snd (nth 1 (df_rows oversell_df) (0%Z, row_of [])).

Definition oversell_step0 : Step := nth 0 (steps oversell_cfg)
  {| drop_pct := 0; shift_pct := 0; ticker := ""; profit_pct := 0 |}.

Definition state_of (o : Outcome St) (default : St) : St :=
  match o with Done st => st | Raised _ => default end.


(** The state a forced entry leaves behind when it opens its lot. *)
Definition forced (cfg : Config) (df : DataFrame) (date : Timestamp) (row : Row)
    (port_value : Q) (idx : nat) (step : Step) (st : St) : St :=
  let shift_val := port_value * (shift_pct step / 100) in
  let buy_price := prices_get df row (ticker step) in
  let st := sell_base cfg shift_val (prices_get df row (base_ticker cfg)) st in
  let st := open_lot date FORCE idx (ticker step) shift_val buy_price st in
  let st := record_buy date (set_last_buy_date date st) in
  bump_count FORCE idx
    (log_trade (entry_trade cfg date ForceIdle idx (ticker step) shift_val buy_price 0) st).

(** The book of open positions is consistent when there is one flag per
    step and every step owns one open lot if its flag is on, none if it is
    off. *)
Definition book_consistent (cfg : Config) (st : St) : Prop :=
  List.length (step_active_flags st) = List.length (steps cfg)
  /\ forall i, List.length (lots_of i (lots st))
               = if flag_at (step_active_flags st) i then 1%nat else 0%nat.

(** The lots that today's exit loop sells, and those it keeps. *)
Definition sold_today (cfg : Config) (df : DataFrame) (row : Row) (l : Lot) : bool :=
  match lot_exit cfg df row l with Some _ => true | None => false end.

Definition clear_flags (flags : list bool) (sold : list Lot) : list bool :=
  fold_left (fun f l => set_flag f (lot_step_idx l) false) sold flags.

(** The state after the first [n] days of a run. *)
Definition run_days (cfg : Config) (df : DataFrame) (n : nat) : Outcome St :=
  match df_rows df with
  | [] => Raised IndexError
  | (first_date, row0) :: _ =>
      day_loop cfg df (firstn n (combine (df_rows df) (ma_column cfg df)))
               (initial_buy cfg df first_date row0 (initial_state cfg first_date))
  end.


(** The trade log of [st'] extends that of [st] by rows that satisfy [P]. *)
Definition log_ext (P : Trade -> Prop) (st st' : St) : Prop :=
  exists new, trade_log st' = trade_log st ++ new /\ Forall P new.

(** A row that is neither a forced entry nor a switch. *)
Definition quiet (t : Trade) : Prop := is_force t = false /\ is_switch t = false.

(** A row of the drop loop of [date]: a skip or a switch written that day. *)
Definition drop_row (date : Timestamp) (t : Trade) : Prop :=
  is_force t = false /\ t_date t = date.

(** A forced-entry row of [date]. *)
Definition force_row (date : Timestamp) (t : Trade) : Prop :=
  is_force t = true /\ is_switch t = false /\ t_date t = date.


(** An entry row carries the day's date. *)
Definition entry_dated (date : Timestamp) (t : Trade) : Prop :=
  is_force t = true \/ is_switch t = true -> t_date t = date.

(** The rows of a day on which a forced entry fired, and those of a day on
    which none did. *)
Definition forced_day_row (date : Timestamp) (t : Trade) : Prop :=
  entry_dated date t /\ is_switch t = false.

Definition drop_day_row (date : Timestamp) (t : Trade) : Prop :=
  entry_dated date t /\ is_force t = false.


(** No forced-entry row shares its calendar date with a switch row. *)
Definition no_clash (log : list Trade) : Prop :=
  forall t1 t2, In t1 log -> In t2 log ->
    is_force t1 = true -> is_switch t2 = true ->
    date_of (t_date t1) <> date_of (t_date t2).

(** Every entry row is dated on one of the calendar dates [seen]. *)
Definition entries_within (seen : list Z) (log : list Trade) : Prop :=
  forall t, In t log -> is_force t = true \/ is_switch t = true ->
    In (date_of (t_date t)) seen.

(** The calendar date of a day of the loop. *)
Definition day_date (day : Timestamp * Row * option Q) : Z := date_of (fst (fst day)).


(** A table whose base instrument has no [Close_] column, run with a 10%
    cash buffer and one step. *)
Definition no_close_cfg : Config :=
  {| initial_capital := 10000; base_ticker := "QQQ"; add_tickers := ["SSO"%string];
     steps_input := [ {| drop_pct := -5; shift_pct := 50; ticker := "SSO"; profit_pct := 5 |} ];
     start_date := Some 0%Z; end_date := Some 86400%Z; sell_mode := "limit";
     cash_buffer_pct := 10; use_ma_filter := false; ma_period := 200%nat;
     ma_mode := "defensive";
     max_buys_day := 0; max_buys_week := 0; force_buy_days := 0 |}.

Definition no_close_df : DataFrame :=
  {| df_columns := [(FOpen, "QQQ"%string); (FHigh, "QQQ"%string); (FLow, "QQQ"%string);
                    (FPeak, "QQQ"%string)] ++ ohlc_columns "SSO";
     df_rows :=
       [ (0%Z, row_of ([((FOpen, "QQQ"%string), 100); ((FHigh, "QQQ"%string), 100);
                        ((FLow, "QQQ"%string), 100); ((FPeak, "QQQ"%string), 100)]
                       ++ ohlc "SSO" 10 10 10 10));
         (86400%Z, row_of ([((FOpen, "QQQ"%string), 90); ((FHigh, "QQQ"%string), 90);
                            ((FLow, "QQQ"%string), 90); ((FPeak, "QQQ"%string), 100)]
                           ++ ohlc "SSO" 8 8 8 8)) ] |}.


(** One step; the base stays 10% under its peak, the target reaches its
    profit target intraday on the second day. *)
Definition reentry_cfg : Config :=
  plain_config 10000 ["SSO"%string]
    [ {| drop_pct := -5; shift_pct := 50; ticker := "SSO"; profit_pct := 5 |} ].

Definition reentry_df : DataFrame :=
  {| df_columns := ohlc_columns "QQQ" ++ [(FPeak, "QQQ"%string)] ++ ohlc_columns "SSO";
     df_rows :=
       [ (0%Z, row_of (ohlc "QQQ" 90 90 90 90 ++ [((FPeak, "QQQ"%string), 100)]
                       ++ ohlc "SSO" 10 10 10 10));
         (86400%Z, row_of (ohlc "QQQ" 90 90 90 90 ++ [((FPeak, "QQQ"%string), 100)]
                           ++ ohlc "SSO" 10 11 10 10.2)) ] |}.

Definition reentry_row1 : Row := snd (nth 1 (df_rows reentry_df) (0%Z, row_of [])).

(** The re-entry run after its first and after its second day. *)
Definition reentry_day1 : St :=
  state_of (run_days reentry_cfg reentry_df 1) (initial_state reentry_cfg 0%Z).

Definition reentry_day2 : St :=
  state_of (run_days reentry_cfg reentry_df 2) (initial_state reentry_cfg 0%Z).

(** Two steps and a forced entry after two idle days: four days, the base
    flat for three of them and 15% under its peak on the fourth. *)
Definition idle_cfg : Config :=
  {| initial_capital := 10000; base_ticker := "QQQ"; add_tickers := ["SSO"%string];
     steps_input := [ {| drop_pct := -5; shift_pct := 10; ticker := "SSO"; profit_pct := 50 |};
                      {| drop_pct := -10; shift_pct := 10; ticker := "SSO"; profit_pct := 50 |} ];
     start_date := Some 0%Z; end_date := Some 259200%Z; sell_mode := "limit";
     cash_buffer_pct := 0; use_ma_filter := false; ma_period := 200%nat;
     ma_mode := "defensive";
     max_buys_day := 0; max_buys_week := 0; force_buy_days := 2 |}.

Definition flat_row : Row :=
  row_of (ohlc "QQQ" 100 100 100 100 ++ [((FPeak, "QQQ"%string), 100)]
          ++ ohlc "SSO" 10 10 10 10).

Definition idle_df : DataFrame :=
  {| df_columns := ohlc_columns "QQQ" ++ [(FPeak, "QQQ"%string)] ++ ohlc_columns "SSO";
     df_rows :=
       [ (0%Z, flat_row); (86400%Z, flat_row); (172800%Z, flat_row);
         (259200%Z, row_of (ohlc "QQQ" 85 85 85 85 ++ [((FPeak, "QQQ"%string), 100)]
                            ++ ohlc "SSO" 7 7 7 7)) ] |}.

Definition idle_final : St := state_of (run idle_cfg idle_df) (initial_state idle_cfg 0%Z).

Definition nth_trade (st : St) (n : nat) : Trade :=
  nth n (trade_log st) (plain_trade 0%Z Holding "" 0 0 0).


(** [port_value] as a function of the cash and the holdings. *)
Definition worth_at (df : DataFrame) (row : Row) (c : Q) (h : Holdings) : Q :=
  fold_left (fun acc ts => if in_prices df (fst ts)
                           then acc + snd ts * prices_get df row (fst ts) else acc)
            h c.

(** The close of the base instrument in the last row of a table. *)
Definition last_close (cfg : Config) (df : DataFrame) (default : Q) : Q :=
  match df_rows df with
  | [] => default
  | r :: rest => snd (last rest r) (FClose, base_ticker cfg)
  end.

(** The close of the base instrument in the first row. *)
Definition first_close (cfg : Config) (df : DataFrame) (default : Q) : Q :=
  match df_rows df with
  | [] => default
  | r :: _ => snd r (FClose, base_ticker cfg)
  end.

(** A single-instrument table: the base at 100 then 121, one year apart. *)
Definition hold_cfg : Config :=
  {| initial_capital := 10000; base_ticker := "QQQ"; add_tickers := [];
     steps_input := [];
     start_date := Some 0%Z; end_date := Some 31536000%Z; sell_mode := "limit";
     cash_buffer_pct := 0; use_ma_filter := false; ma_period := 200%nat;
     ma_mode := "defensive";
     max_buys_day := 0; max_buys_week := 0; force_buy_days := 0 |}.

Definition hold_df : DataFrame :=
  {| df_columns := ohlc_columns "QQQ" ++ [(FPeak, "QQQ"%string)];
     df_rows :=
       [ (0%Z, row_of (ohlc "QQQ" 100 100 100 100 ++ [((FPeak, "QQQ"%string), 100)]));
         (31536000%Z, row_of (ohlc "QQQ" 121 121 121 121
                              ++ [((FPeak, "QQQ"%string), 121)])) ] |}.

Definition oversell_final : St :=
  state_of (run oversell_cfg oversell_df) (initial_state oversell_cfg 0%Z).

(** The same table as the provider hands it over, before the peak column is
    added. *)
Definition no_close_fetched : DataFrame :=
  {| df_columns := [(FOpen, "QQQ"%string); (FHigh, "QQQ"%string); (FLow, "QQQ"%string)]
                   ++ ohlc_columns "SSO";
     df_rows := df_rows no_close_df |}.

Definition no_close_final : St :=
  state_of (run no_close_cfg no_close_df) (initial_state no_close_cfg 0%Z).

(** The oversell configuration with at most one buy per day. *)
Definition throttle_cfg : Config :=
  {| initial_capital := 10000; base_ticker := "QQQ"; add_tickers := ["SSO"%string];
     steps_input := steps_input oversell_cfg;
     start_date := Some 0%Z; end_date := Some 86400%Z; sell_mode := "limit";
     cash_buffer_pct := 0; use_ma_filter := false; ma_period := 200%nat;
     ma_mode := "defensive";
     max_buys_day := 1; max_buys_week := 0; force_buy_days := 0 |}.

Definition oversell_step1 : Step := nth 1 (steps oversell_cfg)
  {| drop_pct := 0; shift_pct := 0; ticker := ""; profit_pct := 0 |}.

Definition throttle_st1 : St :=
  state_of (drop_entry throttle_cfg oversell_df 86400%Z oversell_row1 9000 10 0
                       oversell_step0 oversell_st0) oversell_st0.

(** A table in which the target instrument has no close price. *)
Definition no_target_df : DataFrame :=
  {| df_columns := ohlc_columns "QQQ" ++ [(FPeak, "QQQ"%string)];
     df_rows := df_rows oversell_df |}.


(** Every open lot was bought at a positive price. *)
Definition priced (ls : list Lot) : Prop := Forall (fun l => 0 < lot_price l) ls.

(** ** Vocabulary of the further properties *)

(** The order of [self.steps]: by the size of the drawdown trigger. *)
Definition by_trigger (a b : Step) : Prop := Qabs (drop_pct a) <= Qabs (drop_pct b).

(** The steps whose trigger has the size [k]. *)
Definition with_trigger (k : Q) (s : Step) : bool := Qeqb (Qabs (drop_pct s)) k.

(** The buys counted in an entry of [self.step_stats], and in all of them. *)
Definition buys_of (s : StepStat) : Z := (b_count (ss_drop s) + b_count (ss_force s))%Z.

Definition buy_total (s : StepStats) : Z :=
  fold_right (fun kv acc => (buys_of (snd kv) + acc)%Z) 0%Z s.

(** The fields that only a buy changes: the throttle's history, the date of
    the last buy, the buy counts and the buy-and-hold share count. *)
Definition same_buys (st st' : St) : Prop :=
  buy_history st' = buy_history st
  /\ last_buy_date st' = last_buy_date st
  /\ buy_total (step_stats st') = buy_total (step_stats st)
  /\ bh_shares st' = bh_shares st.




(** [st'] is [st] after [k] buys dated [date]. *)
Definition bought (date : Timestamp) (k : nat) (st st' : St) : Prop :=
  buy_history st' = buy_history st ++ repeat date k
  /\ last_buy_date st' = match k with O => last_buy_date st | S _ => date end
  /\ buy_total (step_stats st') = (buy_total (step_stats st) + Z.of_nat k)%Z
  /\ bh_shares st' = bh_shares st.






(** A buy history that ends no later than [date] and keeps every seven-day
    window within the weekly limit. *)
Definition within_week_limit (cfg : Config) (date : Timestamp) (h : list Timestamp) : Prop :=
  (forall t, In t h -> (date_of t <= date_of date)%Z)
  /\ forall d, (count_if (in_week d) h <= max_buys_week cfg)%Z.




(** The holdings that a liquidation sells, and the row it writes for each. *)
Definition held_long (ts : string * Q) : bool := Qltb 0 (snd ts).

Definition defensive_sale (df : DataFrame) (date : Timestamp) (row : Row)
    (ts : string * Q) : Trade :=
  plain_trade date SellDefensive (fst ts) (snd ts) (prices_get df row (fst ts))
              (snd ts * prices_get df row (fst ts)).


(** The [SELL (Profit)] row of a lot sold at [exec_price]. *)
Definition exit_trade (cfg : Config) (date : Timestamp) (exec_price : Q) (lot : Lot) : Trade :=
  {| t_date := date; t_action := SellProfit (lot_entry_type lot);
     t_ticker := lot_ticker lot; t_into := None;
     t_shares := lot_shares lot; t_price := exec_price;
     t_value := lot_shares lot * exec_price;
     t_step_idx := Some (lot_step_idx lot);
     t_drop_pct := option_map drop_pct (nth_error (steps cfg) (lot_step_idx lot));
     t_profit_amt := Some (lot_shares lot * exec_price - lot_shares lot * lot_price lot);
     t_profit_pct := Some ((exec_price - lot_price lot) / lot_price lot * 100);
     t_buy_date := Some (lot_buy_date lot);
     t_days_held := Some (days_between date (lot_buy_date lot)) |}.

(** A row that the day of [date] can write: it carries the date, it is
    neither the initial purchase nor a [HOLDING] row, and a [SELL (Profit)]
    row is the exit of a lot bought at a positive price that today's exit
    decision sells. *)
Definition day_row (cfg : Config) (df : DataFrame) (date : Timestamp) (row : Row)
    (t : Trade) : Prop :=
  t_date t = date
  /\ match t_action t with
     | BuyInit | Holding => False
     | SellProfit _ =>
         exists lot exec_price,
           0 < lot_price lot
           /\ lot_exit cfg df row lot = Some exec_price
           /\ t = exit_trade cfg date exec_price lot
     | _ => True
     end.













(** * Properties of the engine *)

(** ** Comparisons on rationals *)

Lemma Qleb_le (x y : Q) : Qleb x y = true <-> x <= y.
Proof. apply Qle_bool_iff. Qed.

Lemma Qleb_gt (x y : Q) : Qleb x y = false <-> y < x.
Proof.
  unfold Qleb. split; intro H.
  - apply Qnot_le_lt. intro Hle. apply Qle_bool_iff in Hle. congruence.
  - destruct (Qle_bool x y) eqn:E; [|reflexivity].
    apply Qle_bool_iff in E. lra.
Qed.

Lemma Qltb_lt (x y : Q) : Qltb x y = true <-> x < y.
Proof.
  unfold Qltb. rewrite negb_true_iff. apply (Qleb_gt y x).
Qed.

Lemma Qltb_ge (x y : Q) : Qltb x y = false <-> y <= x.
Proof.
  unfold Qltb. rewrite negb_false_iff. apply Qle_bool_iff.
Qed.

Lemma Qeqb_neq (x y : Q) : Qeqb x y = false <-> ~ x == y.
Proof.
  unfold Qeqb. split; intro H.
  - now apply Qeq_bool_neq.
  - destruct (Qeq_bool x y) eqn:E; [|reflexivity].
    apply Qeq_bool_iff in E. contradiction.
Qed.

(** ** Dictionaries and flags *)

Section DictFacts.

Context {K V : Type} (eqb : K -> K -> bool).
Hypothesis eqb_spec : forall a b, eqb a b = true <-> a = b.

Lemma eqb_same (k : K) : eqb k k = true.
Proof. now apply eqb_spec. Qed.

Lemma eqb_diff (k k' : K) : k <> k' -> eqb k k' = false.
Proof.
  intro H. destruct (eqb k k') eqn:E; [|reflexivity].
  apply eqb_spec in E. contradiction.
Qed.

Lemma dict_get_set_same (d : list (K * V)) (k : K) (v dflt : V) :
  dict_get eqb (dict_set eqb d k v) k dflt = v.
Proof.
  induction d as [|[k' v'] d IH]; simpl.
  - now rewrite eqb_same.
  - destruct (eqb k k') eqn:E; simpl; rewrite E; [reflexivity | exact IH].
Qed.

Lemma dict_get_set_other (d : list (K * V)) (k k' : K) (v dflt : V) :
  k <> k' -> dict_get eqb (dict_set eqb d k v) k' dflt = dict_get eqb d k' dflt.
Proof.
  intro Hne. induction d as [|[k0 v0] d IH]; simpl.
  - rewrite eqb_diff; [reflexivity | congruence].
  - destruct (eqb k k0) eqn:E; simpl.
    + apply eqb_spec in E. subst k0. rewrite eqb_diff; [reflexivity | congruence].
    + destruct (eqb k' k0); [reflexivity | exact IH].
Qed.

End DictFacts.

Lemma hget_hset_same (h : Holdings) (t : string) (v : Q) : hget (hset h t v) t = v.
Proof. apply dict_get_set_same, String.eqb_eq. Qed.

Lemma hget_hset_other (h : Holdings) (t t' : string) (v : Q) :
  t <> t' -> hget (hset h t v) t' = hget h t'.
Proof. apply dict_get_set_other, String.eqb_eq. Qed.

Lemma stat_get_update_same (s : StepStats) (i : nat) (f : StepStat -> StepStat) :
  stat_get (stat_update s i f) i = f (stat_get s i).
Proof. apply dict_get_set_same, Nat.eqb_eq. Qed.

Lemma stat_get_update_other (s : StepStats) (i j : nat) (f : StepStat -> StepStat) :
  i <> j -> stat_get (stat_update s i f) j = stat_get s j.
Proof. apply dict_get_set_other, Nat.eqb_eq. Qed.

Lemma length_set_flag (flags : list bool) (i : nat) (b : bool) :
  List.length (set_flag flags i b) = List.length flags.
Proof.
  revert i. induction flags as [|f flags IH]; intros [|i]; simpl; auto.
Qed.

(** ** The buy throttle *)

Lemma count_if_app {A : Type} (f : A -> bool) (l l' : list A) :
  count_if f (l ++ l') = (count_if f l + count_if f l')%Z.
Proof.
  unfold count_if. rewrite filter_app, length_app. lia.
Qed.

Lemma count_if_nonneg {A : Type} (f : A -> bool) (l : list A) : (0 <= count_if f l)%Z.
Proof. unfold count_if. lia. Qed.

Lemma date_of_minus_days (ts n : Z) : date_of (minus_days ts n) = (date_of ts - n)%Z.
Proof.
  unfold date_of, minus_days, day_seconds.
  replace (ts - n * 86400)%Z with (ts + (- n) * 86400)%Z by lia.
  rewrite Z.div_add by lia. lia.
Qed.

Lemma same_day_spec (current_date d : Timestamp) :
  same_day current_date d = true <-> date_of d = date_of current_date.
Proof. unfold same_day. apply Z.eqb_eq. Qed.

Lemma in_week_spec (current_date d : Timestamp) :
  in_week current_date d = true
  <-> (date_of current_date - 6 <= date_of d <= date_of current_date)%Z.
Proof.
  unfold in_week. rewrite date_of_minus_days, andb_true_iff, !Z.leb_le. tauto.
Qed.

Lemma check_buy_limits_unlimited (cfg : Config) (h : list Timestamp) (d : Timestamp) :
  max_buys_day cfg = 0%Z -> max_buys_week cfg = 0%Z -> check_buy_limits cfg h d = true.
Proof.
  intros Hd Hw. unfold check_buy_limits. now rewrite Hd, Hw.
Qed.

Lemma check_buy_limits_blocked (cfg : Config) (h : list Timestamp) (d : Timestamp) :
  check_buy_limits cfg h d = false
  <-> (0 < max_buys_day cfg <= count_if (same_day d) h)%Z
      \/ (0 < max_buys_week cfg <= count_if (in_week d) h)%Z.
Proof.
  unfold check_buy_limits.
  destruct (max_buys_day cfg =? 0)%Z eqn:E1;
  destruct (max_buys_week cfg =? 0)%Z eqn:E2;
  destruct (0 <? max_buys_day cfg)%Z eqn:E3;
  destruct (max_buys_day cfg <=? count_if (same_day d) h)%Z eqn:E4;
  destruct (0 <? max_buys_week cfg)%Z eqn:E5;
  destruct (max_buys_week cfg <=? count_if (in_week d) h)%Z eqn:E6;
  simpl; split; intro H; try discriminate; try reflexivity; lia.
Qed.

(** ** One step of the drop loop *)

Section DropEntry.

Variable cfg : Config.
Variable df : DataFrame.
Variable date : Timestamp.
Variable row : Row.
Variables port_value drawdown_pct : Q.

Let base_price := prices_get df row (base_ticker cfg).

Lemma drop_entry_not_candidate (i : nat) (step : Step) (st : St) :
  candidate cfg df row port_value drawdown_pct i step st = false ->
  drop_entry cfg df date row port_value drawdown_pct i step st = Done st.
Proof.
  unfold candidate, drop_entry. intro H.
  destruct (Qleb (Qabs (drop_pct step)) drawdown_pct && negb (flag_at (step_active_flags st) i));
    [|reflexivity].
  simpl in H. apply Qleb_gt in H. apply Qltb_lt in H. now rewrite H.
Qed.

Lemma drop_entry_throttled (i : nat) (step : Step) (st : St) :
  candidate cfg df row port_value drawdown_pct i step st = true ->
  check_buy_limits cfg (buy_history st) date = false ->
  drop_entry cfg df date row port_value drawdown_pct i step st
  = Done (log_trade (skip_trade date i step) st).
Proof.
  unfold candidate, drop_entry. intros H Hc.
  apply andb_true_iff in H. destruct H as [H1 H2]. rewrite H1.
  apply Qleb_le, Qltb_ge in H2. rewrite H2, Hc. reflexivity.
Qed.

Lemma drop_entry_fires (i : nat) (step : Step) (st : St) :
  candidate cfg df row port_value drawdown_pct i step st = true ->
  check_buy_limits cfg (buy_history st) date = true ->
  drop_entry cfg df date row port_value drawdown_pct i step st
  = if Qeqb base_price 0 then Raised ZeroDivisionError
    else Done (fired cfg df date row port_value i step st).
Proof.
  unfold candidate, drop_entry. intros H Hc.
  apply andb_true_iff in H. destruct H as [H1 H2]. rewrite H1.
  apply Qleb_le, Qltb_ge in H2. rewrite H2, Hc. simpl negb. cbv iota.
  fold base_price. destruct (Qeqb base_price 0); [reflexivity|].
  unfold fired. fold base_price.
  destruct (Qltb 0 (prices_get df row (ticker step))); reflexivity.
Qed.

Lemma fired_buy_history (i : nat) (step : Step) (st : St) :
  buy_history (fired cfg df date row port_value i step st) = buy_history st ++ [date].
Proof.
  unfold fired. destruct (Qltb 0 (prices_get df row (ticker step))); reflexivity.
Qed.

Lemma fired_step_stats (i : nat) (step : Step) (st : St) :
  step_stats (fired cfg df date row port_value i step st)
  = stat_update (step_stats st) i (with_bucket DROP incr_count).
Proof.
  unfold fired. destruct (Qltb 0 (prices_get df row (ticker step))); reflexivity.
Qed.

Lemma fired_trade_log (i : nat) (step : Step) (st : St) :
  trade_log (fired cfg df date row port_value i step st)
  = trade_log st ++
    (if Qltb 0 (prices_get df row (ticker step))
     then [entry_trade cfg date Switch i (ticker step)
             (port_value * (shift_pct step / 100))
             (prices_get df row (ticker step)) (drop_pct step)]
     else []).
Proof.
  unfold fired. destruct (Qltb 0 (prices_get df row (ticker step))); simpl.
  - reflexivity.
  - now rewrite app_nil_r.
Qed.

End DropEntry.

(** C6. [check_buy_limits] allows the buy at once when both limits are 0;
    otherwise it blocks exactly when a positive daily limit is reached by the
    buys recorded on today's calendar date, or a positive weekly limit by
    the buys recorded in the inclusive window from six days ago to today.
    With a daily limit of 1 and two candidate steps on one day (the first
    passing the check), the first step executes and the second is logged as
    [SKIP (Limit)]: the buy history grows by one timestamp only, one skip row
    is appended after the first step's rows, the first step's [DROP] count
    goes up by one and the second step's count is untouched. *)
Theorem throttle_semantics (cfg : Config) (history : list Timestamp) (today : Timestamp) :
  (max_buys_day cfg = 0%Z -> max_buys_week cfg = 0%Z ->
   check_buy_limits cfg history today = true)
  /\ (check_buy_limits cfg history today = false
      <-> (0 < max_buys_day cfg <= count_if (same_day today) history)%Z
          \/ (0 < max_buys_week cfg <= count_if (in_week today) history)%Z)
  /\ (forall d, same_day today d = true <-> date_of d = date_of today)
  /\ (forall d, in_week today d = true
                <-> (date_of today - 6 <= date_of d <= date_of today)%Z)
  /\ (forall (df : DataFrame) (row : Row) (pv dd : Q) (s1 s2 : Step) (st st1 : St),
        max_buys_day cfg = 1%Z ->
        candidate cfg df row pv dd 0 s1 st = true ->
        check_buy_limits cfg (buy_history st) today = true ->
        drop_entry cfg df today row pv dd 0 s1 st = Done st1 ->
        candidate cfg df row pv dd 1 s2 st1 = true ->
        exists st2,
          drop_entries cfg df today row pv dd 0 [s1; s2] st = Done st2
          /\ buy_history st2 = buy_history st ++ [today]
          /\ trade_log st2 = trade_log st1 ++ [skip_trade today 1 s2]
          /\ trade_log st1
             = trade_log st ++
               (if Qltb 0 (prices_get df row (ticker s1))
                then [entry_trade cfg today Switch 0 (ticker s1)
                        (pv * (shift_pct s1 / 100))
                        (prices_get df row (ticker s1)) (drop_pct s1)]
                else [])
          /\ drop_count st2 0 = (drop_count st 0 + 1)%Z
          /\ drop_count st2 1 = drop_count st 1).
Proof.
  split; [apply check_buy_limits_unlimited|].
  split; [apply check_buy_limits_blocked|].
  split; [intro d; apply same_day_spec|].
  split; [intro d; apply in_week_spec|].
  intros df row pv dd s1 s2 st st1 Hmax Hc1 Hok Hrun Hc2.
  rewrite (drop_entry_fires _ _ _ _ _ _ _ _ _ Hc1 Hok) in Hrun.
  destruct (Qeqb (prices_get df row (base_ticker cfg)) 0) eqn:E; [discriminate|].
  injection Hrun as <-.
  set (st1 := fired cfg df today row pv 0 s1 st) in *.
  assert (Hblocked : check_buy_limits cfg (buy_history st1) today = false).
  { apply check_buy_limits_blocked. left. rewrite Hmax.
    unfold st1. rewrite fired_buy_history, count_if_app.
    assert (H1 : count_if (same_day today) [today] = 1%Z).
    { unfold count_if. simpl. unfold same_day. now rewrite Z.eqb_refl. }
    pose proof (count_if_nonneg (same_day today) (buy_history st)). lia. }
  exists (log_trade (skip_trade today 1 s2) st1).
  split.
  { simpl. rewrite (drop_entry_fires _ _ _ _ _ _ _ _ _ Hc1 Hok), E.
    simpl. fold st1. rewrite (drop_entry_throttled _ _ _ _ _ _ _ _ _ Hc2 Hblocked).
    reflexivity. }
  split; [simpl; apply fired_buy_history|].
  split; [reflexivity|].
  split; [apply fired_trade_log|].
  unfold drop_count.
  change (step_stats (log_trade (skip_trade today 1 s2) st1)) with (step_stats st1).
  unfold st1. rewrite fired_step_stats.
  split.
  - rewrite stat_get_update_same. reflexivity.
  - rewrite stat_get_update_other by lia. reflexivity.
Qed.

(** C10. When a drop-triggered step passes the drawdown, funding and
    throttle checks on a day where the base price is not zero while the
    target instrument has no positive close, the shift amount of base is
    still sold into cash, the step's [DROP] count still goes up, the buy
    timestamp is still recorded and the idle timer reset; no lot is opened,
    the step's flag stays off and nothing is logged. *)
Theorem drop_entry_without_target_price
    (cfg : Config) (df : DataFrame) (date : Timestamp) (row : Row)
    (port_value drawdown_pct : Q) (i : nat) (step : Step) (st : St) :
  let base := base_ticker cfg in
  let base_price := prices_get df row base in
  let shift_val := port_value * (shift_pct step / 100) in
  Qabs (drop_pct step) <= drawdown_pct ->
  flag_at (step_active_flags st) i = false ->
  shift_val * 0.9 <= hget (holdings st) base * base_price ->
  check_buy_limits cfg (buy_history st) date = true ->
  ~ base_price == 0 ->
  prices_get df row (ticker step) <= 0 ->
  exists st',
    drop_entry cfg df date row port_value drawdown_pct i step st = Done st'
    /\ cash st' = cash st + shift_val
    /\ holdings st' = hset (holdings st) base (hget (holdings st) base - shift_val / base_price)
    /\ drop_count st' i = (drop_count st i + 1)%Z
    /\ buy_history st' = buy_history st ++ [date]
    /\ last_buy_date st' = date
    /\ lots st' = lots st
    /\ step_active_flags st' = step_active_flags st
    /\ flag_at (step_active_flags st') i = false
    /\ trade_log st' = trade_log st.
Proof.
  intros base base_price shift_val Hdd Hflag Hfund Hok Hbase Htarget.
  assert (Hc : candidate cfg df row port_value drawdown_pct i step st = true).
  { unfold candidate. rewrite Hflag.
    apply Qleb_le in Hdd. apply Qleb_le in Hfund.
    fold base base_price shift_val. now rewrite Hdd, Hfund. }
  exists (fired cfg df date row port_value i step st).
  rewrite (drop_entry_fires _ _ _ _ _ _ _ _ _ Hc Hok).
  apply Qeqb_neq in Hbase. fold base base_price. rewrite Hbase.
  apply Qltb_ge in Htarget.
  unfold fired, drop_count. rewrite Htarget. simpl.
  rewrite stat_get_update_same.
  repeat split; auto.
Qed.

(** ** Holdings and the trade log *)

Lemma hsum_hset (P : string -> Q) (h : Holdings) (t : string) (v : Q) :
  hsum P (hset h t v) == hsum P h + (v - hget h t) * P t.
Proof.
  unfold hset, hget. induction h as [|[k x] h IH]; simpl.
  - ring.
  - destruct (String.eqb t k) eqn:E; simpl.
    + apply String.eqb_eq in E. subst k. ring.
    + rewrite IH. ring.
Qed.

(** Appending rows to the trade log touches nothing else. *)
Lemma log_all_frame (lg : list Trade) (st : St) :
  let st' := fold_left (fun s t => log_trade t s) lg st in
  cash st' = cash st /\ holdings st' = holdings st /\ lots st' = lots st
  /\ step_active_flags st' = step_active_flags st
  /\ daily_stats st' = daily_stats st
  /\ active_defensive st' = active_defensive st
  /\ is_ma_paused st' = is_ma_paused st
  /\ trade_log st' = trade_log st ++ lg.
Proof.
  revert st. induction lg as [|t lg IH]; intro st; simpl.
  - rewrite app_nil_r. repeat split.
  - destruct (IH (log_trade t st)) as (H1 & H2 & H3 & H4 & H5 & H6 & H7 & H8).
    simpl in *. rewrite H1, H2, H3, H4, H5, H6, H7, H8, <- app_assoc.
    repeat split.
Qed.

Lemma hset_zero_all (h : Holdings) (t : string) :
  Forall (fun ts => snd ts = 0) h -> Forall (fun ts => snd ts = 0) (hset h t 0).
Proof.
  unfold hset. induction 1 as [|[k x] h Hx Hh IH]; simpl.
  - repeat constructor.
  - destruct (String.eqb t k); constructor; auto.
Qed.

Lemma initial_holdings_zero (l : list string) :
  forall h, Forall (fun ts => snd ts = 0) h ->
            Forall (fun ts => snd ts = 0) (fold_left (fun h t => hset h t 0) l h).
Proof.
  induction l as [|t l IH]; intros h H; simpl; [exact H|].
  apply IH. now apply hset_zero_all.
Qed.

Lemma zero_holdings (P : string -> Q) (h : Holdings) (t : string) :
  Forall (fun ts => snd ts = 0) h -> hsum P h == 0 /\ hget h t = 0.
Proof.
  unfold hget. induction 1 as [|[k x] h Hx Hh [IH1 IH2]]; simpl.
  - split; reflexivity.
  - simpl in Hx. subst x. split.
    + rewrite IH1. ring.
    + destruct (String.eqb t k); [reflexivity | exact IH2].
Qed.

(** C1 does not hold of the code.  On the second day of this run the first
    step has already sold half of the base; the second step then passes the
    check commented [# Sufficient Base?] with a base holding worth 4500
    against a shift amount of 4950, sells 55 shares where 50 are held, and
    the recorded base holding is -5 shares. *)
Lemma base_holding_goes_negative :
  exists st d ts,
    run oversell_cfg oversell_df = Done st
    /\ nth_error (daily_stats st) 1 = Some d
    /\ nth_error (d_tickers d) 0 = Some ts
    /\ ts_ticker ts = "QQQ"%string
    /\ ts_hold ts == - (5)
    /\ ~ 0 <= ts_hold ts.
Proof.
  eexists. eexists. eexists.
  split; [vm_compute; reflexivity|].
  split; [reflexivity|].
  split; [reflexivity|].
  split; [reflexivity|].
  split.
  - vm_compute. reflexivity.
  - vm_compute. intro H. apply H. reflexivity.
Qed.

(** ** The shape of the entry phase *)

Section EntryShape.

Variable cfg : Config.
Variable df : DataFrame.
Variable date : Timestamp.
Variable row : Row.
Variable port_value : Q.

Lemma first_inactive_spec (flags : list bool) :
  forall k idx, first_inactive flags k = Some idx ->
    (k <= idx)%nat /\ (idx - k < List.length flags)%nat
    /\ flag_at flags (idx - k) = false.
Proof.
  unfold flag_at.
  induction flags as [|f flags IH]; intros k idx H; simpl in H; [discriminate|].
  destruct f; simpl in H.
  - apply IH in H. destruct H as (H1 & H2 & H3).
    replace (idx - k)%nat with (S (idx - S k)) by lia. simpl. repeat split; auto; lia.
  - injection H as <-. rewrite Nat.sub_diag. simpl. repeat split; auto; lia.
Qed.

(** A forced entry either leaves the state alone, or sells base without
    opening a lot (no positive target price), or opens its lot on the first
    inactive step. *)
Lemma forced_entry_shape (st st' : St) (b : bool) :
  forced_entry cfg df date row port_value st = Done (st', b) ->
  (b = false /\ st' = st)
  \/ (b = false /\ exists step,
        st' = sell_base cfg (port_value * (shift_pct step / 100))
                        (prices_get df row (base_ticker cfg)) st)
  \/ (b = true /\ exists idx step,
        (idx < List.length (step_active_flags st))%nat
        /\ flag_at (step_active_flags st) idx = false
        /\ 0 < prices_get df row (ticker step)
        /\ st' = forced cfg df date row port_value idx step st).
Proof.
  unfold forced_entry. intro H.
  destruct (0 <? force_buy_days cfg)%Z; [|injection H as <- <-; now left].
  destruct (force_buy_days cfg <=? _)%Z; [|injection H as <- <-; now left].
  destruct (first_inactive _ 0) as [idx|] eqn:Ef; [|injection H as <- <-; now left].
  destruct (nth_error (steps cfg) idx) as [step|] eqn:En; [|discriminate].
  destruct (Qleb _ _) eqn:Ec; [|injection H as <- <-; now left].
  destruct (Qeqb _ 0) eqn:E; [discriminate|].
  destruct (Qltb 0 (prices_get df row (ticker step))) eqn:Eb; injection H as <- <-.
  - right. right. split; [reflexivity|]. exists idx, step.
    apply first_inactive_spec in Ef. rewrite Nat.sub_0_r in Ef.
    destruct Ef as (_ & H1 & H2). apply Qltb_lt in Eb. repeat split; auto.
  - right. left. split; [reflexivity|]. now exists step.
Qed.

(** One step of the drop loop leaves the state alone, logs a skip, or
    fires. *)
Lemma drop_entry_shape (dd : Q) (i : nat) (step : Step) (st st' : St) :
  drop_entry cfg df date row port_value dd i step st = Done st' ->
  st' = st
  \/ st' = log_trade (skip_trade date i step) st
  \/ (flag_at (step_active_flags st) i = false
      /\ st' = fired cfg df date row port_value i step st).
Proof.
  intro H.
  destruct (candidate cfg df row port_value dd i step st) eqn:Hc.
  - destruct (check_buy_limits cfg (buy_history st) date) eqn:Hk.
    + rewrite (drop_entry_fires _ _ _ _ _ _ _ _ _ Hc Hk) in H.
      destruct (Qeqb _ 0); [discriminate|]. injection H as <-.
      right. right. split; [|reflexivity].
      unfold candidate in Hc. apply andb_true_iff in Hc. destruct Hc as [Hc _].
      apply andb_true_iff in Hc. destruct Hc as [_ Hc].
      now apply negb_true_iff in Hc.
    + rewrite (drop_entry_throttled _ _ _ _ _ _ _ _ _ Hc Hk) in H.
      injection H as <-. auto.
  - rewrite (drop_entry_not_candidate _ _ _ _ _ _ _ _ _ Hc) in H.
    injection H as <-. auto.
Qed.

End EntryShape.

(** ** Open lots and active flags *)

Lemma lots_of_app (i : nat) (l l' : list Lot) :
  lots_of i (l ++ l') = lots_of i l ++ lots_of i l'.
Proof. apply filter_app. Qed.

Lemma flag_at_set_false (flags : list bool) (i j : nat) :
  flag_at (set_flag flags j false) i = flag_at flags i && negb (Nat.eqb j i).
Proof.
  unfold flag_at. revert i j.
  induction flags as [|f flags IH]; intros [|i] [|j]; simpl;
    rewrite ?andb_true_r, ?andb_false_r; auto.
Qed.

Lemma flag_at_set_true (flags : list bool) (i j : nat) :
  (j < List.length flags)%nat ->
  flag_at (set_flag flags j true) i = flag_at flags i || Nat.eqb j i.
Proof.
  unfold flag_at. revert i j.
  induction flags as [|f flags IH]; intros [|i] [|j] H; simpl in *;
    try lia; rewrite ?orb_false_r, ?orb_true_r; auto.
  apply IH. lia.
Qed.

Lemma length_clear_flags (sold : list Lot) :
  forall flags, List.length (clear_flags flags sold) = List.length flags.
Proof.
  unfold clear_flags. induction sold as [|l sold IH]; intro flags; simpl.
  - reflexivity.
  - rewrite IH. apply length_set_flag.
Qed.

Lemma flag_at_clear_flags (i : nat) (sold : list Lot) :
  forall flags,
    flag_at (clear_flags flags sold) i
    = flag_at flags i && Nat.eqb (List.length (lots_of i sold)) 0.
Proof.
  unfold clear_flags. induction sold as [|l sold IH]; intro flags; simpl.
  - now rewrite andb_true_r.
  - rewrite IH, flag_at_set_false.
    destruct (Nat.eqb (lot_step_idx l) i); simpl.
    + now rewrite !andb_false_r.
    + now rewrite andb_true_r.
Qed.

Lemma lots_of_partition (i : nat) (f : Lot -> bool) (ls : list Lot) :
  List.length (lots_of i ls)
  = (List.length (lots_of i (filter f ls))
     + List.length (lots_of i (filter (fun l => negb (f l)) ls)))%nat.
Proof.
  induction ls as [|l ls IH]; simpl; [reflexivity|].
  destruct (f l); simpl; destruct (Nat.eqb (lot_step_idx l) i); simpl; lia.
Qed.

Section Book.

Variable cfg : Config.

(** The book condition on a list of lots and a list of flags. *)
Let consistent (ls : list Lot) (flags : list bool) : Prop :=
  List.length flags = List.length (steps cfg)
  /\ forall i, List.length (lots_of i ls) = if flag_at flags i then 1%nat else 0%nat.

Lemma consistent_empty : consistent [] (map (fun _ => false) (steps cfg)).
Proof.
  split; [apply length_map|].
  intro i. simpl. unfold flag_at.
  destruct (nth_in_or_default i (map (fun _ : Step => false) (steps cfg)) false) as [H|H].
  - apply in_map_iff in H. destruct H as (x & H & _). now rewrite <- H.
  - now rewrite H.
Qed.

Lemma consistent_open (ls : list Lot) (flags : list bool) (l : Lot) :
  consistent ls flags ->
  (lot_step_idx l < List.length flags)%nat ->
  flag_at flags (lot_step_idx l) = false ->
  consistent (ls ++ [l]) (set_flag flags (lot_step_idx l) true).
Proof.
  intros [Hlen H] Hidx Hoff. split; [now rewrite length_set_flag|].
  intro i. rewrite lots_of_app, length_app, flag_at_set_true by exact Hidx.
  specialize (H i). simpl.
  destruct (Nat.eqb (lot_step_idx l) i) eqn:E; simpl.
  - apply Nat.eqb_eq in E. subst i. rewrite Hoff in H. rewrite H, orb_true_r. reflexivity.
  - rewrite orb_false_r, H. destruct (flag_at flags i); reflexivity.
Qed.

Lemma consistent_exits (f : Lot -> bool) (ls : list Lot) (flags : list bool) :
  consistent ls flags ->
  consistent (filter (fun l => negb (f l)) ls) (clear_flags flags (filter f ls)).
Proof.
  intros [Hlen H]. split; [now rewrite length_clear_flags|].
  intro i. rewrite flag_at_clear_flags.
  specialize (H i). rewrite (lots_of_partition i f ls) in H.
  destruct (flag_at flags i); simpl.
  - destruct (List.length (lots_of i (filter f ls))) as [|n]; simpl; lia.
  - lia.
Qed.

End Book.

(** ** The exit loop *)

Section Exits.

Variable cfg : Config.
Variable df : DataFrame.
Variable date : Timestamp.
Variable row : Row.

Lemma deploy_cash_frame (st : St) :
  let st' := deploy_cash cfg df row st in
  lots st' = lots st /\ step_active_flags st' = step_active_flags st
  /\ trade_log st' = trade_log st /\ daily_stats st' = daily_stats st
  /\ active_defensive st' = active_defensive st
  /\ is_ma_paused st' = is_ma_paused st.
Proof.
  unfold deploy_cash.
  repeat match goal with
         | |- context [if ?c then _ else _] => destruct c
         end; simpl; repeat split.
Qed.

Lemma sell_lot_frame (exec_price : Q) (lot : Lot) (st : St) :
  let st' := sell_lot cfg df date row exec_price lot st in
  lots st' = lots st
  /\ step_active_flags st' = set_flag (step_active_flags st) (lot_step_idx lot) false
  /\ (exists t, trade_log st' = trade_log st ++ [t]
                /\ t_action t = SellProfit (lot_entry_type lot) /\ t_date t = date)
  /\ daily_stats st' = daily_stats st
  /\ active_defensive st' = active_defensive st
  /\ is_ma_paused st' = is_ma_paused st.
Proof.
  unfold sell_lot.
  set (st1 := set_step_stats _ (credit_exit exec_price lot st)).
  destruct (deploy_cash_frame st1) as (H1 & H2 & H3 & H4 & H5 & H6).
  simpl. rewrite H1, H2, H3, H4, H5, H6. simpl.
  repeat split. eexists. split; [reflexivity|]. split; reflexivity.
Qed.

Lemma exit_loop_kept (ls : list Lot) :
  forall st, snd (exit_loop cfg df date row ls st)
             = filter (fun l => negb (sold_today cfg df row l)) ls.
Proof.
  induction ls as [|l ls IH]; intro st; simpl; [reflexivity|].
  unfold sold_today at 1. destruct (lot_exit cfg df row l) as [e|]; simpl.
  - apply IH.
  - specialize (IH st). destruct (exit_loop cfg df date row ls st) as [st' kept].
    simpl in *. now rewrite IH.
Qed.

Lemma exit_loop_state (ls : list Lot) :
  forall st,
    let st' := fst (exit_loop cfg df date row ls st) in
    lots st' = lots st
    /\ step_active_flags st'
       = clear_flags (step_active_flags st) (filter (sold_today cfg df row) ls)
    /\ (exists new, trade_log st' = trade_log st ++ new
                    /\ Forall (fun t => is_force t = false /\ is_switch t = false) new)
    /\ daily_stats st' = daily_stats st
    /\ active_defensive st' = active_defensive st
    /\ is_ma_paused st' = is_ma_paused st.
Proof.
  induction ls as [|l ls IH]; intro st; simpl.
  - repeat split. exists []. split; [now rewrite app_nil_r | constructor].
  - unfold sold_today at 1. destruct (lot_exit cfg df row l) as [e|]; simpl.
    + destruct (IH (sell_lot cfg df date row e l st))
        as (H1 & H2 & (new & H3 & H3') & H4 & H5 & H6).
      destruct (sell_lot_frame e l st) as (G1 & G2 & (t & G3 & Ga & _) & G4 & G5 & G6).
      rewrite H1, H2, H3, H4, H5, H6, G1, G2, G3, G4, G5, G6.
      repeat split. exists (t :: new). split; [now rewrite <- app_assoc|].
      constructor; [|exact H3'].
      unfold is_force, is_switch. rewrite Ga. split; reflexivity.
    + specialize (IH st).
      destruct (exit_loop cfg df date row ls st) as [st' kept]. exact IH.
Qed.

Lemma check_exits_frame (st : St) :
  let st' := check_exits cfg df date row st in
  lots st' = filter (fun l => negb (sold_today cfg df row l)) (lots st)
  /\ step_active_flags st'
     = clear_flags (step_active_flags st) (filter (sold_today cfg df row) (lots st))
  /\ (exists new, trade_log st' = trade_log st ++ new
                  /\ Forall (fun t => is_force t = false /\ is_switch t = false) new)
  /\ daily_stats st' = daily_stats st
  /\ active_defensive st' = active_defensive st
  /\ is_ma_paused st' = is_ma_paused st.
Proof.
  unfold check_exits.
  pose proof (exit_loop_kept (lots st) st) as Hk.
  pose proof (exit_loop_state (lots st) st) as Hs.
  destruct (exit_loop cfg df date row (lots st) st) as [st' kept].
  simpl in *. destruct Hs as (H1 & H2 & H3 & H4 & H5 & H6).
  rewrite Hk, H2, H4, H5, H6. repeat split. exact H3.
Qed.

Lemma book_check_exits (st : St) :
  book_consistent cfg st -> book_consistent cfg (check_exits cfg df date row st).
Proof.
  intro H. destruct (check_exits_frame st) as (H1 & H2 & _).
  unfold book_consistent. rewrite H1, H2.
  apply (consistent_exits cfg (sold_today cfg df row)). exact H.
Qed.

End Exits.

(** ** Growth of the trade log *)

Lemma log_ext_refl (P : Trade -> Prop) (st : St) : log_ext P st st.
Proof. exists []. split; [now rewrite app_nil_r | constructor]. Qed.

Lemma log_ext_same (P : Trade -> Prop) (st st' : St) :
  trade_log st' = trade_log st -> log_ext P st st'.
Proof. intro H. exists []. split; [now rewrite app_nil_r | constructor]. Qed.

Lemma log_ext_trans (P : Trade -> Prop) (st1 st2 st3 : St) :
  log_ext P st1 st2 -> log_ext P st2 st3 -> log_ext P st1 st3.
Proof.
  intros (n1 & H1 & F1) (n2 & H2 & F2). exists (n1 ++ n2). split.
  - now rewrite H2, H1, app_assoc.
  - apply Forall_app. now split.
Qed.

Lemma log_ext_weaken (P R : Trade -> Prop) (st st' : St) :
  (forall t, P t -> R t) -> log_ext P st st' -> log_ext R st st'.
Proof.
  intros H (n & H1 & F). exists n. split; [exact H1|].
  eapply Forall_impl; eauto.
Qed.

Lemma log_ext_one (P : Trade -> Prop) (st st' : St) (t : Trade) :
  trade_log st' = trade_log st ++ [t] -> P t -> log_ext P st st'.
Proof. intros H Ht. exists [t]. split; [exact H | now constructor]. Qed.

(** ** The regime switch *)

Section Regime.

Variable cfg : Config.
Variable df : DataFrame.
Variable date : Timestamp.
Variable row : Row.

Lemma liquidate_log (h : Holdings) :
  forall c, Forall quiet (snd (liquidate df date row h c)).
Proof.
  induction h as [|[t s] h IH]; intro c; simpl; [constructor|].
  destruct (Qltb 0 s).
  - specialize (IH (c + s * prices_get df row t)).
    destruct (liquidate df date row h (c + s * prices_get df row t)) as [[c' h'] lg].
    simpl in *. constructor; [split; reflexivity | exact IH].
  - specialize (IH c). destruct (liquidate df date row h c) as [[c' h'] lg].
    exact IH.
Qed.

Lemma go_defensive_frame (st : St) :
  let st' := go_defensive cfg df date row st in
  lots st' = [] /\ step_active_flags st' = map (fun _ => false) (steps cfg)
  /\ log_ext quiet st st' /\ daily_stats st' = daily_stats st.
Proof.
  unfold go_defensive.
  pose proof (liquidate_log (holdings st) (cash st)) as Hl.
  destruct (liquidate df date row (holdings st) (cash st)) as [[c h] lg].
  simpl in Hl. simpl.
  match goal with
  | |- context [fold_left ?f lg ?s] =>
      destruct (log_all_frame lg s) as (_ & _ & _ & _ & H5 & _ & _ & H8)
  end.
  repeat split; auto.
  exists lg. split; [exact H8 | exact Hl].
Qed.

Lemma resume_market_frame (st : St) :
  let st' := resume_market cfg df date row st in
  lots st' = lots st /\ step_active_flags st' = step_active_flags st
  /\ log_ext quiet st st' /\ daily_stats st' = daily_stats st.
Proof.
  unfold resume_market.
  destruct (Qltb 0 (prices_get df row (base_ticker cfg))); simpl.
  - repeat split. eapply log_ext_one; [reflexivity|]. split; reflexivity.
  - repeat split. now apply log_ext_same.
Qed.

Lemma ma_regime_frame (ma_val : option Q) (st : St) :
  let st' := ma_regime cfg df date row ma_val st in
  (book_consistent cfg st -> book_consistent cfg st')
  /\ log_ext quiet st st' /\ daily_stats st' = daily_stats st.
Proof.
  assert (Hid : (book_consistent cfg st -> book_consistent cfg st)
                /\ log_ext quiet st st /\ daily_stats st = daily_stats st).
  { split; [auto | split; [apply log_ext_refl | reflexivity]]. }
  assert (Hset : forall a b,
             (book_consistent cfg st -> book_consistent cfg (set_regime a b st))
             /\ log_ext quiet st (set_regime a b st)
             /\ daily_stats (set_regime a b st) = daily_stats st).
  { intros a b. split; [auto | split; [now apply log_ext_same | reflexivity]]. }
  unfold ma_regime.
  destruct ma_val as [m|]; [|exact Hid].
  destruct (use_ma_filter cfg && Qltb 0 m); [|exact Hid].
  destruct (Qltb (prices_get df row (base_ticker cfg)) m).
  - destruct (String.eqb (ma_mode cfg) "defensive").
    + destruct (negb (active_defensive st)); [|exact Hid].
      destruct (go_defensive_frame st) as (H1 & H2 & H3 & H4).
      split; [|split; assumption].
      intros _. unfold book_consistent. rewrite H1, H2.
      apply consistent_empty.
    + destruct (String.eqb (ma_mode cfg) "pause"); [|exact Hid].
      destruct (negb (is_ma_paused st)); [apply Hset | exact Hid].
  - destruct (Qltb m (prices_get df row (base_ticker cfg))); [|exact Hid].
    destruct (String.eqb (ma_mode cfg) "defensive").
    + destruct (active_defensive st); [|exact Hid].
      destruct (resume_market_frame st) as (H1 & H2 & H3 & H4).
      split; [|split; assumption].
      unfold book_consistent. now rewrite H1, H2.
    + destruct (String.eqb (ma_mode cfg) "pause"); [|exact Hid].
      destruct (is_ma_paused st); [apply Hset | exact Hid].
Qed.

End Regime.

(** ** The entry phase: book, log and records *)

Section Entries.

Variable cfg : Config.
Variable df : DataFrame.
Variable date : Timestamp.
Variable row : Row.
Variable port_value : Q.

Lemma book_fired (i : nat) (step : Step) (st : St) :
  (i < List.length (steps cfg))%nat ->
  flag_at (step_active_flags st) i = false ->
  book_consistent cfg st ->
  book_consistent cfg (fired cfg df date row port_value i step st).
Proof.
  intros Hi Hoff Hb. unfold fired.
  destruct (Qltb 0 (prices_get df row (ticker step))); simpl; [|exact Hb].
  unfold book_consistent. simpl.
  match goal with
  | |- context [lots st ++ [?l]] =>
      apply (consistent_open cfg (lots st) (step_active_flags st) l Hb)
  end; simpl; auto.
  destruct Hb as [Hlen _]. now rewrite Hlen.
Qed.

Lemma book_forced (idx : nat) (step : Step) (st : St) :
  (idx < List.length (step_active_flags st))%nat ->
  flag_at (step_active_flags st) idx = false ->
  book_consistent cfg st ->
  book_consistent cfg (forced cfg df date row port_value idx step st).
Proof.
  intros Hi Hoff Hb. unfold forced, book_consistent. simpl.
  match goal with
  | |- context [lots st ++ [?l]] =>
      apply (consistent_open cfg (lots st) (step_active_flags st) l Hb)
  end; simpl; auto.
Qed.

Lemma drop_entry_frame (dd : Q) (i : nat) (step : Step) (st st' : St) :
  (i < List.length (steps cfg))%nat ->
  drop_entry cfg df date row port_value dd i step st = Done st' ->
  (book_consistent cfg st -> book_consistent cfg st')
  /\ log_ext (drop_row date) st st'
  /\ daily_stats st' = daily_stats st.
Proof.
  intros Hi H. apply drop_entry_shape in H.
  destruct H as [-> | [-> | [Hoff ->]]].
  - split; [auto | split; [apply log_ext_refl | reflexivity]].
  - split; [auto | split; [|reflexivity]].
    eapply log_ext_one; [reflexivity|]. split; reflexivity.
  - split; [now apply book_fired|]. split.
    + exists (if Qltb 0 (prices_get df row (ticker step))
              then [entry_trade cfg date Switch i (ticker step)
                      (port_value * (shift_pct step / 100))
                      (prices_get df row (ticker step)) (drop_pct step)]
              else []).
      split; [apply fired_trade_log|].
      destruct (Qltb 0 _); constructor; [split; reflexivity | constructor].
    + unfold fired. destruct (Qltb 0 _); reflexivity.
Qed.

Lemma drop_entries_frame (dd : Q) (l : list Step) :
  forall (i : nat) (st st' : St),
    (i + List.length l <= List.length (steps cfg))%nat ->
    drop_entries cfg df date row port_value dd i l st = Done st' ->
    (book_consistent cfg st -> book_consistent cfg st')
    /\ log_ext (drop_row date) st st'
    /\ daily_stats st' = daily_stats st.
Proof.
  induction l as [|step l IH]; intros i st st' Hlen H; simpl in *.
  - injection H as <-. split; [auto | split; [apply log_ext_refl | reflexivity]].
  - destruct (drop_entry cfg df date row port_value dd i step st) as [e|st1] eqn:E1;
      [discriminate|]. simpl in H.
    apply drop_entry_frame in E1; [|lia]. destruct E1 as (B1 & L1 & D1).
    apply IH in H; [|lia]. destruct H as (B2 & L2 & D2).
    split; [auto|]. split; [eapply log_ext_trans; eauto | congruence].
Qed.

Lemma forced_entry_frame (st st' : St) (b : bool) :
  forced_entry cfg df date row port_value st = Done (st', b) ->
  (book_consistent cfg st -> book_consistent cfg st')
  /\ daily_stats st' = daily_stats st
  /\ (if b then log_ext (force_row date) st st' else trade_log st' = trade_log st).
Proof.
  intro H. apply forced_entry_shape in H.
  destruct H as [[-> ->] | [[-> [step ->]] | [-> (idx & step & Hi & Hoff & _ & ->)]]].
  - split; [auto | split; reflexivity].
  - split; [intro Hb; exact Hb | split; reflexivity].
  - split; [now apply book_forced|]. split; [reflexivity|].
    eapply log_ext_one; [reflexivity|]. repeat split.
Qed.

Lemma check_entries_frame (dd : Q) (st st' : St) :
  check_entries cfg df date row port_value dd st = Done st' ->
  (book_consistent cfg st -> book_consistent cfg st')
  /\ daily_stats st' = daily_stats st
  /\ (log_ext (force_row date) st st' \/ log_ext (drop_row date) st st').
Proof.
  unfold check_entries. intro H.
  destruct (negb (is_ma_paused st)).
  - destruct (forced_entry cfg df date row port_value st) as [e|[st1 b]] eqn:E1;
      [discriminate|]. simpl in H.
    apply forced_entry_frame in E1. destruct E1 as (B1 & D1 & L1).
    destruct b; simpl in H.
    + injection H as <-. auto.
    + apply drop_entries_frame in H; [|simpl; lia].
      destruct H as (B2 & L2 & D2).
      split; [auto|]. split; [congruence|]. right.
      destruct L2 as (new & Hn & Fn). exists new. split; [congruence | exact Fn].
  - injection H as <-.
    split; [auto|]. split; [reflexivity|]. left. apply log_ext_refl.
Qed.

End Entries.

(** ** One day, and the days of a run *)

Lemma quiet_forced_day (date : Timestamp) (t : Trade) : quiet t -> forced_day_row date t.
Proof.
  intros [H1 H2]. split; [|exact H2].
  intros [H | H]; congruence.
Qed.

Lemma quiet_drop_day (date : Timestamp) (t : Trade) : quiet t -> drop_day_row date t.
Proof.
  intros [H1 H2]. split; [|exact H1].
  intros [H | H]; congruence.
Qed.

Lemma force_row_forced_day (date : Timestamp) (t : Trade) :
  force_row date t -> forced_day_row date t.
Proof. intros (H1 & H2 & H3). split; [intros _; exact H3 | exact H2]. Qed.

Lemma drop_row_drop_day (date : Timestamp) (t : Trade) :
  drop_row date t -> drop_day_row date t.
Proof. intros (H1 & H2). split; [intros _; exact H2 | exact H1]. Qed.

Section DayFacts.

Variable cfg : Config.
Variable df : DataFrame.

Lemma day_step_frame (date : Timestamp) (row : Row) (ma_val : option Q) (st st' : St) :
  day_step cfg df date row ma_val st = Done st' ->
  (book_consistent cfg st -> book_consistent cfg st')
  /\ (exists d, daily_stats st' = daily_stats st ++ [d]
                /\ d_date d = date
                /\ d_price d = prices_get df row (base_ticker cfg))
  /\ (log_ext (forced_day_row date) st st' \/ log_ext (drop_day_row date) st st').
Proof.
  unfold day_step. intro H.
  destruct (ma_regime_frame cfg df date row ma_val st) as (B1 & L1 & D1).
  set (st1 := ma_regime cfg df date row ma_val st) in *.
  destruct (active_defensive st1).
  - injection H as <-. split; [exact B1|]. split.
    + eexists. simpl. rewrite D1. repeat split.
    + left. eapply log_ext_weaken; [apply quiet_forced_day | exact L1].
  - set (pk := if Qleb _ 0 then _ else _) in H.
    set (st2 := set_peak_price pk st1) in H.
    destruct (check_exits_frame cfg df date row st2) as (_ & _ & L3 & D3 & _).
    pose proof (book_check_exits cfg df date row st2) as B3.
    set (st3 := check_exits cfg df date row st2) in *.
    destruct (check_entries cfg df date row _ _ st3) as [e|st4] eqn:E4;
      [discriminate|]. simpl in H. injection H as <-.
    apply check_entries_frame in E4. destruct E4 as (B4 & D4 & L4).
    split; [intro Hb; apply B4, B3, (B1 Hb)|]. split.
    + eexists. simpl. rewrite D4, D3. simpl. rewrite D1. repeat split.
    + assert (L13 : log_ext quiet st st3).
      { eapply log_ext_trans; [exact L1|]. exact L3. }
      destruct L4 as [L4 | L4]; [left | right].
      * eapply log_ext_trans.
        -- eapply log_ext_weaken; [apply quiet_forced_day | exact L13].
        -- eapply log_ext_weaken; [apply force_row_forced_day | exact L4].
      * eapply log_ext_trans.
        -- eapply log_ext_weaken; [apply quiet_drop_day | exact L13].
        -- eapply log_ext_weaken; [apply drop_row_drop_day | exact L4].
Qed.

Lemma day_loop_book (days : list (Timestamp * Row * option Q)) :
  forall st st', day_loop cfg df days st = Done st' ->
                 book_consistent cfg st -> book_consistent cfg st'.
Proof.
  induction days as [|[[date row] ma] days IH]; intros st st' H Hb; simpl in H.
  - now injection H as <-.
  - destruct (day_step cfg df date row ma st) as [e|st1] eqn:E1; [discriminate|].
    simpl in H. apply day_step_frame in E1. destruct E1 as (B1 & _).
    eapply IH; eauto.
Qed.

Lemma length_sort_steps (l : list Step) : List.length (sort_steps l) = List.length l.
Proof.
  unfold sort_steps. induction l as [|s l IH]; simpl; [reflexivity|].
  rewrite <- IH. generalize (fold_right insert_step [] l). intro l'.
  induction l' as [|y l' IH']; simpl; [reflexivity|].
  destruct (Qleb _ _); simpl; [reflexivity | now rewrite IH'].
Qed.

Lemma book_initial (first_date : Timestamp) (row0 : Row) :
  book_consistent cfg (initial_buy cfg df first_date row0 (initial_state cfg first_date)).
Proof.
  assert (H : book_consistent cfg (initial_state cfg first_date)).
  { unfold book_consistent, initial_state. simpl. split.
    - unfold steps. now rewrite length_map, length_sort_steps.
    - intro i. unfold flag_at.
      destruct (nth_in_or_default i (map (fun _ : Step => false) (steps_input cfg)) false)
        as [Hn | Hn].
      + apply in_map_iff in Hn. destruct Hn as (x & Hn & _). now rewrite <- Hn.
      + now rewrite Hn. }
  unfold initial_buy. destruct (Qltb 0 _); exact H.
Qed.

Lemma log_holdings_frame (st : St) :
  let st' := log_holdings cfg df st in
  lots st' = lots st /\ step_active_flags st' = step_active_flags st
  /\ daily_stats st' = daily_stats st
  /\ log_ext quiet st st'.
Proof.
  unfold log_holdings. destruct (df_rows df) as [|r rest].
  - repeat split. apply log_ext_refl.
  - destruct (last rest r) as [last_date last_row].
    match goal with
    | |- context [fold_left ?f ?lg st] =>
        destruct (log_all_frame lg st) as (_ & _ & H3 & H4 & H5 & _ & _ & H8);
        set (new := lg) in *
    end.
    repeat split; auto. exists new. split; [exact H8|].
    unfold new. apply Forall_flat_map. apply Forall_forall. intros l _.
    unfold holding_trade. destruct (Qltb 0 _); constructor; [split; reflexivity | constructor].
Qed.

End DayFacts.

(** ** Entry prices of the open lots *)

Section Priced.

Variable cfg : Config.
Variable df : DataFrame.

Lemma ma_regime_lots (date : Timestamp) (row : Row) (ma_val : option Q) (st : St) :
  lots (ma_regime cfg df date row ma_val st) = lots st
  \/ lots (ma_regime cfg df date row ma_val st) = [].
Proof.
  unfold ma_regime.
  destruct ma_val as [m|]; [|now left].
  destruct (use_ma_filter cfg && Qltb 0 m); [|now left].
  destruct (Qltb (prices_get df row (base_ticker cfg)) m).
  - destruct (String.eqb (ma_mode cfg) "defensive").
    + destruct (negb (active_defensive st)); [|now left].
      right. apply go_defensive_frame.
    + destruct (String.eqb (ma_mode cfg) "pause"); [|now left].
      destruct (negb (is_ma_paused st)); now left.
  - destruct (Qltb m (prices_get df row (base_ticker cfg))); [|now left].
    destruct (String.eqb (ma_mode cfg) "defensive").
    + destruct (active_defensive st); [|now left].
      left. apply resume_market_frame.
    + destruct (String.eqb (ma_mode cfg) "pause"); [|now left].
      destruct (is_ma_paused st); now left.
Qed.

Lemma priced_filter (f : Lot -> bool) (ls : list Lot) : priced ls -> priced (filter f ls).
Proof.
  unfold priced. rewrite !Forall_forall. intros H l Hl.
  apply filter_In in Hl. apply H, Hl.
Qed.

Lemma priced_drop_entry (date : Timestamp) (row : Row) (pv dd : Q) (i : nat)
    (step : Step) (st st' : St) :
  drop_entry cfg df date row pv dd i step st = Done st' ->
  priced (lots st) -> priced (lots st').
Proof.
  intros H Hp. apply drop_entry_shape in H.
  destruct H as [-> | [-> | [_ ->]]]; try exact Hp.
  unfold fired. destruct (Qltb 0 (prices_get df row (ticker step))) eqn:E; simpl.
  - apply Forall_app. split; [exact Hp|].
    constructor; [|constructor]. simpl. now apply Qltb_lt.
  - exact Hp.
Qed.

Lemma priced_drop_entries (date : Timestamp) (row : Row) (pv dd : Q) (l : list Step) :
  forall i st st',
    drop_entries cfg df date row pv dd i l st = Done st' ->
    priced (lots st) -> priced (lots st').
Proof.
  induction l as [|step l IH]; intros i st st' H Hp; simpl in H.
  - now injection H as <-.
  - destruct (drop_entry cfg df date row pv dd i step st) as [e|st1] eqn:E1;
      [discriminate|]. simpl in H.
    eapply IH; [exact H|]. eapply priced_drop_entry; eauto.
Qed.

Lemma priced_forced_entry (date : Timestamp) (row : Row) (pv : Q) (st st' : St) (b : bool) :
  forced_entry cfg df date row pv st = Done (st', b) ->
  priced (lots st) -> priced (lots st').
Proof.
  intros H Hp. apply forced_entry_shape in H.
  destruct H as [[_ ->] | [[_ [step ->]] | [_ (idx & step & _ & _ & Hpos & ->)]]];
    try exact Hp.
  unfold forced. simpl. apply Forall_app. split; [exact Hp|].
  constructor; [exact Hpos | constructor].
Qed.

Lemma priced_day_step (date : Timestamp) (row : Row) (ma_val : option Q) (st st' : St) :
  day_step cfg df date row ma_val st = Done st' ->
  priced (lots st) -> priced (lots st').
Proof.
  unfold day_step. intros H Hp.
  assert (Hp1 : priced (lots (ma_regime cfg df date row ma_val st))).
  { destruct (ma_regime_lots date row ma_val st) as [-> | ->];
      [exact Hp | constructor]. }
  set (st1 := ma_regime cfg df date row ma_val st) in *.
  destruct (active_defensive st1); [now injection H as <-|].
  set (pk := if Qleb _ 0 then _ else _) in H.
  set (st2 := set_peak_price pk st1) in H.
  destruct (check_exits_frame cfg df date row st2) as (Hl & _).
  assert (Hp3 : priced (lots (check_exits cfg df date row st2))).
  { rewrite Hl. now apply priced_filter. }
  set (st3 := check_exits cfg df date row st2) in *.
  unfold check_entries in H.
  destruct (negb (is_ma_paused st3)).
  - destruct (forced_entry cfg df date row _ st3) as [e|[st4 b]] eqn:E4;
      [discriminate|]. simpl in H.
    pose proof (priced_forced_entry _ _ _ _ _ _ E4 Hp3) as Hp4.
    destruct b; simpl in H.
    + now injection H as <-.
    + destruct (drop_entries cfg df date row _ _ 0 (steps cfg) st4) as [e|st5] eqn:E5;
        [discriminate|]. simpl in H. injection H as <-.
      exact (priced_drop_entries _ _ _ _ _ _ _ _ E5 Hp4).
  - simpl in H. now injection H as <-.
Qed.

Lemma priced_day_loop (days : list (Timestamp * Row * option Q)) :
  forall st st', day_loop cfg df days st = Done st' ->
                 priced (lots st) -> priced (lots st').
Proof.
  induction days as [|[[date row] ma] days IH]; intros st st' H Hp; simpl in H.
  - now injection H as <-.
  - destruct (day_step cfg df date row ma st) as [e|st1] eqn:E1; [discriminate|].
    simpl in H. eapply IH; [exact H|]. eapply priced_day_step; eauto.
Qed.

(** After any number of days every open lot has a positive entry price: the
    divisions by [lot['price']] in the exit loop are safe. *)
Lemma lots_priced (n : nat) (st : St) :
  run_days cfg df n = Done st -> priced (lots st).
Proof.
  unfold run_days. intro H.
  destruct (df_rows df) as [|[first_date row0] rest]; [discriminate|].
  eapply priced_day_loop; [exact H|].
  unfold initial_buy. destruct (Qltb 0 _); constructor.
Qed.

End Priced.

(** C3. After any number of days of a run, and at its end, every step owns
    at most one open lot: exactly one while its active flag is on, none while
    it is off.  (Entries only fire on a step whose flag is off and set it
    with the lot they open; an exit clears the flag of the lot it removes;
    the defensive liquidation clears all lots and all flags.) *)
Theorem one_open_lot_per_step (cfg : Config) (df : DataFrame) :
  (forall n st, run_days cfg df n = Done st ->
     forall i, (List.length (lots_of i (lots st)) <= 1)%nat
               /\ List.length (lots_of i (lots st))
                  = (if flag_at (step_active_flags st) i then 1 else 0)%nat)
  /\ (forall st, run cfg df = Done st ->
        forall i, (List.length (lots_of i (lots st)) <= 1)%nat
                  /\ List.length (lots_of i (lots st))
                     = (if flag_at (step_active_flags st) i then 1 else 0)%nat).
Proof.
  assert (G : forall st, book_consistent cfg st ->
                forall i, (List.length (lots_of i (lots st)) <= 1)%nat
                          /\ List.length (lots_of i (lots st))
                             = (if flag_at (step_active_flags st) i then 1 else 0)%nat).
  { intros st [_ H] i. specialize (H i). split; [|exact H].
    rewrite H. destruct (flag_at _ i); lia. }
  split.
  - intros n st H. apply G. unfold run_days in H.
    destruct (df_rows df) as [|[first_date row0] rest]; [discriminate|].
    eapply day_loop_book; [exact H | apply book_initial].
  - intros st H. unfold run in H.
    destruct (df_rows df) as [|[first_date row0] rest] eqn:Er; [discriminate|].
    destruct (use_ma_filter cfg && _); [discriminate|].
    destruct (day_loop cfg df _ _) as [e|st1] eqn:E1; [discriminate|].
    simpl in H. injection H as <-.
    destruct (log_holdings_frame cfg df st1) as (H1 & H2 & _).
    intro i. rewrite H1, H2. apply G.
    eapply day_loop_book; [exact E1 | apply book_initial].
Qed.

(** ** Forced entries against switches *)

Lemma no_clash_extend (d : Timestamp) (seen : list Z) (log new : list Trade) :
  ~ In (date_of d) seen ->
  no_clash log -> entries_within seen log ->
  Forall (forced_day_row d) new \/ Forall (drop_day_row d) new ->
  no_clash (log ++ new) /\ entries_within (date_of d :: seen) (log ++ new).
Proof.
  intros Hfresh Hn Hw Hnew.
  assert (Hdated : forall t, In t new -> is_force t = true \/ is_switch t = true ->
                             t_date t = d).
  { intros t Ht He. destruct Hnew as [F | F];
      rewrite Forall_forall in F; destruct (F t Ht) as [Hd _]; now apply Hd. }
  split.
  - intros t1 t2 H1 H2 Hf Hs.
    apply in_app_or in H1. apply in_app_or in H2.
    destruct H1 as [H1 | H1], H2 as [H2 | H2].
    + now apply Hn.
    + rewrite (Hdated t2 H2) by auto. intro E. apply Hfresh. rewrite <- E.
      apply (Hw t1 H1). auto.
    + rewrite (Hdated t1 H1) by auto. intro E. apply Hfresh. rewrite E.
      apply (Hw t2 H2). auto.
    + exfalso. destruct Hnew as [F | F]; rewrite Forall_forall in F.
      * destruct (F t2 H2) as [_ Hx]. congruence.
      * destruct (F t1 H1) as [_ Hx]. congruence.
  - intros t Ht He. apply in_app_or in Ht. destruct Ht as [Ht | Ht].
    + right. now apply Hw.
    + left. now rewrite (Hdated t Ht He).
Qed.

Lemma no_clash_quiet (log new : list Trade) :
  no_clash log -> Forall quiet new -> no_clash (log ++ new).
Proof.
  intros Hn F t1 t2 H1 H2 Hf Hs. rewrite Forall_forall in F.
  apply in_app_or in H1. apply in_app_or in H2.
  destruct H1 as [H1 | H1]; [|destruct (F t1 H1); congruence].
  destruct H2 as [H2 | H2]; [|destruct (F t2 H2); congruence].
  now apply Hn.
Qed.

Lemma day_loop_no_clash (cfg : Config) (df : DataFrame)
    (days : list (Timestamp * Row * option Q)) :
  forall st st' seen,
    NoDup (map day_date days) ->
    (forall x, In x (map day_date days) -> ~ In x seen) ->
    no_clash (trade_log st) -> entries_within seen (trade_log st) ->
    day_loop cfg df days st = Done st' ->
    no_clash (trade_log st').
Proof.
  induction days as [|[[date row] ma] days IH]; intros st st' seen Hnd Hfresh Hn Hw H;
    simpl in H.
  - now injection H as <-.
  - destruct (day_step cfg df date row ma st) as [e|st1] eqn:E1; [discriminate|].
    simpl in H. apply day_step_frame in E1. destruct E1 as (_ & _ & L).
    simpl in Hnd. inversion Hnd as [|x l Hnotin Hnd' Heq]. subst.
    assert (Hnew : exists new, trade_log st1 = trade_log st ++ new
                   /\ (Forall (forced_day_row date) new \/ Forall (drop_day_row date) new)).
    { destruct L as [(new & E & F) | (new & E & F)]; exists new; auto. }
    destruct Hnew as (new & E & F).
    destruct (no_clash_extend date seen (trade_log st) new) as [Hn1 Hw1]; auto.
    { apply Hfresh. now left. }
    rewrite <- E in Hn1, Hw1.
    apply (IH st1 st' (date_of date :: seen)); auto.
    intros x Hx [Hin | Hin].
    + subst x. contradiction.
    + apply (Hfresh x); [now right | exact Hin].
Qed.

Lemma length_ma_column (cfg : Config) (df : DataFrame) :
  List.length (ma_column cfg df) = List.length (df_rows df).
Proof.
  unfold ma_column, rolling_mean.
  destruct (use_ma_filter cfg); now rewrite !length_map, ?length_seq.
Qed.

Lemma map_fst_combine_same {A B : Type} (l : list A) :
  forall l' : list B, List.length l' = List.length l -> map fst (combine l l') = l.
Proof.
  induction l as [|a l IH]; intros [|b l'] H; simpl in *; try reflexivity; try lia.
  f_equal. apply IH. lia.
Qed.

(** C8. A day's forced entry pre-empts the drop loop: when the forced entry
    fires, the entry phase ends with its state and no drop step is
    evaluated; the rows one day adds to the trade log never hold both a
    forced entry and a switch; and in a run over a table with one row per
    calendar date, no [FORCE (Idle)] row and [SWITCH] row of the trade log
    are dated the same day. *)
Theorem forced_entry_excludes_drops (cfg : Config) (df : DataFrame) :
  (forall date row pv dd st st1,
      is_ma_paused st = false ->
      forced_entry cfg df date row pv st = Done (st1, true) ->
      check_entries cfg df date row pv dd st = Done st1)
  /\ (forall date row ma st st',
        day_step cfg df date row ma st = Done st' ->
        exists new, trade_log st' = trade_log st ++ new
                    /\ (Forall (fun t => is_switch t = false) new
                        \/ Forall (fun t => is_force t = false) new))
  /\ (NoDup (map (fun r => date_of (fst r)) (df_rows df)) ->
      forall st, run cfg df = Done st ->
        forall t1 t2, In t1 (trade_log st) -> In t2 (trade_log st) ->
          t_action t1 = ForceIdle -> t_action t2 = Switch ->
          date_of (t_date t1) <> date_of (t_date t2)).
Proof.
  split; [|split].
  - intros date row pv dd st st1 Hp Hf. unfold check_entries.
    now rewrite Hp, Hf.
  - intros date row ma st st' H. apply day_step_frame in H.
    destruct H as (_ & _ & [(new & E & F) | (new & E & F)]); exists new;
      (split; [exact E|]); [left | right];
      (eapply Forall_impl; [|exact F]); intros t [_ Ht]; exact Ht.
  - intros Hnd st H t1 t2 H1 H2 A1 A2.
    unfold run in H.
    destruct (df_rows df) as [|[first_date row0] rest] eqn:Er; [discriminate|].
    destruct (use_ma_filter cfg && _); [discriminate|].
    destruct (day_loop cfg df _ _) as [e|st1] eqn:E1; [discriminate|].
    simpl in H. injection H as <-.
    destruct (log_holdings_frame cfg df st1) as (_ & _ & _ & (new & En & Fn)).
    rewrite En in H1, H2.
    assert (Hclash : no_clash (trade_log st1)).
    { apply (day_loop_no_clash cfg df _ _ st1 [] ) in E1; auto.
      - rewrite <- Er. unfold day_date.
        rewrite <- (map_map (fun x => fst x) (fun r => date_of (fst r))).
        rewrite map_fst_combine_same by apply length_ma_column.
        rewrite Er. exact Hnd.
      - unfold initial_buy. destruct (Qltb 0 _); simpl.
        + intros a b [<- | []] [<- | []]. discriminate.
        + intros a b [].
      - unfold initial_buy. destruct (Qltb 0 _); simpl.
        + intros a [<- | []] [? | ?]; discriminate.
        + intros a []. }
    apply (no_clash_quiet _ new Hclash Fn); auto.
    + unfold is_force. now rewrite A1.
    + unfold is_switch. now rewrite A2.
Qed.

(** ** A table without the base close column *)

Lemma day_loop_records (cfg : Config) (df : DataFrame)
    (days : list (Timestamp * Row * option Q)) :
  forall st st',
    day_loop cfg df days st = Done st' ->
    exists new, daily_stats st' = daily_stats st ++ new
                /\ List.length new = List.length days
                /\ Forall2 (fun d day => d_date d = fst (fst day)
                                         /\ d_price d = prices_get df (snd (fst day))
                                                          (base_ticker cfg))
                           new days.
Proof.
  induction days as [|[[date row] ma] days IH]; intros st st' H; simpl in H.
  - injection H as <-. exists []. rewrite app_nil_r. repeat split. constructor.
  - destruct (day_step cfg df date row ma st) as [e|st1] eqn:E1; [discriminate|].
    simpl in H. apply day_step_frame in E1.
    destruct E1 as (_ & (d & Hd & Hdate & Hprice) & _).
    apply IH in H. destruct H as (new & Hn & Hlen & Hall).
    exists (d :: new). split; [|split].
    + rewrite Hn, Hd, <- app_assoc. reflexivity.
    + simpl. now rewrite Hlen.
    + constructor; [split; assumption | exact Hall].
Qed.

Lemma prices_get_absent (df : DataFrame) (row : Row) (t : string) :
  has_col df (FClose, t) = false -> prices_get df row t = 0.
Proof. intro H. unfold prices_get, row_get. now rewrite H. Qed.

Lemma has_col_with_column (df : DataFrame) (c c' : Col) (values : list Q) :
  col_eqb c' c = false ->
  has_col (with_column df c values) c' = has_col df c'.
Proof.
  intro Hne. unfold has_col at 1. unfold with_column. simpl.
  destruct (has_col df c); [reflexivity|].
  rewrite existsb_app. simpl. rewrite Hne, !orb_false_r. reflexivity.
Qed.

Lemma prepare_table_keeps_close (cfg : Config) (fetched table : DataFrame) :
  prepare_table cfg fetched = Some table ->
  has_col table (FClose, base_ticker cfg) = has_col fetched (FClose, base_ticker cfg)
  /\ df_rows table <> [].
Proof.
  unfold prepare_table. intro H.
  destruct (df_rows fetched) as [|r rest]; [discriminate|].
  destruct (has_col fetched (FHigh, base_ticker cfg)); [|discriminate].
  match type of H with
  | match df_rows ?t with _ => _ end = _ => set (sliced := t) in *
  end.
  destruct (df_rows sliced) as [|r' rest'] eqn:Er; [discriminate|].
  injection H as <-. split; [|rewrite Er; discriminate].
  match goal with
  | sliced := slice_from (with_column _ _ ?v) _ |- _ =>
      rewrite <- (has_col_with_column fetched (FPeak, base_ticker cfg)
                    (FClose, base_ticker cfg) v eq_refl)
  end.
  reflexivity.
Qed.

(** C2, as the code has it.  When the base close column is absent, a run
    with the trend filter on stops with a key error before the day loop; a
    run with the filter off goes on: the initial purchase is skipped (no
    shares, no [BUY (Init)] row, no buy-and-hold shares), and a run that
    completes returns one daily record per row, each with a base price of
    0.  The wrapper [run_simulation] does not test for the column either: a
    fetched table it accepts is handed to the engine, still without it. *)
Theorem missing_base_close (cfg : Config) (df : DataFrame) :
  has_col df (FClose, base_ticker cfg) = false ->
  (use_ma_filter cfg = true -> df_rows df <> [] -> run cfg df = Raised KeyError)
  /\ (forall d row0 st, initial_buy cfg df d row0 st = st)
  /\ (use_ma_filter cfg = false ->
      forall st, run cfg df = Done st ->
        List.length (daily_stats st) = List.length (df_rows df)
        /\ Forall (fun d => d_price d = 0) (daily_stats st))
  /\ (forall table, prepare_table cfg df = Some table ->
        has_col table (FClose, base_ticker cfg) = false
        /\ df_rows table <> []
        /\ run_simulation cfg df = Some (run cfg table)).
Proof.
  intro Habs. split; [|split; [|split]].
  - intros Hma Hrows. unfold run.
    destruct (df_rows df) as [|[first_date row0] rest]; [contradiction|].
    now rewrite Hma, Habs.
  - intros d row0 st. unfold initial_buy. now rewrite Habs.
  - intros Hma st H. unfold run in H.
    destruct (df_rows df) as [|[first_date row0] rest] eqn:Er; [discriminate|].
    rewrite Hma, andb_false_l in H.
    destruct (day_loop cfg df _ _) as [e|st1] eqn:E1; [discriminate|].
    simpl in H. injection H as <-.
    destruct (log_holdings_frame cfg df st1) as (_ & _ & -> & _).
    apply day_loop_records in E1. destruct E1 as (new & Hn & Hlen & Hall).
    assert (Hinit : daily_stats (initial_buy cfg df first_date row0
                                   (initial_state cfg first_date)) = []).
    { unfold initial_buy. now rewrite Habs. }
    rewrite Hinit in Hn. simpl in Hn. rewrite Hn. split.
    + rewrite Hlen, <- Er, length_combine, length_ma_column. lia.
    + clear - Hall Habs. induction Hall as [|d day new days [_ Hp] _ IH]; constructor.
      * rewrite Hp. now apply prices_get_absent.
      * exact IH.
  - intros table Hprep.
    destruct (prepare_table_keeps_close cfg df table Hprep) as [Hc Hr].
    split; [now rewrite Hc|]. split; [exact Hr|].
    unfold run_simulation. now rewrite Hprep.
Qed.

(** C2 fails as stated: this run, over a table without [Close_QQQ],
    completes and returns a daily record for each of the two rows, with a
    base price of 0 and a portfolio worth the cash buffer only; the wrapper
    returns the same result for the table as fetched. *)
Lemma run_survives_missing_close :
  has_col no_close_df (FClose, base_ticker no_close_cfg) = false
  /\ has_col no_close_fetched (FClose, base_ticker no_close_cfg) = false
  /\ exists st d0 d1,
       run no_close_cfg no_close_df = Done st
       /\ run_simulation no_close_cfg no_close_fetched = Some (Done st)
       /\ daily_stats st = [d0; d1]
       /\ d_price d0 = 0 /\ d_price d1 = 0
       /\ d_portfolio_value d1 == 1000.
Proof.
  split; [reflexivity|]. split; [reflexivity|].
  eexists. eexists. eexists.
  split; [vm_compute; reflexivity|].
  split; [vm_compute; reflexivity|].
  split; [reflexivity|].
  split; [reflexivity|].
  split; [reflexivity|].
  vm_compute. reflexivity.
Qed.

(** ** Exit and re-entry on one day *)

(** Within a day the exits run first and the entries see the state they
    leave. *)
Lemma entries_follow_exits (cfg : Config) (df : DataFrame) (date : Timestamp)
    (row : Row) (st st' : St) :
  active_defensive st = false ->
  day_step cfg df date row None st = Done st' ->
  exists pk pv dd st_exit st_entry,
    st_exit = check_exits cfg df date row (set_peak_price pk st)
    /\ check_entries cfg df date row pv dd st_exit = Done st_entry
    /\ st' = record_day (daily_record cfg df date row pk dd pv st_entry) st_entry.
Proof.
  intros Hd H. unfold day_step in H. simpl ma_regime in H. rewrite Hd in H.
  match type of H with
  | bind (check_entries _ _ _ _ ?pv ?dd (check_exits _ _ _ _ (set_peak_price ?pk _))) _ = _ =>
      exists pk, pv, dd
  end.
  destruct (check_entries cfg df date row _ _ _) as [e|st4] eqn:E; [discriminate|].
  simpl in H. injection H as <-.
  eexists. exists st4. split; [reflexivity|]. split; [exact E | reflexivity].
Qed.

Lemma sell_lot_clears_flag (cfg : Config) (df : DataFrame) (date : Timestamp)
    (row : Row) (exec_price : Q) (lot : Lot) (st : St) :
  flag_at (step_active_flags (sell_lot cfg df date row exec_price lot st))
          (lot_step_idx lot) = false.
Proof.
  destruct (sell_lot_frame cfg df date row exec_price lot st) as (_ & -> & _).
  rewrite flag_at_set_false, Nat.eqb_refl. apply andb_false_r.
Qed.

(** C9. Within a day the exits are evaluated before the entries, which see
    the state the exits leave, and the sale of a lot clears its step's flag;
    so a step can be re-entered on the day its lot is sold: in this run the
    lot of step 0 is sold at its profit target on the second day and step 0
    switches again on that same day. *)
Theorem same_day_reentry :
  (forall cfg df date row st st',
      active_defensive st = false ->
      day_step cfg df date row None st = Done st' ->
      exists pk pv dd st_exit st_entry,
        st_exit = check_exits cfg df date row (set_peak_price pk st)
        /\ check_entries cfg df date row pv dd st_exit = Done st_entry
        /\ st' = record_day (daily_record cfg df date row pk dd pv st_entry) st_entry)
  /\ (forall cfg df date row exec_price lot st,
        flag_at (step_active_flags (sell_lot cfg df date row exec_price lot st))
                (lot_step_idx lot) = false)
  /\ exists st sell buy,
       run reentry_cfg reentry_df = Done st
       /\ nth_error (trade_log st) 2 = Some sell
       /\ nth_error (trade_log st) 3 = Some buy
       /\ t_action sell = SellProfit DROP /\ t_step_idx sell = Some 0%nat
       /\ t_price sell == 10.5
       /\ t_action buy = Switch /\ t_step_idx buy = Some 0%nat
       /\ t_date sell = 86400%Z /\ t_date buy = 86400%Z
       /\ flag_at (step_active_flags st) 0 = true
       /\ List.length (lots_of 0 (lots st)) = 1%nat.
Proof.
  split; [exact entries_follow_exits|].
  split; [exact sell_lot_clears_flag|].
  eexists. eexists. eexists.
  split; [vm_compute; reflexivity|].
  split; [reflexivity|].
  split; [reflexivity|].
  repeat split; vm_compute; reflexivity.
Qed.

(** ** A run without steps *)

Section NoSteps.

Variable cfg : Config.
Variable df : DataFrame.
Hypothesis no_steps : steps_input cfg = [].

Lemma steps_empty : steps cfg = [].
Proof. unfold steps. now rewrite no_steps. Qed.

(** The part of the state that a day without steps leaves alone. *)
Let idle (st : St) : Prop :=
  lots st = [] /\ step_active_flags st = [] /\ active_defensive st = false.

Lemma idle_day (date : Timestamp) (row : Row) (st : St) :
  idle st ->
  exists st' d,
    day_step cfg df date row None st = Done st'
    /\ idle st' /\ cash st' = cash st /\ holdings st' = holdings st
    /\ daily_stats st' = daily_stats st ++ [d]
    /\ d_portfolio_value d = worth_at df row (cash st) (holdings st).
Proof.
  intros (Hl & Hf & Hd).
  unfold day_step. simpl ma_regime. rewrite Hd.
  set (pk := if Qleb _ 0 then _ else _).
  set (st2 := set_peak_price pk st).
  assert (Hx : check_exits cfg df date row st2 = set_lots [] st2).
  { unfold check_exits. simpl. now rewrite Hl. }
  rewrite Hx.
  assert (He : forall pv dd,
             check_entries cfg df date row pv dd (set_lots [] st2)
             = Done (set_lots [] st2)).
  { intros pv dd. unfold check_entries, forced_entry. simpl.
    rewrite Hf, steps_empty. simpl.
    destruct (negb (is_ma_paused st)); [|reflexivity].
    destruct (0 <? force_buy_days cfg)%Z; [|reflexivity].
    destruct (force_buy_days cfg <=? _)%Z; reflexivity. }
  rewrite He. simpl.
  eexists. eexists. split; [reflexivity|].
  simpl. repeat split; auto.
Qed.

Lemma idle_days (days : list (Timestamp * Row)) :
  forall st, idle st ->
    exists st',
      day_loop cfg df (combine days (map (fun _ => None) days)) st = Done st'
      /\ idle st' /\ cash st' = cash st /\ holdings st' = holdings st
      /\ map d_portfolio_value (daily_stats st')
         = map d_portfolio_value (daily_stats st)
           ++ map (fun day => worth_at df (snd day) (cash st) (holdings st)) days.
Proof.
  induction days as [|[date row] days IH]; intros st Hi; simpl.
  - exists st. rewrite app_nil_r. repeat split; apply Hi.
  - destruct (idle_day date row st Hi) as (st1 & d & E & Hi1 & Hc & Hh & Hd & Hv).
    rewrite E. simpl.
    destruct (IH st1 Hi1) as (st' & E' & Hi' & Hc' & Hh' & Hm).
    exists st'. split; [exact E'|]. split; [exact Hi'|].
    split; [congruence|]. split; [congruence|].
    rewrite Hm, Hd, map_app, <- app_assoc, Hc, Hh. simpl. now rewrite Hv.
Qed.

End NoSteps.

(** ** Worth of a buy-and-hold run *)

Lemma worth_at_hsum (df : DataFrame) (row : Row) (h : Holdings) :
  forall c,
    worth_at df row c h
    == c + hsum (fun t => if in_prices df t then prices_get df row t else 0) h.
Proof.
  unfold worth_at. induction h as [|[t s] h IH]; intro c; simpl.
  - ring.
  - rewrite IH. destruct (in_prices df t); ring.
Qed.

Lemma map_last_eq {A B C : Type} (f : A -> C) (g : B -> C) (l : list A)
    (r : B) (rest : list B) :
  map f l = map g (r :: rest) ->
  exists d others, rev l = d :: others /\ f d = g (last rest r).
Proof.
  intro H.
  assert (Hne : r :: rest <> []) by discriminate.
  rewrite (app_removelast_last r Hne), map_app in H.
  apply map_eq_app in H. destruct H as (l1 & l2 & -> & _ & H2).
  destruct l2 as [|d [|x l2]]; try discriminate.
  injection H2 as H2. exists d, (rev l1). split.
  - now rewrite rev_app_distr.
  - rewrite H2. now destruct rest.
Qed.

(** A run without steps or trend filter holds the initial purchase to the
    end: its last daily record values the portfolio at the cash buffer plus
    the invested capital / first close * last close. *)
Lemma hold_run (cfg : Config) (df : DataFrame) :
  steps_input cfg = [] -> use_ma_filter cfg = false ->
  has_col df (FClose, base_ticker cfg) = true ->
  0 < first_close cfg df 0 ->
  exists st d others,
    run cfg df = Done st
    /\ rev (daily_stats st) = d :: others
    /\ d_portfolio_value d
       == initial_capital cfg * (cash_buffer_pct cfg / 100)
          + (initial_capital cfg - initial_capital cfg * (cash_buffer_pct cfg / 100))
            / first_close cfg df 0 * last_close cfg df 0.
Proof.
  intros Hs Hma Hcol Hp0. unfold run, first_close, last_close in *.
  destruct (df_rows df) as [|[first_date row0] rest] eqn:Er; [lra|].
  rewrite Hma, andb_false_l.
  set (st0 := initial_buy cfg df first_date row0 (initial_state cfg first_date)).
  assert (Hma_col : ma_column cfg df = map (fun _ => None) (df_rows df)).
  { unfold ma_column. now rewrite Hma. }
  rewrite Hma_col, Er.
  assert (Hst0 : lots st0 = [] /\ step_active_flags st0 = []
                 /\ active_defensive st0 = false).
  { unfold st0, initial_buy, initial_state. rewrite Hs.
    destruct (Qltb 0 _); simpl; auto. }
  destruct (idle_days cfg df Hs ((first_date, row0) :: rest) st0 Hst0)
    as (st' & E & _ & Hc & Hh & Hm).
  rewrite E. simpl bind.
  destruct (log_holdings_frame cfg df st') as (_ & _ & Hd & _).
  assert (Hd0 : daily_stats st0 = []).
  { unfold st0, initial_buy. destruct (Qltb 0 _); reflexivity. }
  rewrite Hd0 in Hm. simpl app in Hm.
  apply (map_last_eq d_portfolio_value
           (fun day => worth_at df (snd day) (cash st0) (holdings st0))
           _ (first_date, row0) rest) in Hm.
  destruct Hm as (d & others & Hrev & Hv).
  exists (log_holdings cfg df st'), d, others.
  split; [reflexivity|]. split; [now rewrite Hd|].
  rewrite Hv, worth_at_hsum.
  simpl in Hp0.
  set (P := fun t : string =>
              if in_prices df t
              then prices_get df (snd (last rest (first_date, row0))) t else 0).
  assert (Hlt : Qltb 0 (row0 (FClose, base_ticker cfg)) = true) by now apply Qltb_lt.
  assert (Hc0 : cash st0 = initial_capital cfg * (cash_buffer_pct cfg / 100)).
  { unfold st0, initial_buy. rewrite Hcol, Hlt. reflexivity. }
  set (init := fold_left (fun h t => hset h t 0) (add_tickers cfg)
                         (hset [] (base_ticker cfg) 0)).
  assert (Hh0 : holdings st0
                = hset init (base_ticker cfg)
                    ((initial_capital cfg - initial_capital cfg * (cash_buffer_pct cfg / 100))
                     / row0 (FClose, base_ticker cfg))).
  { unfold st0, initial_buy. rewrite Hcol, Hlt. reflexivity. }
  rewrite Hc0, Hh0.
  assert (Hz : Forall (fun ts => snd ts = 0) init).
  { apply initial_holdings_zero. apply hset_zero_all. constructor. }
  destruct (zero_holdings P init (base_ticker cfg) Hz) as [Hz1 Hz2].
  rewrite hsum_hset, Hz1, Hz2.
  unfold P, in_prices. rewrite Hcol. unfold prices_get, row_get. rewrite Hcol.
  cbn [snd].
  set (pe := snd (last rest (first_date, row0)) (FClose, base_ticker cfg)).
  set (p0 := row0 (FClose, base_ticker cfg)) in *.
  field. lra.
Qed.

(** ** The CAGR of the summary *)

Module SummaryFacts.
Import Reals Qreals Lra.
Import Summary.
Local Open Scope R_scope.

Lemma cagr_pct_of_positive (final_val initial : Q) (days : Z) :
  (0 < days)%Z -> (0 < initial)%Q -> (0 < final_val)%Q ->
  cagr_pct_of final_val initial days
  = Some ((Rpower (Q2R final_val / Q2R initial) (365.25 / IZR days) - 1) * 100).
Proof.
  intros Hd Hi Hf. unfold cagr_pct_of, float_pow.
  assert (Hpos : 0 < IZR days) by now apply IZR_lt.
  assert (Hq : (0 < final_val / initial)%Q) by (apply Qlt_shift_div_l; Lqa.lra).
  apply Qltb_lt in Hq. rewrite Hq.
  destruct (Rlt_dec 0 (IZR days / 365.25)) as [_ | Hn].
  - simpl. rewrite Q2R_div by Lqa.lra.
    replace (1 / (IZR days / 365.25)) with (365.25 / IZR days) by (field; lra).
    reflexivity.
  - exfalso. apply Hn. apply Rdiv_lt_0_compat; lra.
Qed.

Lemma get_summary_cagr_pct_dates (cfg : Config) (df : DataFrame) (st : St)
    (d : DailyStat) (others : list DailyStat) (s e : Timestamp) :
  rev (daily_stats st) = d :: others ->
  ~ (initial_capital cfg == 0)%Q ->
  start_date cfg = Some s -> end_date cfg = Some e ->
  get_summary_cagr_pct cfg df st
  = Done (cagr_pct_of (d_portfolio_value d) (initial_capital cfg) (period_days s e)).
Proof.
  intros Hrev Hic Hs He. unfold get_summary_cagr_pct, start_ts, end_ts.
  rewrite Hrev, Hs, He. apply Qeqb_neq in Hic. now rewrite Hic.
Qed.

(** C7. [get_summary] computes the CAGR as
    (final value / initial capital)^(365.25 / days held) - 1, reported in
    percent, where the days held are the days from the caller's start date to
    the caller's end date, both included, whatever the dates of the table's
    rows; for a run without steps and trend filter, with no cash buffer or
    with a last close equal to the first, this is
    (last close / first close)^(365.25 / days held) - 1 of the base
    instrument. *)
Theorem cagr_from_caller_dates (cfg : Config) (df : DataFrame) (s e : Timestamp) :
  start_date cfg = Some s -> end_date cfg = Some e ->
  (0 < days_between e s + 1)%Z ->
  (0 < initial_capital cfg)%Q ->
  (forall st d others,
      rev (daily_stats st) = d :: others ->
      (0 < d_portfolio_value d)%Q ->
      get_summary_cagr_pct cfg df st
      = Done (Some ((Rpower (Q2R (d_portfolio_value d) / Q2R (initial_capital cfg))
                            (365.25 / IZR (days_between e s + 1)) - 1) * 100)))
  /\ (steps_input cfg = [] -> use_ma_filter cfg = false ->
      (cash_buffer_pct cfg == 0 \/ last_close cfg df 0 == first_close cfg df 0)%Q ->
      has_col df (FClose, base_ticker cfg) = true ->
      (0 < first_close cfg df 0)%Q -> (0 < last_close cfg df 0)%Q ->
      exists st,
        run cfg df = Done st
        /\ get_summary_cagr_pct cfg df st
           = Done (Some ((Rpower (Q2R (last_close cfg df 0) / Q2R (first_close cfg df 0))
                                 (365.25 / IZR (days_between e s + 1)) - 1) * 100))).
Proof.
  intros Hs He Hdays Hic.
  assert (Hic' : ~ (initial_capital cfg == 0)%Q) by Lqa.lra.
  split.
  - intros st d others Hrev Hfinal.
    rewrite (get_summary_cagr_pct_dates cfg df st d others s e Hrev Hic' Hs He).
    unfold period_days. now rewrite cagr_pct_of_positive.
  - intros Hsteps Hma Hflat Hcol Hp0 Hpe.
    destruct (hold_run cfg df Hsteps Hma Hcol Hp0) as (st & d & others & Hrun & Hrev & Hv).
    exists st. split; [exact Hrun|].
    rewrite (get_summary_cagr_pct_dates cfg df st d others s e Hrev Hic' Hs He).
    assert (Hp0' : ~ (first_close cfg df 0 == 0)%Q) by Lqa.lra.
    assert (Hv' : (d_portfolio_value d
                   == initial_capital cfg / first_close cfg df 0 * last_close cfg df 0)%Q).
    { rewrite Hv. destruct Hflat as [Hb | Hf].
      - rewrite Hb. field. exact Hp0'.
      - rewrite Hf. field. exact Hp0'. }
    assert (Hfinal : (0 < d_portfolio_value d)%Q).
    { rewrite Hv'. apply Qmult_lt_0_compat; [|exact Hpe].
      apply Qlt_shift_div_l; Lqa.lra. }
    unfold period_days. rewrite cagr_pct_of_positive by assumption.
    do 5 f_equal.
    rewrite (Qeq_eqR _ _ Hv'), Q2R_mult, Q2R_div by exact Hp0'.
    assert (Q2R (initial_capital cfg) <> 0).
    { intro E. apply Hic'. apply eqR_Qeq. now rewrite E, RMicromega.Q2R_0. }
    assert (Q2R (first_close cfg df 0) <> 0).
    { intro E. apply Hp0'. apply eqR_Qeq. now rewrite E, RMicromega.Q2R_0. }
    field. split; assumption.
Qed.

End SummaryFacts.

(** * The exit phase on binary64 *)

Module ExitFacts.
Import PrimFloat.
Import Binary64.
Local Open Scope float_scope.

Section ExitLoop.

Variable cfg : Config.
Variable columns : list Col.
Variable date : Timestamp.
Variable row : Row.

Let sale (l : Lot) : option float := lot_exit cfg columns row l.

(** What the loop does with one lot. *)
Let visit (s : St) (l : Lot) : St :=
  match sale l with
  | Some exec_price => sell_lot cfg columns date row exec_price l s
  | None => s
  end.

Let sale_rows (l : Lot) : list Trade :=
  match sale l with
  | Some exec_price => [exit_trade cfg date exec_price l]
  | None => []
  end.

Lemma deploy_cash_keeps (s : St) :
  lots (deploy_cash cfg columns row s) = lots s
  /\ step_active_flags (deploy_cash cfg columns row s) = step_active_flags s
  /\ trade_log (deploy_cash cfg columns row s) = trade_log s
  /\ step_stats (deploy_cash cfg columns row s) = step_stats s.
Proof.
  unfold deploy_cash.
  destruct (0 <? cash_buffer_pct cfg).
  - destruct (_ <? _); [|now repeat split].
    destruct (0 <? _); now repeat split.
  - destruct (_ && _); now repeat split.
Qed.

(** The redeployment reads the cash and the holdings only. *)
Lemma deploy_cash_after_record (exec_price : float) (l : Lot) (s : St) :
  cash (deploy_cash cfg columns row (record_profit exec_price l s))
  = cash (deploy_cash cfg columns row s)
  /\ holdings (deploy_cash cfg columns row (record_profit exec_price l s))
     = holdings (deploy_cash cfg columns row s).
Proof.
  unfold deploy_cash, current_equity. simpl.
  destruct (0 <? cash_buffer_pct cfg).
  - destruct (_ <? _); [|now split].
    destruct (0 <? _); now split.
  - destruct (_ && _); now split.
Qed.

Lemma sell_lot_appends (exec_price : float) (l : Lot) (s : St) :
  trade_log (sell_lot cfg columns date row exec_price l s)
  = trade_log s ++ [exit_trade cfg date exec_price l].
Proof.
  unfold sell_lot, close_sale. simpl.
  destruct (deploy_cash_keeps (record_profit exec_price l (credit_exit exec_price l s)))
    as (_ & _ & H & _).
  now rewrite H.
Qed.

Lemma sell_lot_flags (exec_price : float) (l : Lot) (s : St) :
  step_active_flags (sell_lot cfg columns date row exec_price l s)
  = set_flag (step_active_flags s) (lot_step_idx l) false.
Proof.
  unfold sell_lot, close_sale. simpl.
  destruct (deploy_cash_keeps (record_profit exec_price l (credit_exit exec_price l s)))
    as (_ & H & _).
  now rewrite H.
Qed.

Lemma exit_loop_fold (ls : list Lot) :
  forall s,
    exit_loop cfg columns date row ls s
    = (fold_left visit ls s,
       filter (fun l => negb (sold_today cfg columns row l)) ls).
Proof.
  induction ls as [|l ls IH]; intro s; simpl; [reflexivity|].
  unfold visit at 2, sale, sold_today.
  destruct (lot_exit cfg columns row l) as [p|]; simpl.
  - apply IH.
  - now rewrite IH.
Qed.

Lemma visit_log (ls : list Lot) :
  forall s, trade_log (fold_left visit ls s) = trade_log s ++ flat_map sale_rows ls.
Proof.
  induction ls as [|l ls IH]; intro s; [simpl; now rewrite app_nil_r|].
  change (trade_log (fold_left visit ls (visit s l))
          = trade_log s ++ sale_rows l ++ flat_map sale_rows ls).
  assert (E : trade_log (visit s l) = trade_log s ++ sale_rows l).
  { unfold visit, sale_rows.
    destruct (sale l); [apply sell_lot_appends | now rewrite app_nil_r]. }
  now rewrite IH, E, app_assoc.
Qed.

Lemma visit_flag_stays_off (ls : list Lot) (i : nat) :
  forall s, flag_at (step_active_flags s) i = false ->
            flag_at (step_active_flags (fold_left visit ls s)) i = false.
Proof.
  induction ls as [|l ls IH]; intros s H; simpl; [exact H|].
  apply IH. unfold visit. destruct (sale l) as [p|]; [|exact H].
  now rewrite sell_lot_flags, flag_at_set_false, H.
Qed.

Lemma visit_flag_off (ls : list Lot) (l : Lot) :
  In l ls -> sale l <> None ->
  forall s, flag_at (step_active_flags (fold_left visit ls s)) (lot_step_idx l) = false.
Proof.
  intros Hin Hs. induction ls as [|l' ls IH]; intro s; [destruct Hin|].
  simpl. destruct Hin as [-> | Hin]; [|now apply IH].
  apply visit_flag_stays_off. unfold visit.
  destruct (sale l) as [p|]; [|congruence].
  rewrite sell_lot_flags, flag_at_set_false, Nat.eqb_refl. apply andb_false_r.
Qed.

Lemma check_exits_fold (s : St) :
  let after := check_exits cfg columns date row s in
  let folded := fold_left visit (lots s) s in
  cash after = cash folded
  /\ holdings after = holdings folded
  /\ step_active_flags after = step_active_flags folded
  /\ trade_log after = trade_log folded
  /\ step_stats after = step_stats folded
  /\ lots after = filter (fun l => negb (sold_today cfg columns row l)) (lots s).
Proof.
  unfold check_exits. rewrite exit_loop_fold. simpl. now repeat split.
Qed.

End ExitLoop.

(** C5, on the program's binary64 numbers.  For a lot whose close is not
    zero the loop decides as follows.  In [limit] mode the lot is sold at
    the open when the open reaches the profit-target price the code
    computes, [price * (1 + target / 100)]; otherwise at that computed
    target price when the high reaches it (the open is tested first);
    otherwise it is kept.  In any other mode it is sold, at the close,
    exactly when the computed close-based profit percent reaches the
    step's target percent.  A lot whose close is zero is kept.  Hence a day
    whose high reaches the computed target while the computed close-based
    percent stays below the target percent sells in [limit] mode and not
    under a configuration with the same steps in [close] mode.  The decision is carried out: the lots kept are exactly
    those the decision keeps, every lot it sells gets one [SELL (Profit)]
    row at the decided price, in the order of the lots, with value
    shares times price, the flag of its step ends the day cleared, and each
    sale credits shares times price to the cash and takes the shares off
    the holding before the cash is redeployed. *)
Theorem exit_mode_semantics (cfg : Config) (columns : list Col) (date : Timestamp)
    (row : Row) (st : St) :
  let sale l := lot_exit cfg columns row l in
  let after := check_exits cfg columns date row st in
  let visit s l :=
    match sale l with
    | Some exec_price => sell_lot cfg columns date row exec_price l s
    | None => s
    end in
  (forall lot : Lot,
     let c := prices_get columns row (lot_ticker lot) in
     let o := row_get columns row (FOpen, lot_ticker lot) c in
     let h := row_get columns row (FHigh, lot_ticker lot) c in
     let target := profit_target cfg lot in
     ((c =? 0) = true -> sale lot = None)
     /\ ((c =? 0) = false -> sell_mode cfg = "limit"%string ->
         ((target <=? o) = true -> sale lot = Some o)
         /\ ((target <=? o) = false -> (target <=? h) = true -> sale lot = Some target)
         /\ ((target <=? o) = false -> (target <=? h) = false -> sale lot = None))
     /\ ((c =? 0) = false -> sell_mode cfg <> "limit"%string ->
         ((target_pct_of cfg lot <=? profit_at c lot) = true -> sale lot = Some c)
         /\ ((target_pct_of cfg lot <=? profit_at c lot) = false -> sale lot = None)))
  /\ (forall (other : Config) (lot : Lot),
        let c := prices_get columns row (lot_ticker lot) in
        let h := row_get columns row (FHigh, lot_ticker lot) c in
        steps other = steps cfg ->
        sell_mode cfg = "limit"%string -> sell_mode other <> "limit"%string ->
        (c =? 0) = false ->
        (profit_target cfg lot <=? h) = true ->
        (target_pct_of cfg lot <=? profit_at c lot) = false ->
        sale lot <> None /\ lot_exit other columns row lot = None)
  /\ lots after = filter (fun l => negb (sold_today cfg columns row l)) (lots st)
  /\ trade_log after
     = trade_log st
       ++ flat_map (fun l => match sale l with
                             | Some exec_price => [exit_trade cfg date exec_price l]
                             | None => []
                             end) (lots st)
  /\ (forall (l : Lot) (exec_price : float),
        t_action (exit_trade cfg date exec_price l) = SellProfit (lot_entry_type l)
        /\ t_ticker (exit_trade cfg date exec_price l) = lot_ticker l
        /\ t_shares (exit_trade cfg date exec_price l) = lot_shares l
        /\ t_price (exit_trade cfg date exec_price l) = exec_price
        /\ t_value (exit_trade cfg date exec_price l) = lot_shares l * exec_price)
  /\ (forall l : Lot, In l (lots st) ->
        match sale l with
        | Some exec_price =>
            ~ In l (lots after)
            /\ In (exit_trade cfg date exec_price l) (trade_log after)
            /\ flag_at (step_active_flags after) (lot_step_idx l) = false
        | None => In l (lots after)
        end)
  /\ (forall (l : Lot) (exec_price : float) (s : St),
        let credited := credit_exit exec_price l s in
        let sold := sell_lot cfg columns date row exec_price l s in
        cash credited = cash s + lot_shares l * exec_price
        /\ hget (holdings credited) (lot_ticker l)
           = hget (holdings s) (lot_ticker l) - lot_shares l
        /\ cash sold = cash (deploy_cash cfg columns row credited)
        /\ holdings sold = holdings (deploy_cash cfg columns row credited)
        /\ lots sold = lots s)
  /\ cash after = cash (fold_left visit (lots st) st)
  /\ holdings after = holdings (fold_left visit (lots st) st).
Proof.
  intros sale after visit.
  destruct (check_exits_fold cfg columns date row st) as (Hc & Hh & Hf & Hl & _ & Hk).
  fold after in Hc, Hh, Hf, Hl, Hk.
  assert (Hlog : trade_log after
     = trade_log st
       ++ flat_map (fun l => match sale l with
                             | Some exec_price => [exit_trade cfg date exec_price l]
                             | None => []
                             end) (lots st)).
  { rewrite Hl. apply visit_log. }
  split; [|split; [|split; [|split; [|split; [|split; [|split; [|split]]]]]]].
  - intros lot c o h target. subst sale. cbv beta. unfold lot_exit. fold c.
    split; [|split].
    + intro E. now rewrite E.
    + intros E Hm. rewrite E. fold o h. unfold exit_price. rewrite Hm. simpl String.eqb.
      cbv iota. fold target. repeat split.
      * intro H. now rewrite H.
      * intros H1 H2. now rewrite H1, H2.
      * intros H1 H2. now rewrite H1, H2.
    + intros E Hm. rewrite E. fold o h. unfold exit_price.
      apply String.eqb_neq in Hm. rewrite Hm. split; intro H; now rewrite H.
  - intros other lot c h Hsteps Hm Hm' E Hh' Hc'. subst sale. cbv beta.
    unfold lot_exit. fold c. rewrite E. fold h. unfold exit_price.
    apply String.eqb_neq in Hm'. rewrite Hm, Hm'. simpl String.eqb. cbv iota.
    replace (target_pct_of other lot) with (target_pct_of cfg lot)
      by (unfold target_pct_of; now rewrite Hsteps).
    rewrite Hh', Hc'. split; [|reflexivity].
    set (o := row_get columns row (FOpen, lot_ticker lot) c).
    destruct (profit_target cfg lot <=? o); intro Hn; discriminate Hn.
  - exact Hk.
  - exact Hlog.
  - intros l p. now repeat split.
  - intros l Hin. destruct (sale l) as [p|] eqn:E.
    + split; [|split].
      * rewrite Hk. intro H. apply filter_In in H. destruct H as [_ H].
        unfold sold_today in H. subst sale. cbv beta in E. now rewrite E in H.
      * rewrite Hlog. apply in_or_app. right. apply in_flat_map.
        exists l. split; [exact Hin|]. rewrite E. now left.
      * rewrite Hf. apply (visit_flag_off cfg columns date row (lots st) l Hin).
        subst sale. cbv beta in E |- *. now rewrite E.
    + rewrite Hk. apply filter_In. split; [exact Hin|].
      unfold sold_today. subst sale. cbv beta in E. now rewrite E.
  - intros l p s credited sold. subst credited sold. repeat split.
    + unfold credit_exit. simpl. unfold hget, hset.
      apply dict_get_set_same, String.eqb_eq.
    + unfold sell_lot, close_sale. simpl. apply deploy_cash_after_record.
    + unfold sell_lot, close_sale. simpl. apply deploy_cash_after_record.
    + unfold sell_lot, close_sale. simpl.
      destruct (deploy_cash_keeps cfg columns row
                  (record_profit p l (credit_exit p l s))) as (H & _).
      now rewrite H.
  - exact Hc.
  - exact Hh.
Qed.


(** C5 fails as stated on a lot bought at 50 under a target of 10%, whose
    computed target price lies above 55.  On a day that opens at 54, peaks
    at 56 and closes at 55 the high reaches that target and the close stays
    below it, yet [close] mode sells the lot, at 55: the computed
    close-based percent is 10.  And on a day whose high is 55, the entry
    price plus 10%, [limit] mode sells nothing. *)
Lemma close_mode_sells_below_target :
  (55 <? profit_target (boundary_cfg "close") boundary_lot) = true
  /\ (profit_target (boundary_cfg "close") boundary_lot <=? 56) = true
  /\ (target_pct_of (boundary_cfg "close") boundary_lot <=? profit_at 55 boundary_lot) = true
  /\ lots (check_exits (boundary_cfg "close") boundary_columns 86400%Z
             (boundary_row 54 56 55) boundary_st) = []
  /\ trade_log (check_exits (boundary_cfg "close") boundary_columns 86400%Z
                  (boundary_row 54 56 55) boundary_st)
     = [exit_trade (boundary_cfg "close") 86400%Z 55 boundary_lot]
  /\ lots (check_exits (boundary_cfg "limit") boundary_columns 86400%Z
             (boundary_row 54 56 55) boundary_st) = []
  /\ (50 + 50 * 10 / 100 =? 55) = true
  /\ check_exits (boundary_cfg "limit") boundary_columns 86400%Z
       (boundary_row 54 55 54) boundary_st = boundary_st.
Proof.
  repeat split; vm_compute; reflexivity.
Qed.


Lemma exit_mode_semantics_witness :
  lot_exit (boundary_cfg "limit") boundary_columns (boundary_row 54 56 54.5) boundary_lot
  = Some (profit_target (boundary_cfg "limit") boundary_lot)
  /\ lot_exit (boundary_cfg "close") boundary_columns (boundary_row 54 56 54.5) boundary_lot
     = None
  /\ ~ In boundary_lot
         (lots (check_exits (boundary_cfg "limit") boundary_columns 86400%Z
                  (boundary_row 54 56 54.5) boundary_st)).
Proof.
  pose proof (exit_mode_semantics (boundary_cfg "limit") boundary_columns 86400%Z
                (boundary_row 54 56 54.5) boundary_st) as H.
  cbv zeta in H. destruct H as (Hl & Hd & _ & _ & _ & Hs & _).
  assert (E : lot_exit (boundary_cfg "limit") boundary_columns (boundary_row 54 56 54.5)
                boundary_lot
              = Some (profit_target (boundary_cfg "limit") boundary_lot)).
  { destruct (Hl boundary_lot) as (_ & H & _).
    destruct H as (_ & H & _); [reflexivity | reflexivity |].
    apply H; reflexivity. }
  split; [exact E|]. split.
  - apply (Hd (boundary_cfg "close") boundary_lot);
      first [reflexivity | discriminate].
  - specialize (Hs boundary_lot (or_introl eq_refl)).
    rewrite E in Hs. apply Hs.
Defined.

End ExitFacts.


(** * Cash and trades on binary64 *)

Module CashFacts.
Import PrimFloat.
Import Binary64.
#[local] Set Warnings "-inexact-float".
Local Open Scope float_scope.

Lemma liquidate_fold (columns : list Col) (date : Timestamp) (row : Row) (h : Holdings) :
  forall c : float,
    liquidate columns date row h c
    = (fold_left (fun acc ts => acc + snd ts * prices_get columns row (fst ts))
                 (filter (fun ts => 0 <? snd ts) h) c,
       map (fun ts => if 0 <? snd ts then (fst ts, 0) else ts) h,
       map (fun ts => plain_trade date SellDefensive (fst ts) (snd ts)
                        (prices_get columns row (fst ts))
                        (snd ts * prices_get columns row (fst ts)))
           (filter (fun ts => 0 <? snd ts) h)).
Proof.
  induction h as [|[t s] h IH]; intro c; simpl; [reflexivity|].
  destruct (0 <? s); simpl; now rewrite IH.
Qed.

Lemma credit_values {A : Type} (f : A -> Trade) (l : list A) :
  forall c : float,
    fold_left (fun acc t => acc + t_value t) (map f l) c
    = fold_left (fun acc a => acc + t_value (f a)) l c.
Proof.
  induction l as [|a l IH]; intro c; simpl; [reflexivity | apply IH].
Qed.

(** C4, on the program's binary64 numbers.  Three kinds of trade move the
    cash by the value of their row: an exit credits shares times execution
    price, each sale of the defensive liquidation credits shares times
    close, and the re-entry after it debits its cost.  The other two do
    not.  The row of an entry carries [shift_val]: the sale takes
    [shift_val / base_price] shares off the base holding and credits
    exactly [shift_val]; the purchase adds [shift_val / buy_price] shares of
    the target and debits [cost], the product of those shares and the
    price, which is also the cost recorded in the lot; so the entry leaves
    the cash at [cash + shift_val - cost], in the drop loop and in the
    forced entry alike, and when the target has no positive price the base
    is sold all the same and nothing is logged.  The initial purchase
    leaves the cash as it is: its row carries the cost, and the cash is the
    buffer share of the capital from the start. *)
Theorem trades_conserve_cash (cfg : Config) (columns : list Col) (date : Timestamp)
    (row : Row) (st : St) :
  let base := base_ticker cfg in
  let price t := prices_get columns row t in
  (forall shift_val base_price : float,
      let sold := sell_base cfg shift_val base_price st in
      cash sold = cash st + shift_val
      /\ hget (holdings sold) base = hget (holdings st) base - shift_val / base_price)
  /\ (forall (et : EntryType) (idx : nat) (t : string) (shift_val buy_price : float),
        let shares_to_buy := shift_val / buy_price in
        let cost := shares_to_buy * buy_price in
        let bought := open_lot date et idx t shift_val buy_price st in
        cash bought = cash st - cost
        /\ hget (holdings bought) t = hget (holdings st) t + shares_to_buy
        /\ lots bought
           = lots st ++ [{| lot_ticker := t; lot_shares := shares_to_buy;
                            lot_price := buy_price; lot_step_idx := idx;
                            lot_cost := cost; lot_buy_date := date;
                            lot_entry_type := et |}])
  /\ (forall (port_value : float) (i : nat) (step : Step),
        let shift_val := port_value * (shift_pct step / 100) in
        let buy_price := price (ticker step) in
        let cost := shift_val / buy_price * buy_price in
        let dropped := drop_switch cfg columns date row port_value i step st in
        let forced := forced_switch cfg columns date row port_value i step st in
        ((0 <? buy_price) = true ->
         cash dropped = cash st + shift_val - cost
         /\ trade_log dropped
            = trade_log st ++ [entry_trade cfg date Switch i (ticker step) shift_val
                                 buy_price (drop_pct step)]
         /\ cash forced = cash st + shift_val - cost
         /\ trade_log forced
            = trade_log st ++ [entry_trade cfg date ForceIdle i (ticker step) shift_val
                                 buy_price 0]
         /\ t_value (entry_trade cfg date Switch i (ticker step) shift_val
                       buy_price (drop_pct step)) = shift_val
         /\ t_value (entry_trade cfg date ForceIdle i (ticker step) shift_val
                       buy_price 0) = shift_val)
        /\ ((0 <? buy_price) = false ->
            cash dropped = cash st + shift_val /\ trade_log dropped = trade_log st
            /\ cash forced = cash st + shift_val /\ trade_log forced = trade_log st))
  /\ (forall (exec_price : float) (lot : Lot),
        let credited := credit_exit exec_price lot st in
        cash credited = cash st + t_value (exit_trade cfg date exec_price lot)
        /\ t_value (exit_trade cfg date exec_price lot) = lot_shares lot * exec_price
        /\ hget (holdings credited) (lot_ticker lot)
           = hget (holdings st) (lot_ticker lot) - lot_shares lot
        /\ trade_log (sell_lot cfg columns date row exec_price lot st)
           = trade_log st ++ [exit_trade cfg date exec_price lot])
  /\ (let sales :=
        map (fun ts => plain_trade date SellDefensive (fst ts) (snd ts) (price (fst ts))
                         (snd ts * price (fst ts)))
            (filter (fun ts => 0 <? snd ts) (holdings st)) in
      trade_log (go_defensive cfg columns date row st) = trade_log st ++ sales
      /\ cash (go_defensive cfg columns date row st)
         = fold_left (fun acc t => acc + t_value t) sales (cash st)
      /\ holdings (go_defensive cfg columns date row st)
         = map (fun ts => if 0 <? snd ts then (fst ts, 0) else ts) (holdings st))
  /\ ((0 <? price base) = true ->
      let s_buy := cash st * (1 - cash_buffer_pct cfg / 100) / price base in
      let bought := plain_trade date BuyResume base s_buy (price base)
                      (s_buy * price base) in
      trade_log (resume_market cfg columns date row st) = trade_log st ++ [bought]
      /\ cash (resume_market cfg columns date row st) = cash st - t_value bought
      /\ hget (holdings (resume_market cfg columns date row st)) base
         = hget (holdings st) base + s_buy)
  /\ cash (initial_buy cfg columns date row st) = cash st
  /\ (forall add_tickers : list string,
        cash (initial_buy cfg columns date row (initial_state cfg add_tickers))
        = initial_capital cfg * (cash_buffer_pct cfg / 100))
  /\ (existsb (col_eqb (FClose, base)) columns = true ->
      (0 <? row (FClose, base)) = true ->
      let p0 := row (FClose, base) in
      let shares := (initial_capital cfg - cash st) / p0 in
      hget (holdings (initial_buy cfg columns date row st)) base = shares
      /\ trade_log (initial_buy cfg columns date row st)
         = trade_log st
           ++ [{| t_date := date; t_action := BuyInit; t_ticker := base; t_into := None;
                  t_shares := shares; t_price := p0; t_value := shares * p0;
                  t_step_idx := None; t_drop_pct := None; t_profit_amt := None;
                  t_profit_pct := None; t_buy_date := None; t_days_held := None |}]).
Proof.
  intros base price.
  assert (Hsame : forall (h : Holdings) (t : string) (v : float), hget (hset h t v) t = v).
  { intros h t v. apply dict_get_set_same, String.eqb_eq. }
  split; [|split; [|split; [|split; [|split; [|split; [|split; [|split]]]]]]].
  - intros shift_val base_price sold. subst sold. split; [reflexivity|].
    unfold sell_base. simpl. apply Hsame.
  - intros et idx t shift_val buy_price shares_to_buy cost bought. subst bought.
    split; [reflexivity|]. split; [|reflexivity].
    unfold open_lot. simpl. apply Hsame.
  - intros port_value i step shift_val buy_price cost dropped forced.
    subst dropped forced. unfold drop_switch, forced_switch.
    fold (price (ticker step)). fold buy_price. fold shift_val.
    split; intro Hp; rewrite Hp; now repeat split.
  - intros exec_price lot credited. subst credited.
    split; [reflexivity|]. split; [reflexivity|]. split.
    + unfold credit_exit. simpl. apply Hsame.
    + apply ExitFacts.sell_lot_appends.
  - intro sales. unfold go_defensive. rewrite liquidate_fold. simpl.
    split; [reflexivity|]. split; [|reflexivity].
    subst sales. now rewrite credit_values.
  - intros Hp s_buy bought. unfold resume_market. fold base. fold (price base).
    rewrite Hp. simpl. split; [reflexivity|]. split; [reflexivity | apply Hsame].
  - unfold initial_buy. now destruct (0 <? _).
  - intro add_tickers. unfold initial_buy. now destruct (0 <? _).
  - intros Hcol Hpos p0 shares. unfold initial_buy. fold base.
    rewrite Hcol, Hpos. simpl. split; [apply Hsame | reflexivity].
Qed.

(** C4 fails as stated in two places, on a run with a capital of 10000 and
    no cash buffer.  The initial purchase at 33 logs a row with a positive
    value while the cash stays at 0.  On the day the base closes at 31 and
    the target at 7, the base held covers the 10% of the portfolio to be
    moved, and the entry logs one [SWITCH] row worth the shift value,
    credits that value and debits a cost above it: the cash ends below
    zero, not at the cash before plus and minus the value of the trade, and
    the cash plus the holdings at the day's closes is no longer what it
    was before the entry. *)
Lemma switch_leaves_negative_cash :
  cash (initial_state switch_cfg ["SSO"%string]) = 0
  /\ cash switch_st = 0
  /\ (exists t, trade_log switch_st = [t]
                /\ t_action t = BuyInit /\ (0 <? t_value t) = true)
  /\ (hget (holdings switch_st) "QQQ" * 31 <? switch_val * 0.9) = false
  /\ (exists t, trade_log switch_after = trade_log switch_st ++ [t]
                /\ t_action t = Switch /\ t_value t = switch_val)
  /\ (switch_val <? switch_val / 7 * 7) = true
  /\ (cash switch_after <? 0) = true
  /\ (cash switch_after =? cash switch_st + switch_val - switch_val) = false
  /\ (current_equity boundary_columns (switch_row 31 7) switch_after
      =? current_equity boundary_columns (switch_row 31 7) switch_st) = false.
Proof.
  repeat split; try (vm_compute; reflexivity);
    (eexists; split; [vm_compute; reflexivity|]; split; vm_compute; reflexivity).
Qed.

Lemma trades_conserve_cash_witness :
  cash switch_after = cash switch_st + switch_val - switch_val / 7 * 7
  /\ hget (holdings switch_st) "QQQ"
     = (10000 - cash (initial_state switch_cfg ["SSO"%string])) / 33.
Proof.
  split.
  - pose proof (trades_conserve_cash switch_cfg boundary_columns 86400%Z
                  (switch_row 31 7) switch_st) as H.
    cbv zeta in H. destruct H as (_ & _ & H & _).
    destruct (H switch_port_value 0%nat switch_step) as (H1 & _).
    destruct H1 as (H1 & _); [reflexivity|]. exact H1.
  - pose proof (trades_conserve_cash switch_cfg boundary_columns 0%Z
                  (switch_row 33 8) (initial_state switch_cfg ["SSO"%string])) as H.
    cbv zeta in H. destruct H as (_ & _ & _ & _ & _ & _ & _ & _ & H).
    destruct H as (H & _); [reflexivity | reflexivity |].
    exact H.
Defined.

End CashFacts.


(** * The theorems at work on concrete runs *)

Ltac by_evaluation :=
  vm_compute; first [ reflexivity | discriminate | intro; discriminate ].

Lemma throttle_semantics_witness :
  exists st2,
    drop_entries throttle_cfg oversell_df 86400%Z oversell_row1 9000 10 0
                 [oversell_step0; oversell_step1] oversell_st0 = Done st2
    /\ buy_history st2 = buy_history oversell_st0 ++ [86400%Z]
    /\ trade_log st2 = trade_log throttle_st1 ++ [skip_trade 86400%Z 1 oversell_step1].
Proof.
  destruct (throttle_semantics throttle_cfg [] 86400%Z) as (_ & _ & _ & _ & H).
  destruct (H oversell_df oversell_row1 9000 10 oversell_step0 oversell_step1
              oversell_st0 throttle_st1) as (st2 & H1 & H2 & H3 & _);
    try by_evaluation.
  exists st2. repeat split; assumption.
Defined.

Lemma drop_entry_without_target_price_witness :
  exists st',
    drop_entry oversell_cfg no_target_df 86400%Z oversell_row1 9000 10 0
               oversell_step0 oversell_st0 = Done st'
    /\ cash st' = cash oversell_st0 + 9000 * (shift_pct oversell_step0 / 100)
    /\ lots st' = lots oversell_st0
    /\ trade_log st' = trade_log oversell_st0.
Proof.
  destruct (drop_entry_without_target_price oversell_cfg no_target_df 86400%Z
              oversell_row1 9000 10 0 oversell_step0 oversell_st0)
    as (st' & H1 & H2 & _ & _ & _ & _ & H7 & _ & _ & H10);
    try by_evaluation.
  exists st'. repeat split; assumption.
Defined.

Lemma one_open_lot_per_step_witness :
  (List.length (lots_of 0 (lots oversell_final)) <= 1)%nat
  /\ List.length (lots_of 0 (lots oversell_final))
     = (if flag_at (step_active_flags oversell_final) 0 then 1 else 0)%nat.
Proof.
  apply (proj2 (one_open_lot_per_step oversell_cfg oversell_df) oversell_final).
  by_evaluation.
Defined.

Lemma forced_entry_excludes_drops_witness :
  date_of (t_date (nth_trade idle_final 1)) <> date_of (t_date (nth_trade idle_final 2)).
Proof.
  destruct (forced_entry_excludes_drops idle_cfg idle_df) as (_ & _ & H).
  apply (H ltac:(vm_compute; repeat constructor; simpl; intuition discriminate)
           idle_final).
  - by_evaluation.
  - unfold nth_trade. apply nth_In. vm_compute. lia.
  - unfold nth_trade. apply nth_In. vm_compute. lia.
  - by_evaluation.
  - by_evaluation.
Defined.

Lemma same_day_reentry_witness :
  exists pk pv dd st_exit st_entry,
    st_exit = check_exits reentry_cfg reentry_df 86400%Z reentry_row1
                (set_peak_price pk reentry_day1)
    /\ check_entries reentry_cfg reentry_df 86400%Z reentry_row1 pv dd st_exit
       = Done st_entry
    /\ reentry_day2
       = record_day (daily_record reentry_cfg reentry_df 86400%Z reentry_row1
                       pk dd pv st_entry) st_entry.
Proof.
  apply (proj1 same_day_reentry reentry_cfg reentry_df 86400%Z reentry_row1
           reentry_day1 reentry_day2); by_evaluation.
Defined.

Lemma missing_base_close_witness :
  List.length (daily_stats no_close_final) = List.length (df_rows no_close_df)
  /\ Forall (fun d => d_price d = 0) (daily_stats no_close_final).
Proof.
  destruct (missing_base_close no_close_cfg no_close_df) as (_ & _ & H & _).
  - by_evaluation.
  - apply H; by_evaluation.
Defined.

Module SummaryWitness.
Import Reals Qreals.
Import Summary.

Lemma cagr_from_caller_dates_witness :
  exists st,
    run hold_cfg hold_df = Done st
    /\ get_summary_cagr_pct hold_cfg hold_df st
       = Done (Some ((Rpower (Q2R (last_close hold_cfg hold_df 0)
                              / Q2R (first_close hold_cfg hold_df 0))
                             (365.25 / IZR (days_between 31536000%Z 0%Z + 1)) - 1)
                     * 100)%R).
Proof.
  apply (proj2 (SummaryFacts.cagr_from_caller_dates hold_cfg hold_df 0%Z 31536000%Z
                  eq_refl eq_refl eq_refl eq_refl));
    try by_evaluation.
  left. by_evaluation.
Defined.

End SummaryWitness.

(** * Further properties of the engine *)

(** ** The order of the steps *)

Lemma insert_step_perm (s : Step) (l : list Step) : Permutation (insert_step s l) (s :: l).
Proof.
  induction l as [|y rest IH]; simpl.
  - apply Permutation_refl.
  - destruct (Qleb (Qabs (drop_pct s)) (Qabs (drop_pct y))).
    + apply Permutation_refl.
    + apply Permutation_trans with (y :: s :: rest).
      * now apply perm_skip.
      * apply perm_swap.
Qed.

Lemma insert_step_sorted (s : Step) (l : list Step) :
  StronglySorted by_trigger l -> StronglySorted by_trigger (insert_step s l).
Proof.
  induction l as [|y rest IH]; simpl; intro H.
  - constructor; [constructor | constructor].
  - inversion H as [|? ? Hrest Hall]; subst.
    destruct (Qleb (Qabs (drop_pct s)) (Qabs (drop_pct y))) eqn:E.
    + apply Qleb_le in E. constructor; [exact H|].
      constructor; [exact E|].
      eapply Forall_impl; [|exact Hall].
      intros z Hz. unfold by_trigger in *. lra.
    + apply Qleb_gt in E. constructor; [now apply IH|].
      apply (Permutation_Forall (Permutation_sym (insert_step_perm s rest))).
      constructor; [unfold by_trigger; lra | exact Hall].
Qed.

Lemma insert_step_stable (k : Q) (s : Step) (l : list Step) :
  filter (with_trigger k) (insert_step s l) = filter (with_trigger k) (s :: l).
Proof.
  induction l as [|y rest IH]; [reflexivity|].
  simpl insert_step.
  destruct (Qleb (Qabs (drop_pct s)) (Qabs (drop_pct y))) eqn:E; [reflexivity|].
  apply Qleb_gt in E.
  change (filter (with_trigger k) (y :: insert_step s rest))
    with (if with_trigger k y then y :: filter (with_trigger k) (insert_step s rest)
          else filter (with_trigger k) (insert_step s rest)).
  rewrite IH. simpl.
  destruct (with_trigger k y) eqn:Ey; [|reflexivity].
  destruct (with_trigger k s) eqn:Es; [|reflexivity].
  unfold with_trigger, Qeqb in Ey, Es.
  apply Qeq_bool_iff in Ey. apply Qeq_bool_iff in Es. lra.
Qed.

(** X1. [self.steps] is the caller's list of steps in ascending order of the
    size of the drawdown trigger: the same steps, sorted, and the sort is
    stable, so steps whose triggers have the same size keep the order in
    which they were given. *)
Theorem sort_steps_stable_sort (l : list Step) :
  Permutation (sort_steps l) l
  /\ StronglySorted by_trigger (sort_steps l)
  /\ forall k, filter (with_trigger k) (sort_steps l) = filter (with_trigger k) l.
Proof.
  induction l as [|s rest [IHp [IHs IHf]]].
  - repeat split; simpl; constructor.
  - change (sort_steps (s :: rest)) with (insert_step s (sort_steps rest)).
    split; [|split].
    + apply Permutation_trans with (s :: sort_steps rest).
      * apply insert_step_perm.
      * now apply perm_skip.
    + now apply insert_step_sorted.
    + intro k. rewrite insert_step_stable. simpl. now rewrite IHf.
Qed.

(** ** The throttle as the history grows *)

Lemma count_if_le_app {A : Type} (f : A -> bool) (l l' : list A) :
  (count_if f l <= count_if f (l ++ l'))%Z /\ (count_if f l <= count_if f (l' ++ l))%Z.
Proof.
  rewrite !count_if_app.
  pose proof (count_if_nonneg f l'). lia.
Qed.

Lemma count_if_one {A : Type} (f : A -> bool) (l : list A) (x : A) :
  count_if f (l ++ [x]) = (count_if f l + if f x then 1 else 0)%Z.
Proof.
  rewrite count_if_app. unfold count_if at 2. simpl.
  now destruct (f x).
Qed.

(** X2. An empty buy history never blocks a buy; a buy that the throttle
    blocks stays blocked however the history grows; and a buy dated after
    the current date, or more than six days before it, does not count
    against either limit. *)
Theorem check_buy_limits_monotone (cfg : Config) (today : Timestamp) :
  check_buy_limits cfg [] today = true
  /\ (forall h h', check_buy_limits cfg h today = false ->
        check_buy_limits cfg (h ++ h') today = false
        /\ check_buy_limits cfg (h' ++ h) today = false)
  /\ (forall h t,
        (date_of today < date_of t \/ date_of t < date_of today - 6)%Z ->
        check_buy_limits cfg (h ++ [t]) today = check_buy_limits cfg h today).
Proof.
  split; [|split].
  - destruct (check_buy_limits cfg [] today) eqn:E; [reflexivity|].
    apply check_buy_limits_blocked in E. unfold count_if in E. simpl in E. lia.
  - intros h h' H. apply check_buy_limits_blocked in H.
    pose proof (count_if_le_app (same_day today) h h') as [D1 D2].
    pose proof (count_if_le_app (in_week today) h h') as [W1 W2].
    split; apply check_buy_limits_blocked; lia.
  - intros h t Ht. unfold check_buy_limits. rewrite !count_if_one.
    assert (Hd : same_day today t = false).
    { destruct (same_day today t) eqn:E; [|reflexivity].
      apply same_day_spec in E. lia. }
    assert (Hw : in_week today t = false).
    { destruct (in_week today t) eqn:E; [|reflexivity].
      apply in_week_spec in E. lia. }
    rewrite Hd, Hw, !Z.add_0_r. reflexivity.
Qed.

(** ** The phases of a day *)

Section Phases.

Variable cfg : Config.
Variable df : DataFrame.
Variable date : Timestamp.
Variable row : Row.


End Phases.

(** ** The fields that only a buy changes *)

Lemma same_buys_refl (st : St) : same_buys st st.
Proof. repeat split. Qed.

Lemma same_buys_trans (st1 st2 st3 : St) :
  same_buys st1 st2 -> same_buys st2 st3 -> same_buys st1 st3.
Proof.
  intros [A1 [A2 [A3 A4]]] [B1 [B2 [B3 B4]]].
  repeat split; congruence.
Qed.

Lemma same_buys_log_all (lg : list Trade) :
  forall st, same_buys st (fold_left (fun s t => log_trade t s) lg st).
Proof.
  induction lg as [|t rest IH]; intro st; simpl.
  - apply same_buys_refl.
  - apply same_buys_trans with (log_trade t st); [repeat split | apply IH].
Qed.




Section BuyFrames.

Variable cfg : Config.
Variable df : DataFrame.
Variable date : Timestamp.
Variable row : Row.














End BuyFrames.

(** ** Buys of a day and of a run *)



Section DayBuys.

Variable cfg : Config.
Variable df : DataFrame.
Variable date : Timestamp.
Variable row : Row.

Let today (st : St) : Z := count_if (same_day date) (buy_history st).







End DayBuys.






(** ** The weekly limit when no entry is forced *)



Lemma within_week_limit_later (cfg : Config) (date date' : Timestamp) (h : list Timestamp) :
  (date_of date <= date_of date')%Z ->
  within_week_limit cfg date h -> within_week_limit cfg date' h.
Proof.
  intros Hle [Hpast Hlim]. split; [|exact Hlim].
  intros t Ht. specialize (Hpast t Ht). lia.
Qed.

Section WeeklyLimit.

Variable cfg : Config.
Variable df : DataFrame.
Hypothesis weekly : (0 < max_buys_week cfg)%Z.
Hypothesis not_forced : (force_buy_days cfg <= 0)%Z.





End WeeklyLimit.


(** ** The record of a day *)

Section DayRecord.

Variable cfg : Config.
Variable df : DataFrame.
Variable date : Timestamp.
Variable row : Row.

Let close := prices_get df row.




End DayRecord.




(** ** What the records hold *)





(** ** Out of the market *)

Section Liquidation.

Variable cfg : Config.
Variable df : DataFrame.
Variable date : Timestamp.
Variable row : Row.

Lemma liquidate_spec (h : Holdings) :
  forall c,
    snd (fst (liquidate df date row h c))
    = map (fun ts => if held_long ts then (fst ts, 0) else ts) h
    /\ snd (liquidate df date row h c)
       = map (defensive_sale df date row) (filter held_long h)
    /\ fst (fst (liquidate df date row h c))
       == c + qsum (map (fun ts => snd ts * prices_get df row (fst ts)) (filter held_long h)).
Proof.
  induction h as [|[t s] rest IH]; intro c; simpl.
  - repeat split. ring.
  - change (held_long (t, s)) with (Qltb 0 s).
    destruct (Qltb 0 s).
    + specialize (IH (c + s * prices_get df row t)).
      destruct (liquidate df date row rest (c + s * prices_get df row t)) as [[c' h'] lg].
      simpl in *. destruct IH as [-> [-> Hc]].
      repeat split. rewrite Hc. ring.
    + specialize (IH c).
      destruct (liquidate df date row rest c) as [[c' h'] lg].
      simpl in *. destruct IH as [-> [-> Hc]].
      repeat split. exact Hc.
Qed.

Lemma hget_liquidated (h : Holdings) (t : string) :
  hget (map (fun ts => if held_long ts then (fst ts, 0) else ts) h) t
  = if Qltb 0 (hget h t) then 0 else hget h t.
Proof.
  unfold hget. induction h as [|[t' s] rest IH]; simpl; [reflexivity|].
  change (held_long (t', s)) with (Qltb 0 s).
  destruct (Qltb 0 s) eqn:Es; simpl; destruct (String.eqb t t'); try exact IH;
    now rewrite Es.
Qed.

Lemma flag_at_all_inactive (i : nat) : flag_at (all_inactive cfg) i = false.
Proof.
  unfold flag_at, all_inactive.
  generalize (steps cfg). intro l. revert i.
  induction l as [|s rest IH]; intro i; destruct i; simpl; auto.
Qed.

End Liquidation.

(** X10. Leaving the market.  The defensive switch sells every holding with
    a positive share count at the day's close (a missing close counts as 0)
    and leaves the other holdings as they are; the cash grows by the worth
    of what was sold, one [SELL (Defensive)] row is written per sale, in the
    order of the holdings.  The open lots are dropped and every step flag
    is reset without any profit being recorded: the step statistics and the
    buy history stay as they were. *)
Theorem liquidation_sells_every_long_holding
    (cfg : Config) (df : DataFrame) (date : Timestamp) (row : Row) (st : St) :
  let st' := go_defensive cfg df date row st in
  let sold := filter held_long (holdings st) in
  active_defensive st' = true
  /\ (forall t, hget (holdings st') t
                = if Qltb 0 (hget (holdings st) t) then 0 else hget (holdings st) t)
  /\ cash st' == cash st + qsum (map (fun ts => snd ts * prices_get df row (fst ts)) sold)
  /\ trade_log st' = trade_log st ++ map (defensive_sale df date row) sold
  /\ lots st' = []
  /\ (forall i, flag_at (step_active_flags st') i = false)
  /\ step_stats st' = step_stats st
  /\ buy_history st' = buy_history st.
Proof.
  intros st' sold. unfold st', go_defensive.
  pose proof (liquidate_spec df date row (holdings st) (cash st)) as [Hh [Hl Hc]].
  destruct (liquidate df date row (holdings st) (cash st)) as [[c h] lg].
  simpl in Hh, Hl, Hc. fold sold in Hl, Hc.
  match goal with
  | |- context [fold_left ?f lg ?s] =>
      destruct (log_all_frame lg s) as (H1 & H2 & _ & _ & _ & H6 & _ & H8);
      pose proof (same_buys_log_all lg s) as (B1 & _ & _ & _);
      assert (B3 : step_stats (fold_left f lg s) = step_stats s)
  end.
  { clear. revert c h. generalize (is_ma_paused st). revert st.
    induction lg as [|t rest IH]; intros st b c h; [reflexivity|].
    simpl. specialize (IH (log_trade t st) b c h). simpl in IH. exact IH. }
  simpl. rewrite H1, H2, H6, H8, B1, B3. simpl.
  split; [reflexivity|].
  split; [intro t; rewrite Hh; apply hget_liquidated|].
  split; [exact Hc|].
  split; [now rewrite Hl|].
  split; [reflexivity|].
  split; [intro i; apply flag_at_all_inactive|].
  split; reflexivity.
Qed.



(** ** The rows a day writes *)

Section DayRows.

Variable cfg : Config.
Variable df : DataFrame.
Variable date : Timestamp.
Variable row : Row.

Let today := day_row cfg df date row.









End DayRows.



(** ** The order of the trade log *)










(** ** The step statistics *)








Section StatsKeys.

Variable cfg : Config.
Variable df : DataFrame.
Variable date : Timestamp.
Variable row : Row.










End StatsKeys.



(** ** The step metrics *)





(** * The further properties at work on concrete runs *)








